(** * The sign-in / registration flow of the knowledge-base dashboard

    A shallow embedding of [src/App.jsx], [src/components/Login.jsx] and
    the display-name fallback of [src/components/Dashboard.jsx].

    - JavaScript strings are sequences of UTF-16 code units ([jsstring]).
    - JavaScript values that can come out of a JSON body are [JValue].
    - [localStorage] is a finite map from strings to strings.
    - React state is an explicit record; the [async] handlers are split at
      their single [await] into the part that runs on the triggering event
      and the continuation that runs when the request settles. *)

From Stdlib Require Import ZArith NArith Ascii String DecimalString List Bool Lia.
From stdpp Require Import gmap strings list fin_maps.

Set Warnings "-register-all".
Local Open Scope N_scope.

(** ** Strings *)

Definition jsstring := list N.

(** A literal of the source, as code units.  Rocq strings have no escape
    sequences: each character between the quotes is one code unit. *)
Definition js (s : string) : jsstring :=
  map N_of_ascii (list_ascii_of_string s).

(** ECMAScript [WhiteSpace] and [LineTerminator] code units: the ones
    [String.prototype.trim] strips. *)
Definition is_js_whitespace (c : N) : bool :=
  (c =? 9) || (c =? 10) || (c =? 11) || (c =? 12) || (c =? 13) || (c =? 32)
  || (c =? 160) || (c =? 5760) || ((8192 <=? c) && (c <=? 8202))
  || (c =? 8232) || (c =? 8233) || (c =? 8239) || (c =? 8287)
  || (c =? 12288) || (c =? 65279).

Fixpoint trimStart (s : jsstring) : jsstring :=
  match s with
  | c :: rest => if is_js_whitespace c then trimStart rest else s
  | [] => []
  end.

Definition trimEnd (s : jsstring) : jsstring := rev (trimStart (rev s)).

(** [s.trim()] *)
Definition trim (s : jsstring) : jsstring := trimEnd (trimStart s).

(** ** Values *)

(** A number is identified by the text [Number::toString] gives for it
    (["202"], ["1.5"], ["1e+21"], ["NaN"]): every use of a number in the
    modelled code goes through that text or through a test against zero. *)
Inductive JValue : Type :=
| JUndefined
| JNull
| JBool (b : bool)
| JNum (text : jsstring)
| JStr (s : jsstring)
| JArr (items : list JValue)
| JObj (fields : list (jsstring * JValue)).

(** [ToBoolean]: what [v ? _ : _], [v && _] and [!v] test. *)
Definition truthy (v : JValue) : bool :=
  match v with
  | JUndefined | JNull => false
  | JBool b => b
  | JNum t => negb (bool_decide (t = js "0")) && negb (bool_decide (t = js "NaN"))
  | JStr s => negb (bool_decide (s = []))
  | JArr _ | JObj _ => true
  end.

Definition str_truthy (s : jsstring) : bool := negb (bool_decide (s = [])).

(** [typeof v === 'string'] *)
Definition typeof_string (v : JValue) : bool :=
  match v with JStr _ => true | _ => false end.

Fixpoint assoc (k : jsstring) (fields : list (jsstring * JValue)) : option JValue :=
  match fields with
  | [] => None
  | (k', v) :: rest => if bool_decide (k' = k) then Some v else assoc k rest
  end.

(** [v.k] for one of the property names the source reads ([status],
    [access_token], [username], [name], [token]); every such read in the
    source is on a value already tested truthy, so it does not throw, and
    on anything but an object these names are not defined. *)
Definition get (v : JValue) (k : string) : JValue :=
  match v with
  | JObj fields => default JUndefined (assoc (js k) fields)
  | _ => JUndefined
  end.

(** [v === 'lit'] *)
Definition strict_eq_str (v : JValue) (lit : string) : bool :=
  match v with JStr s => bool_decide (s = js lit) | _ => false end.

Definition has_key (k : string) (fields : list (jsstring * JValue)) : bool :=
  bool_decide (is_Some (assoc (js k) fields)).

Definition join_with (sep : jsstring) (parts : list jsstring) : jsstring :=
  match parts with
  | [] => []
  | p :: ps => p ++ concat (map (fun q => sep ++ q) ps)
  end.

Definition sequence {A} (l : list (option A)) : option (list A) :=
  fold_right (fun o acc => match o, acc with Some x, Some xs => Some (x :: xs) | _, _ => None end)
             (Some []) l.

(** [ToString(v)], the conversion [localStorage.setItem] applies to its
    value argument.  [None] is a thrown [TypeError]: an object whose own
    [toString] property hides [Object.prototype.toString] has no callable
    conversion left (a value read from JSON is never callable). *)
Fixpoint ToString (v : JValue) : option jsstring :=
  match v with
  | JUndefined => Some (js "undefined")
  | JNull => Some (js "null")
  | JBool true => Some (js "true")
  | JBool false => Some (js "false")
  | JNum t => Some t
  | JStr s => Some s
  | JArr items =>
      (* Array.prototype.join: undefined and null elements give the empty string *)
      option_map (join_with (js ","))
        (sequence (map (fun x => match x with
                                 | JUndefined | JNull => Some []
                                 | _ => ToString x
                                 end) items))
  | JObj fields =>
      if has_key "toString" fields then None else Some (js "[object Object]")
  end.

(** ** JSON.stringify *)

Definition hex_digit (n : N) : N :=
  if n <? 10 then 48 + n else 87 + n.

(** [UnicodeEscape]: a backslash, [u] and four lowercase hex digits. *)
Definition UnicodeEscape (c : N) : jsstring :=
  [92; 117; hex_digit (c / 4096 mod 16); hex_digit (c / 256 mod 16);
   hex_digit (c / 16 mod 16); hex_digit (c mod 16)].

Definition is_leading_surrogate (c : N) : bool := (55296 <=? c) && (c <=? 56319).
Definition is_trailing_surrogate (c : N) : bool := (56320 <=? c) && (c <=? 57343).

Definition quote_unit (c : N) : jsstring :=
  if c =? 8 then js "\b"
  else if c =? 9 then js "\t"
  else if c =? 10 then js "\n"
  else if c =? 12 then js "\f"
  else if c =? 13 then js "\r"
  else if c =? 34 then [92; 34]
  else if c =? 92 then [92; 92]
  else if (c <? 32) || is_leading_surrogate c || is_trailing_surrogate c
       then UnicodeEscape c
  else [c].

Fixpoint quote_units (s : jsstring) : jsstring :=
  match s with
  | [] => []
  | c :: rest =>
      match rest with
      | d :: rest' =>
          if is_leading_surrogate c && is_trailing_surrogate d
          then c :: d :: quote_units rest'
          else quote_unit c ++ quote_units rest
      | [] => quote_unit c
      end
  end.

(** [QuoteJSONString] *)
Definition QuoteJSONString (s : jsstring) : jsstring :=
  [34] ++ quote_units s ++ [34].

Definition is_finite_text (t : jsstring) : bool :=
  negb (bool_decide (t = js "NaN")) && negb (bool_decide (t = js "Infinity"))
  && negb (bool_decide (t = js "-Infinity")).

(** [SerializeJSONProperty]; [None] is the [undefined] result that makes
    the enclosing object skip the property.  A value read from JSON has
    no callable [toJSON]. *)
Fixpoint SerializeJSONProperty (v : JValue) : option jsstring :=
  match v with
  | JUndefined => None
  | JNull => Some (js "null")
  | JBool true => Some (js "true")
  | JBool false => Some (js "false")
  | JNum t => Some (if is_finite_text t then t else js "null")
  | JStr s => Some (QuoteJSONString s)
  | JArr items =>
      Some (js "[" ++
            join_with (js ",")
              (map (fun x => default (js "null") (SerializeJSONProperty x)) items)
            ++ js "]")
  | JObj fields =>
      Some (js "{" ++
            join_with (js ",")
              (omap (fun kv => match SerializeJSONProperty (snd kv) with
                               | Some t => Some (QuoteJSONString (fst kv) ++ js ":" ++ t)
                               | None => None
                               end) fields)
            ++ js "}")
  end.

(** [JSON.stringify(v)] for a [v] that is not [undefined]. *)
Definition JSON_stringify (v : JValue) : jsstring :=
  default (js "undefined") (SerializeJSONProperty v).

(** ** A reference JSON.parse

    [JSON.parse] belongs to the runtime, not to the repository: the model
    of [App] below takes it as a parameter, and this reference
    implementation of the JSON grammar (ECMA-404) is what the examples run.
    [None] is a thrown [SyntaxError]. *)

Definition is_json_ws (c : N) : bool :=
  (c =? 32) || (c =? 9) || (c =? 10) || (c =? 13).

Fixpoint skip_ws (s : jsstring) : jsstring :=
  match s with
  | c :: rest => if is_json_ws c then skip_ws rest else s
  | [] => []
  end.

Definition is_digit (c : N) : bool := (48 <=? c) && (c <=? 57).

Definition hex_value (c : N) : option N :=
  if is_digit c then Some (c - 48)
  else if (97 <=? c) && (c <=? 102) then Some (c - 87)
  else if (65 <=? c) && (c <=? 70) then Some (c - 55)
  else None.

(** The character after a backslash: quote, backslash, slash, [b], [f],
    [n], [r], [t], and the code unit each stands for. *)
Definition simple_escape (c : N) : option N :=
  if c =? 34 then Some 34
  else if c =? 92 then Some 92
  else if c =? 47 then Some 47
  else if c =? 98 then Some 8
  else if c =? 102 then Some 12
  else if c =? 110 then Some 10
  else if c =? 114 then Some 13
  else if c =? 116 then Some 9
  else None.

(** The characters of a string literal after its opening quote, up to and
    including the closing one. *)
Fixpoint parse_string_body (s : jsstring) : option (jsstring * jsstring) :=
  match s with
  | [] => None
  | c :: rest =>
      if c =? 34 then Some ([], rest)
      else if c <? 32 then None
      else if c =? 92 then
        match rest with
        | e :: rest1 =>
            if e =? 117 then
              match rest1 with
              | h1 :: h2 :: h3 :: h4 :: rest2 =>
                  match hex_value h1, hex_value h2, hex_value h3, hex_value h4 with
                  | Some a, Some b, Some c', Some d =>
                      match parse_string_body rest2 with
                      | Some (body, tail) =>
                          Some ((a * 4096 + b * 256 + c' * 16 + d) :: body, tail)
                      | None => None
                      end
                  | _, _, _, _ => None
                  end
              | _ => None
              end
            else
              match simple_escape e with
              | Some u =>
                  match parse_string_body rest1 with
                  | Some (body, tail) => Some (u :: body, tail)
                  | None => None
                  end
              | None => None
              end
        | [] => None
        end
      else
        match parse_string_body rest with
        | Some (body, tail) => Some (c :: body, tail)
        | None => None
        end
  end.

Fixpoint take_digits (s : jsstring) : jsstring * jsstring :=
  match s with
  | c :: rest =>
      if is_digit c then let '(ds, tail) := take_digits rest in (c :: ds, tail)
      else ([], s)
  | [] => ([], [])
  end.

Definition digits_value (ds : jsstring) : N :=
  fold_left (fun acc c => acc * 10 + (c - 48)) ds 0.

Definition decimal_text (n : N) : jsstring :=
  js (DecimalString.NilZero.string_of_uint (N.to_uint n)).

Fixpoint drop_zeros (ds : jsstring) : jsstring :=
  match ds with
  | c :: rest => if c =? 48 then drop_zeros rest else ds
  | [] => []
  end.

(** [Number::toString] of the number a decimal literal denotes, from its
    sign, its digits [ds] and the power of ten [e] they are scaled by.
    The text is the exact one whenever the literal has at most 15
    significant digits and lies in the normal range of binary64; beyond
    that the rounding to binary64 would be needed, which is not modelled:
    no statement of this development depends on numbers read from
    storage. *)
Definition number_text (neg : bool) (ds : jsstring) (e : Z) : jsstring :=
  let ds1 := drop_zeros ds in
  let sig := rev (drop_zeros (rev ds1)) in
  match sig with
  | [] => js "0"
  | d0 :: more =>
      let k := Z.of_nat (length sig) in
      let n := (Z.of_nat (length ds1) + e)%Z in
      let zeros (z : Z) := repeat 48 (Z.to_nat z) in
      let body :=
        if ((k <=? n) && (n <=? 21))%Z then sig ++ zeros (n - k)%Z
        else if ((0 <? n) && (n <=? 21))%Z then
          firstn (Z.to_nat n) sig ++ js "." ++ skipn (Z.to_nat n) sig
        else if ((-6 <? n) && (n <=? 0))%Z then
          js "0." ++ zeros (- n)%Z ++ sig
        else
          [d0] ++ (match more with [] => [] | _ => js "." ++ more end)
          ++ js "e" ++ (if (0 <? n - 1)%Z then js "+" else js "-")
          ++ decimal_text (Z.to_N (Z.abs (n - 1)))
      in (if neg then js "-" else []) ++ body
  end.

(** A number literal: an optional minus, an integer part without a
    leading zero (or a single zero), an optional fraction of one or more
    digits, an optional exponent of one or more digits. *)
Definition parse_number (s : jsstring) : option (JValue * jsstring) :=
  let '(neg, s1) := match s with
                    | c :: rest => if c =? 45 then (true, rest) else (false, s)
                    | [] => (false, s)
                    end in
  let '(int, s2) := take_digits s1 in
  match int with
  | [] => None
  | i0 :: int_rest =>
      if (i0 =? 48) && negb (bool_decide (int_rest = [])) then
        (* a leading zero ends the integer part; what follows is left over *)
        Some (JNum (js "0"), int_rest ++ s2)
      else
        let frac_tail :=
          match s2 with
          | c :: rest =>
              if c =? 46 then
                let '(fr, t) := take_digits rest in
                match fr with [] => None | _ => Some (fr, t) end
              else Some ([], s2)
          | [] => Some ([], s2)
          end in
        match frac_tail with
        | None => None
        | Some (frac, s3) =>
            let exp_tail :=
              match s3 with
              | c :: rest =>
                  if (c =? 101) || (c =? 69) then
                    let '(eneg, rest1) :=
                      match rest with
                      | sg :: rest' =>
                          if sg =? 45 then (true, rest')
                          else if sg =? 43 then (false, rest')
                          else (false, rest)
                      | [] => (false, rest)
                      end in
                    let '(ex, t) := take_digits rest1 in
                    match ex with
                    | [] => None
                    | _ => Some ((if eneg then - Z.of_N (digits_value ex)
                                  else Z.of_N (digits_value ex))%Z, t)
                    end
                  else Some (0%Z, s3)
              | [] => Some (0%Z, s3)
              end in
            match exp_tail with
            | None => None
            | Some (e, s4) =>
                Some (JNum (number_text neg (int ++ frac) (e - Z.of_nat (length frac))%Z), s4)
            end
        end
  end.

Definition expect (lit : string) (s : jsstring) : option jsstring :=
  let l := js lit in
  if bool_decide (firstn (length l) s = l) then Some (skipn (length l) s) else None.

(** A repeated key keeps its first position and takes the last value. *)
Fixpoint obj_set (k : jsstring) (v : JValue) (fields : list (jsstring * JValue))
  : list (jsstring * JValue) :=
  match fields with
  | [] => [(k, v)]
  | (k', v') :: rest =>
      if bool_decide (k' = k) then (k, v) :: rest else (k', v') :: obj_set k v rest
  end.

(** The three mutually recursive productions: a value, the rest of an
    array after an element, the rest of an object after a member.  Every
    second call at the latest consumes a character, so twice the length
    of the text is fuel enough. *)
Fixpoint parse_value (fuel : nat) (s : jsstring) {struct fuel}
  : option (JValue * jsstring) :=
  match fuel with
  | O => None
  | S fuel' =>
      match skip_ws s with
      | [] => None
      | c :: rest =>
          if c =? 123 then                          (* an object *)
            match skip_ws rest with
            | c1 :: rest1 =>
                if c1 =? 125 then Some (JObj [], skip_ws rest1)
                else parse_members fuel' [] (c1 :: rest1)
            | [] => None
            end
          else if c =? 91 then                      (* an array *)
            match skip_ws rest with
            | c1 :: rest1 =>
                if c1 =? 93 then Some (JArr [], skip_ws rest1)
                else parse_elements fuel' [] (c1 :: rest1)
            | [] => None
            end
          else if c =? 34 then
            match parse_string_body rest with
            | Some (body, tail) => Some (JStr body, skip_ws tail)
            | None => None
            end
          else if (c =? 45) || is_digit c then
            match parse_number (c :: rest) with
            | Some (v, tail) => Some (v, skip_ws tail)
            | None => None
            end
          else if c =? 116 then
            option_map (fun tail => (JBool true, skip_ws tail)) (expect "true" (c :: rest))
          else if c =? 102 then
            option_map (fun tail => (JBool false, skip_ws tail)) (expect "false" (c :: rest))
          else if c =? 110 then
            option_map (fun tail => (JNull, skip_ws tail)) (expect "null" (c :: rest))
          else None
      end
  end

with parse_elements (fuel : nat) (acc : list JValue) (s : jsstring) {struct fuel}
  : option (JValue * jsstring) :=
  match fuel with
  | O => None
  | S fuel' =>
      match parse_value fuel' s with
      | Some (v, c :: rest) =>
          if c =? 93 then Some (JArr (acc ++ [v]), skip_ws rest)
          else if c =? 44 then parse_elements fuel' (acc ++ [v]) rest
          else None
      | _ => None
      end
  end

with parse_members (fuel : nat) (acc : list (jsstring * JValue)) (s : jsstring)
  {struct fuel} : option (JValue * jsstring) :=
  match fuel with
  | O => None
  | S fuel' =>
      match skip_ws s with
      | q :: rest =>
          if q =? 34 then
            match parse_string_body rest with
            | Some (key, tail) =>
                match skip_ws tail with
                | colon :: tail1 =>
                    if colon =? 58 then
                      match parse_value fuel' tail1 with
                      | Some (v, c :: rest1) =>
                          if c =? 125 then Some (JObj (obj_set key v acc), skip_ws rest1)
                          else if c =? 44 then parse_members fuel' (obj_set key v acc) rest1
                          else None
                      | _ => None
                      end
                    else None
                | [] => None
                end
            | None => None
            end
          else None
      | [] => None
      end
  end.

(** The whole text must be one value. *)
Definition json_parse (s : jsstring) : option JValue :=
  match parse_value (2 * length s + 2) s with
  | Some (v, []) => Some v
  | _ => None
  end.

(** ** localStorage *)

Abbreviation Storage := (gmap jsstring jsstring).

(** [localStorage.getItem(k)]; [None] is the [null] of a missing key. *)
Definition getItem (k : string) (st : Storage) : option jsstring := st !! js k.
Definition setItem (k : string) (v : jsstring) (st : Storage) : Storage := <[js k := v]> st.
Definition removeItem (k : string) (st : Storage) : Storage := delete (js k) st.

(** ** The state of the application *)

(** The five [useState] cells of [Login]. *)
Record LoginState := mkLogin {
  error : jsstring;
  isLoggingIn : bool;
  isRegistering : bool;
  displayName : jsstring;
  googleToken : JValue
}.

Definition Login_initial : LoginState :=
  mkLogin [] false false [] JNull.

(** Which handler is suspended at its [await axios.post(...)]. *)
Inductive Continuation :=
| AfterGoogleSuccess (credential : JValue)   (* handleGoogleSuccess, with its argument *)
| AfterRegisterSubmit.                       (* handleRegisterSubmit *)

(** A request that has been sent and has not settled yet; [owner] is the
    mount of [Login] whose handler sent it. *)
Record Request := mkRequest {
  payload : JValue;
  continuation : Continuation;
  owner : nat
}.

(** How [axios.post] settles: the promise resolves with a response
    ([res.status], [res.data]) or rejects with an error whose [response]
    is absent (no answer reached the client) or carries the HTTP status. *)
Inductive AxiosOutcome :=
| Resolved (status : Z) (data : JValue)
| Rejected (response : option Z).

Record World := mkWorld {
  storage : Storage;          (* localStorage *)
  user : JValue;              (* App's [user] state *)
  login : LoginState;         (* the mounted Login's state *)
  mount : nat;                (* how many times Login has been mounted anew *)
  pending : list Request      (* requests in flight *)
}.

Definition with_login (f : LoginState -> LoginState) (w : World) : World :=
  mkWorld (storage w) (user w) (f (login w)) (mount w) (pending w).

Definition setError (e : string) : World -> World :=
  with_login (fun l => mkLogin (js e) (isLoggingIn l) (isRegistering l) (displayName l) (googleToken l)).
Definition setIsLoggingIn (b : bool) : World -> World :=
  with_login (fun l => mkLogin (error l) b (isRegistering l) (displayName l) (googleToken l)).
Definition setIsRegistering (b : bool) : World -> World :=
  with_login (fun l => mkLogin (error l) (isLoggingIn l) b (displayName l) (googleToken l)).
Definition setDisplayName (s : jsstring) : World -> World :=
  with_login (fun l => mkLogin (error l) (isLoggingIn l) (isRegistering l) s (googleToken l)).
Definition setGoogleToken (v : JValue) : World -> World :=
  with_login (fun l => mkLogin (error l) (isLoggingIn l) (isRegistering l) (displayName l) v).

Definition setUser (v : JValue) (w : World) : World :=
  mkWorld (storage w) v (login w) (mount w) (pending w).

Definition localStorage_setItem (k : string) (v : jsstring) (w : World) : World :=
  mkWorld (setItem k v (storage w)) (user w) (login w) (mount w) (pending w).
Definition localStorage_removeItem (k : string) (w : World) : World :=
  mkWorld (removeItem k (storage w)) (user w) (login w) (mount w) (pending w).

(** [axios.post(`${API_BASE}/auth/google`, payload)] up to the [await]. *)
Definition axios_post (p : JValue) (k : Continuation) (w : World) : World :=
  mkWorld (storage w) (user w) (login w) (mount w)
          (pending w ++ [mkRequest p k (mount w)]).

(** ** Login.jsx *)

(** [handleLoginSuccess(data)].  [None]: [localStorage.setItem] threw
    while converting [data.access_token] to a string, before anything was
    written. *)
Definition handleLoginSuccess (data : JValue) (w : World) : option World :=
  let safeUsername :=
    if typeof_string (get data "username") then get data "username"
    else JStr (js "User") in
  match ToString (get data "access_token") with
  | None => None
  | Some token_text =>
      let w := localStorage_setItem "access_token" token_text w in
      let userData := JObj [(js "name", safeUsername);
                            (js "token", get data "access_token")] in
      let w := localStorage_setItem "user_data" (JSON_stringify userData) w in
      let w := setUser userData w in
      Some (setIsLoggingIn false w)
  end.

(** [handleGoogleSuccess(credentialResponse)] up to its [await]; the
    argument is [credentialResponse.credential]. *)
Definition handleGoogleSuccess (credential : JValue) (w : World) : World :=
  let w := setIsLoggingIn true w in
  let w := setError EmptyString w in
  let payload := JObj [(js "token", credential)] in
  axios_post payload (AfterGoogleSuccess credential) w.

(** The [catch (err)] block of [handleGoogleSuccess]; an exception thrown
    inside the [try] by the handler's own code has no [response]. *)
Definition handleGoogleSuccess_catch (response : option Z) (w : World) : World :=
  let w :=
    match response with
    | Some status =>
        if (status =? 202)%Z then setError "Authentication failed with backend." w
        else setError "Authentication failed." w
    | None => setError "Authentication failed." w
    end in
  setIsLoggingIn false w.

(** [handleGoogleSuccess] from the [await] on. *)
Definition handleGoogleSuccess_settled (credential : JValue) (o : AxiosOutcome)
  (w : World) : World :=
  match o with
  | Resolved _ data =>
      if truthy data && strict_eq_str (get data "status") "register_required" then
        let w := setGoogleToken credential w in
        let w := setIsRegistering true w in
        setIsLoggingIn false w
      else if truthy data && strict_eq_str (get data "status") "login_success" then
        match handleLoginSuccess data w with
        | Some w' => w'
        | None => handleGoogleSuccess_catch None w
        end
      else
        let w := setError "Unexpected response from server." w in
        setIsLoggingIn false w
  | Rejected response => handleGoogleSuccess_catch response w
  end.

(** [handleRegisterSubmit()] up to its [await] (or to its early return). *)
Definition handleRegisterSubmit (w : World) : World :=
  if negb (str_truthy (trim (displayName (login w)))) then
    setError "Please enter a display name." w
  else
    let w := setIsLoggingIn true w in
    let payload := JObj [(js "token", googleToken (login w));
                         (js "name", JStr (displayName (login w)))] in
    axios_post payload AfterRegisterSubmit w.

Definition handleRegisterSubmit_catch (w : World) : World :=
  let w := setError "Registration failed." w in
  setIsLoggingIn false w.

(** [handleRegisterSubmit] from the [await] on. *)
Definition handleRegisterSubmit_settled (o : AxiosOutcome) (w : World) : World :=
  match o with
  | Resolved _ data =>
      if truthy data && strict_eq_str (get data "status") "login_success" then
        match handleLoginSuccess data w with
        | Some w' => w'
        | None => handleRegisterSubmit_catch w
        end
      else
        let w := setError "Registration failed." w in
        setIsLoggingIn false w
  | Rejected _ => handleRegisterSubmit_catch w
  end.

Definition handleError (w : World) : World := setError "Google Login Failed" w.

(** The [onChange] of the display-name input. *)
Definition onChange (value : jsstring) (w : World) : World :=
  let w' := setDisplayName value w in
  if str_truthy (error (login w)) then setError EmptyString w' else w'.

(** What the JSX of [Login] renders: the registration form when
    [isRegistering], the [GoogleLogin] widget otherwise; the submit button
    carries [disabled={isLoggingIn}], the widget is given no such prop. *)
Definition submit_button_rendered (l : LoginState) : bool := isRegistering l.
Definition submit_button_disabled (l : LoginState) : bool := isLoggingIn l.
Definition google_widget_rendered (l : LoginState) : bool := negb (isRegistering l).
Definition google_widget_disabled (l : LoginState) : bool := false.

(** ** Dashboard.jsx *)

Module Dashboard.
(** [typeof user.name === 'string' ? user.name : 'User'] *)
Definition displayName (user : JValue) : JValue :=
  if typeof_string (get user "name") then get user "name" else JStr (js "User").
End Dashboard.

(** ** App.jsx and the event loop *)

(** The states of the flow as the specification names them, read off the
    application state: [Authenticated] once [App] holds a user, otherwise
    the two flags of [Login], and [Failed] for a first exchange that ended
    with a message. *)
Inductive Phase :=
| Idle | Exchanging | AwaitingProfile | Submitting | Authenticated | Failed.

Definition phase (w : World) : Phase :=
  if truthy (user w) then Authenticated
  else if isRegistering (login w) then
         if isLoggingIn (login w) then Submitting else AwaitingProfile
  else if isLoggingIn (login w) then Exchanging
  else if str_truthy (error (login w)) then Failed
  else Idle.

(** [App] renders [Dashboard] when [user] is truthy and [Login] otherwise. *)
Definition Dashboard_mounted (w : World) : bool := truthy (user w).
Definition Login_mounted (w : World) : bool := negb (truthy (user w)).

(** A session record is in storage: both keys are present. *)
Definition session_stored (st : Storage) : Prop :=
  is_Some (getItem "access_token" st) /\ is_Some (getItem "user_data" st).

(** What happens in the browser, one event at a time. *)
Inductive Event :=
| GoogleSuccess (credential : JValue)    (* the widget's onSuccess *)
| GoogleError                            (* the widget's onError *)
| ChangeName (value : jsstring)          (* typing in the display-name input *)
| ClickSubmit                            (* the registration button's onClick *)
| Settle (i : nat) (o : AxiosOutcome)    (* the i-th request in flight settles *)
| Logout                                 (* [logout], App's handleLogout, is called *)
| Reload.                                (* the page is loaded again *)

Section WithRuntime.

(** The runtime's [JSON.parse]; [None] when it throws. *)
Variable JSON_parse : jsstring -> option JValue.

(** The initialiser of [useState] in [App]: the storage it leaves and
    the initial [user]. *)
Definition App_init (st : Storage) : Storage * JValue :=
  let token := getItem "access_token" st in
  let storedUser := getItem "user_data" st in
  match token, storedUser with
  | Some token_text, Some stored_text =>
      (* token && storedUser: neither is the empty string *)
      if str_truthy token_text && str_truthy stored_text then
        match JSON_parse stored_text with
        | Some parsed => (st, parsed)
        | None => (removeItem "user_data" (removeItem "access_token" st), JNull)
        end
      else (st, JNull)
  | _, _ => (st, JNull)
  end.

(** The application right after the page has loaded. *)
Definition boot (st : Storage) : World :=
  let '(st', u) := App_init st in
  mkWorld st' u Login_initial 0 [].

(** [handleLogout] *)
Definition handleLogout (w : World) : World :=
  (* googleLogout() acts on the provider's side only *)
  let w := localStorage_removeItem "access_token" w in
  let w := localStorage_removeItem "user_data" w in
  setUser JNull w.

(** A [Login] mounted anew starts from its initial state. *)
Definition remount_Login (w : World) : World :=
  mkWorld (storage w) (user w) Login_initial (S (mount w)) (pending w).

(** The continuation of a settled request.  State setters of a [Login]
    that is no longer the mounted one have no effect; [localStorage] and
    [App]'s [setUser] are reached all the same. *)
Definition settle (r : Request) (o : AxiosOutcome) (w : World) : World :=
  let w' := match continuation r with
            | AfterGoogleSuccess credential => handleGoogleSuccess_settled credential o w
            | AfterRegisterSubmit => handleRegisterSubmit_settled o w
            end in
  if Login_mounted w && (owner r =? mount w)%nat then w'
  else mkWorld (storage w') (user w') (login w) (mount w') (pending w').

Definition drop_pending (i : nat) (w : World) : World :=
  mkWorld (storage w) (user w) (login w) (mount w) (delete i (pending w)).

(** One event; [None] when the page offers no way to raise it: the
    control is not rendered, or is disabled, or no such request is in
    flight.  [Dashboard] calls [logout] from its button and from the
    handlers of its own requests when they are answered 401, which can
    happen late: [Logout] is taken to be possible at any time. *)
Definition step (w : World) (e : Event) : option World :=
  match e with
  | GoogleSuccess credential =>
      if Login_mounted w && google_widget_rendered (login w)
         && negb (google_widget_disabled (login w))
      then Some (handleGoogleSuccess credential w) else None
  | GoogleError =>
      if Login_mounted w && google_widget_rendered (login w)
         && negb (google_widget_disabled (login w))
      then Some (handleError w) else None
  | ChangeName value =>
      if Login_mounted w && isRegistering (login w)
      then Some (onChange value w) else None
  | ClickSubmit =>
      if Login_mounted w && submit_button_rendered (login w)
         && negb (submit_button_disabled (login w))
      then Some (handleRegisterSubmit w) else None
  | Settle i o =>
      match pending w !! i with
      | Some r => Some (settle r o (drop_pending i w))
      | None => None
      end
  | Logout =>
      let w' := handleLogout w in
      Some (if Dashboard_mounted w then remount_Login w' else w')
  | Reload => Some (boot (storage w))
  end.

Fixpoint run (w : World) (es : list Event) : option World :=
  match es with
  | [] => Some w
  | e :: es' => match step w e with Some w' => run w' es' | None => None end
  end.

(** The states the application can be in: after loading the page on any
    storage content, and after any events from there. *)
Inductive reachable : World -> Prop :=
| reach_boot st : reachable (boot st)
| reach_step w e w' : reachable w -> step w e = Some w' -> reachable w'.

End WithRuntime.

(** ** Vocabulary of the statements *)

(** Made of white space only (or empty). *)
Definition blank (s : jsstring) : bool := forallb is_js_whitespace s.

(** A literal between double quotes. *)
Definition dq (s : string) : jsstring := [34] ++ js s ++ [34].

(** The events a user can raise in the registration form. *)
Definition form_event (e : Event) : bool :=
  match e with ChangeName _ | ClickSubmit => true | _ => false end.

(** The request [handleRegisterSubmit] sends for a token and a name. *)
Definition register_request (token : JValue) (name : jsstring) (m : nat) : Request :=
  mkRequest (JObj [(js "token", token); (js "name", JStr name)]) AfterRegisterSubmit m.


(** ** Concrete inputs, run with the reference [JSON.parse] *)

Definition tok_A : JValue := JStr (js "tok-A").
Definition tok_B : JValue := JStr (js "tok-B").
Definition fake_token : JValue := JStr (js "fake_token").

(** The page loaded on an empty storage. *)
Definition fresh : World := boot json_parse ∅.

Definition register_required_body : JValue :=
  JObj [(js "status", JStr (js "register_required"))].

(** A success whose body has no [username] at all. *)
Definition nameless_success : JValue :=
  JObj [(js "status", JStr (js "login_success")); (js "access_token", JStr (js "abc"))].

(** The page after the widget has produced ["tok-B"]. *)
Definition exchanging_B : World := handleGoogleSuccess tok_B fresh.

(** The same page once [{status: "register_required"}] has come back. *)
Definition awaiting_B : World :=
  mkWorld ∅ JNull (mkLogin [] false true [] tok_B) 0 [].

(** The form with three spaces typed in. *)
Definition awaiting_blank : World :=
  mkWorld ∅ JNull (mkLogin [] false true (js "   ") tok_B) 0 [].

(** The registration form with ["Grace"] typed in, before and after the
    click on the button. *)
Definition awaiting_Grace : World :=
  mkWorld ∅ JNull (mkLogin [] false true (js "Grace") tok_B) 0 [].
Definition submitting_Grace : World :=
  mkWorld ∅ JNull (mkLogin [] true true (js "Grace") tok_B) 0
          [register_request tok_B (js "Grace") 0].

(** The page after the first scenario of the specification. *)
Definition authenticated_Ada : World :=
  mkWorld (setItem "user_data"
             (JSON_stringify (JObj [(js "name", JStr (js "Ada")); (js "token", JStr (js "abc"))]))
             (setItem "access_token" (js "abc") ∅))
          (JObj [(js "name", JStr (js "Ada")); (js "token", JStr (js "abc"))])
          (mkLogin [] false false [] JNull) 0 [].


(** A storage whose [user_data] has been cut short. *)
Definition corrupted_storage : Storage :=
  {[ js "access_token" := js "abc"; js "user_data" := js "{bad" ]}.

(** Three answers of the backend to an exchange. *)
Definition ada_success : JValue :=
  JObj [(js "status", JStr (js "login_success"));
        (js "access_token", JStr (js "abc"));
        (js "username", JStr (js "Ada"))].

Definition bob_success : JValue :=
  JObj [(js "status", JStr (js "login_success"));
        (js "access_token", JStr (js "xyz"));
        (js "username", JStr (js "Bob"))].

(** A success whose body has no [access_token]. *)
Definition tokenless_success : JValue :=
  JObj [(js "status", JStr (js "login_success")); (js "username", JStr (js "Ada"))].

(** * Dashboard.jsx: search, the list of all items, contributions

    [Dashboard] is embedded with the page around it: [App] with [Login]
    and storage (the [World] above), the requests and timers of every
    mount of [Dashboard], and [ErrorBoundary] around [App].  The state
    updates of one event are rendered together once its handlers have
    run, and effects run before the next event.  A request is never
    cancelled and a timer never cleared: both outlive the mount that
    made them, whose state setters then reach nothing. *)

(** ** encodeURIComponent *)

(** The characters [encodeURIComponent] leaves as they are: letters,
    digits and [- _ . ! ~ * ' ( )]. *)
Definition uri_unreserved (c : N) : bool :=
  ((65 <=? c) && (c <=? 90)) || ((97 <=? c) && (c <=? 122)) || ((48 <=? c) && (c <=? 57))
  || (c =? 45) || (c =? 95) || (c =? 46) || (c =? 33) || (c =? 126) || (c =? 42)
  || (c =? 39) || (c =? 40) || (c =? 41).

Definition upper_hex_digit (n : N) : N :=
  if n <? 10 then 48 + n else 55 + n.

(** A percent sign and two uppercase hex digits. *)
Definition percent_octet (b : N) : jsstring :=
  [37; upper_hex_digit (b / 16); upper_hex_digit (b mod 16)].

(** The UTF-8 octets of a code point. *)
Definition utf8_octets (cp : N) : list N :=
  if cp <? 128 then [cp]
  else if cp <? 2048 then [192 + cp / 64; 128 + cp mod 64]
  else if cp <? 65536 then [224 + cp / 4096; 128 + cp / 64 mod 64; 128 + cp mod 64]
  else [240 + cp / 262144; 128 + cp / 4096 mod 64; 128 + cp / 64 mod 64; 128 + cp mod 64].

Definition percent_encode (cp : N) : jsstring :=
  concat (map percent_octet (utf8_octets cp)).

(** [encodeURIComponent(s)]; [None] is the [URIError] thrown on a
    surrogate without its other half. *)
Fixpoint encodeURIComponent (s : jsstring) : option jsstring :=
  match s with
  | [] => Some []
  | c :: rest =>
      if uri_unreserved c then option_map (cons c) (encodeURIComponent rest)
      else if is_trailing_surrogate c then None
      else if is_leading_surrogate c then
        match rest with
        | d :: rest' =>
            if is_trailing_surrogate d then
              option_map
                (fun tail => percent_encode ((c - 55296) * 1024 + (d - 56320) + 65536) ++ tail)
                (encodeURIComponent rest')
            else None
        | [] => None
        end
      else option_map (fun tail => percent_encode c ++ tail) (encodeURIComponent rest)
  end.

(** ** What the JSX shows of an item *)

(** [v || d] *)
Definition or_else (v d : JValue) : JValue := if truthy v then v else d.

(** What React accepts as a child: text and numbers, the values it
    skips (booleans, [null], [undefined]), and an array of such, taken
    element by element.  For any other object it throws: a value read
    from JSON is never an element. *)
Fixpoint valid_child (v : JValue) : bool :=
  match v with
  | JObj _ => false
  | JArr l => forallb valid_child l
  | _ => true
  end.

(** [key={item.id || idx}].  React converts the key to a string, by the
    conversion [ToString] describes; the index is a number, whose
    conversion cannot throw. *)
Definition key_converts (id : JValue) : bool :=
  if truthy id then bool_decide (is_Some (ToString id)) else true.

(** One entry of [results] or [items] can be rendered: reading [item.id]
    does not throw (the entry is neither [null] nor [undefined]), the key
    converts, and [{item.question || 'No question'}] and
    [{item.answer || 'No answer'}] are valid children.  Both views render
    an entry the same way. *)
Definition item_renders (item : JValue) : bool :=
  match item with
  | JUndefined | JNull => false
  | _ => key_converts (get item "id")
         && valid_child (or_else (get item "question") (JStr (js "No question")))
         && valid_child (or_else (get item "answer") (JStr (js "No answer")))
  end.

(** ** State *)

(** The ten [useState] cells of [Dashboard]. *)
Record DashboardState := mkDashboard {
  query : jsstring;
  results : list JValue;
  loadingSearch : bool;
  question : jsstring;
  answer : jsstring;
  adding : bool;
  addMessage : jsstring;
  items : list JValue;
  loadingItems : bool;
  hasMore : bool
}.

Definition Dashboard_initial : DashboardState :=
  mkDashboard [] [] false [] [] false [] [] false true.

Definition ITEMS_PER_PAGE : nat := 10.

(** The render of [Dashboard] returns: with a query typed in it maps
    over [results], otherwise over [items]; nothing else in it can
    throw ([user] is truthy whenever [App] renders [Dashboard]). *)
Definition Dashboard_renders (d : DashboardState) : bool :=
  if str_truthy (query d) then forallb item_renders (results d)
  else forallb item_renders (items d).

(** The calls [Dashboard] makes, with the value of the [Authorization]
    header. *)
Inductive DCall :=
| GetSearch (q : jsstring) (authorization : jsstring)
    (* axios.get(`${API_BASE}/search?q=${q}`), q already encoded *)
| GetAll (limit offset : nat) (authorization : jsstring)
    (* axios.get(`${API_BASE}/all`, {params: {limit, offset}}) *)
| PostAdd (question answer : jsstring) (authorization : jsstring).
    (* axios.post(`${API_BASE}/add`, {question, answer}) *)

(** A request that has been sent and has not settled yet.  [sender] is
    the mount of [Dashboard] whose handler sent it and waits for it;
    [seen_user] is the [user] prop as that handler saw it.  Nothing
    cancels a request: it stays in flight when its [Dashboard] is
    unmounted and when another one is mounted. *)
Record DRequest := mkDRequest {
  call : DCall;
  sender : nat;
  seen_user : JValue
}.

(** The page as a whole.  [host] is [App] with [Login] and storage;
    [crashed] says that a render has thrown, so that [ErrorBoundary]
    shows its fallback in place of [App]; [instance] counts the mounts of
    [Dashboard], and [dashboard] is the state of the current one;
    [alerts] is what [alert] has shown; [timers] holds, for each
    [setTimeout] callback still to come, the mount that set it. *)
Record Page := mkPage {
  host : World;
  crashed : bool;
  instance : nat;
  dashboard : DashboardState;
  requests : list DRequest;
  alerts : list jsstring;
  timers : list nat
}.

(** [Dashboard] is on screen. *)
Definition alive (p : Page) : bool :=
  negb (crashed p) && Dashboard_mounted (host p).

Definition set_host (a : World) (p : Page) : Page :=
  mkPage a (crashed p) (instance p) (dashboard p) (requests p) (alerts p) (timers p).

(** A state setter called by a handler of the mount [o] reaches the
    component only while that mount is the one on screen. *)
Definition with_dashboard (o : nat) (f : DashboardState -> DashboardState) (p : Page) : Page :=
  if alive p && (o =? instance p)%nat
  then mkPage (host p) (crashed p) (instance p) (f (dashboard p))
              (requests p) (alerts p) (timers p)
  else p.

Definition setQuery (o : nat) (v : jsstring) : Page -> Page :=
  with_dashboard o
    (fun d => mkDashboard v (results d) (loadingSearch d) (question d) (answer d)
                (adding d) (addMessage d) (items d) (loadingItems d) (hasMore d)).
Definition setResults (o : nat) (v : list JValue) : Page -> Page :=
  with_dashboard o
    (fun d => mkDashboard (query d) v (loadingSearch d) (question d) (answer d)
                (adding d) (addMessage d) (items d) (loadingItems d) (hasMore d)).
Definition setLoadingSearch (o : nat) (v : bool) : Page -> Page :=
  with_dashboard o
    (fun d => mkDashboard (query d) (results d) v (question d) (answer d)
                (adding d) (addMessage d) (items d) (loadingItems d) (hasMore d)).
Definition setQuestion (o : nat) (v : jsstring) : Page -> Page :=
  with_dashboard o
    (fun d => mkDashboard (query d) (results d) (loadingSearch d) v (answer d)
                (adding d) (addMessage d) (items d) (loadingItems d) (hasMore d)).
Definition setAnswer (o : nat) (v : jsstring) : Page -> Page :=
  with_dashboard o
    (fun d => mkDashboard (query d) (results d) (loadingSearch d) (question d) v
                (adding d) (addMessage d) (items d) (loadingItems d) (hasMore d)).
Definition setAdding (o : nat) (v : bool) : Page -> Page :=
  with_dashboard o
    (fun d => mkDashboard (query d) (results d) (loadingSearch d) (question d) (answer d)
                v (addMessage d) (items d) (loadingItems d) (hasMore d)).
Definition setAddMessage (o : nat) (v : string) : Page -> Page :=
  with_dashboard o
    (fun d => mkDashboard (query d) (results d) (loadingSearch d) (question d) (answer d)
                (adding d) (js v) (items d) (loadingItems d) (hasMore d)).
(** [setItems] is used in both its forms: with a value, and with a
    function of the current items. *)
Definition setItems (o : nat) (f : list JValue -> list JValue) : Page -> Page :=
  with_dashboard o
    (fun d => mkDashboard (query d) (results d) (loadingSearch d) (question d) (answer d)
                (adding d) (addMessage d) (f (items d)) (loadingItems d) (hasMore d)).
Definition setLoadingItems (o : nat) (v : bool) : Page -> Page :=
  with_dashboard o
    (fun d => mkDashboard (query d) (results d) (loadingSearch d) (question d) (answer d)
                (adding d) (addMessage d) (items d) v (hasMore d)).
Definition setHasMore (o : nat) (v : bool) : Page -> Page :=
  with_dashboard o
    (fun d => mkDashboard (query d) (results d) (loadingSearch d) (question d) (answer d)
                (adding d) (addMessage d) (items d) (loadingItems d) v).

(** [axios.get] and [axios.post] are called whether or not the component
    is still on screen. *)
Definition send (r : DRequest) (p : Page) : Page :=
  mkPage (host p) (crashed p) (instance p) (dashboard p) (requests p ++ [r])
         (alerts p) (timers p).

Definition alert (message : string) (p : Page) : Page :=
  mkPage (host p) (crashed p) (instance p) (dashboard p) (requests p)
         (alerts p ++ [js message]) (timers p).

(** [setTimeout(() => setAddMessage(''), 3000)], set by the mount [o]. *)
Definition setTimeout (o : nat) (p : Page) : Page :=
  mkPage (host p) (crashed p) (instance p) (dashboard p) (requests p)
         (alerts p) (timers p ++ [o]).

(** What [App] does when its [handleLogout] is called: the handler, and
    a fresh [Login] in place of [Dashboard]. *)
Definition App_logout (a : World) : World :=
  let a' := handleLogout a in
  if Dashboard_mounted a then remount_Login a' else a'.

(** The [logout] prop, that is [handleLogout], whoever calls it.  The
    two keys are removed in any case; [setUser(null)] reaches [App]
    unless [ErrorBoundary] has put its fallback in its place. *)
Definition logout (p : Page) : Page :=
  if crashed p then
    set_host (localStorage_removeItem "user_data"
                (localStorage_removeItem "access_token" (host p))) p
  else set_host (App_logout (host p)) p.

(** [`Bearer ${user.token}`]; [None] when the conversion of [user.token]
    to a string throws. *)
Definition bearer (user : JValue) : option jsstring :=
  option_map (fun token_text => js "Bearer " ++ token_text) (ToString (get user "token")).

(** [Array.isArray(res.data) ? res.data : []] *)
Definition array_or_empty (data : JValue) : list JValue :=
  match data with JArr l => l | _ => [] end.

(** [err.response && err.response.status === 401] *)
Definition is_401 (response : option Z) : bool :=
  match response with Some status => (status =? 401)%Z | None => false end.

(** ** The handlers

    Each handler is a closure of one render of one mount: [user] is the
    [user] prop of that render and [o] the mount. *)

(** [handleSearch(e)] up to its [await]; the argument is [e.key].  The
    two template literals are evaluated inside the [try]: when one of
    them throws, the [catch] and the [finally] run at once. *)
Definition handleSearch (user : JValue) (o : nat) (key : jsstring) (p : Page) : Page :=
  if bool_decide (key = js "Enter") then
    if negb (str_truthy (trim (query (dashboard p)))) then p
    else
      let text := query (dashboard p) in
      let p := setLoadingSearch o true p in
      match encodeURIComponent text, bearer user with
      | Some q, Some authorization =>
          send (mkDRequest (GetSearch q authorization) o user) p
      | _, _ =>
          let p := alert "Search failed" p in
          setLoadingSearch o false p
      end
  else p.

(** [handleSearch] from the [await] on. *)
Definition handleSearch_settled (o : nat) (outcome : AxiosOutcome) (p : Page) : Page :=
  match outcome with
  | Resolved _ data =>
      let p := setResults o (array_or_empty data) p in
      setLoadingSearch o false p
  | Rejected response =>
      let p := if is_401 response then logout p else alert "Search failed" p in
      setLoadingSearch o false p
  end.

(** [fetchItems(offset)] up to its [await]. *)
Definition fetchItems (user : JValue) (o : nat) (offset : nat) (p : Page) : Page :=
  let p := setLoadingItems o true p in
  match bearer user with
  | Some authorization =>
      send (mkDRequest (GetAll ITEMS_PER_PAGE offset authorization) o user) p
  | None => setLoadingItems o false p
  end.

(** [fetchItems(offset)] from the [await] on. *)
Definition fetchItems_settled (o : nat) (offset : nat) (outcome : AxiosOutcome)
  (p : Page) : Page :=
  match outcome with
  | Resolved _ res_data =>
      let data := array_or_empty res_data in
      let p := if (offset =? 0)%nat then setItems o (fun _ => data) p
               else setItems o (fun prev => prev ++ data) p in
      let p := if (length data <? ITEMS_PER_PAGE)%nat then setHasMore o false p
               else setHasMore o true p in
      setLoadingItems o false p
  | Rejected response =>
      let p := if is_401 response then logout p else p in
      setLoadingItems o false p
  end.

(** [handleAdd(e)] up to its [await]. *)
Definition handleAdd (user : JValue) (o : nat) (p : Page) : Page :=
  let q := question (dashboard p) in
  let a := answer (dashboard p) in
  let p := setAdding o true p in
  let p := setAddMessage o EmptyString p in
  match bearer user with
  | Some authorization => send (mkDRequest (PostAdd q a authorization) o user) p
  | None =>
      let p := setAddMessage o "Failed to add item." p in
      setAdding o false p
  end.

(** [handleAdd] from the [await] on; its [fetchItems] is the one of the
    render that made the handler, with that render's [user]. *)
Definition handleAdd_settled (user : JValue) (o : nat) (outcome : AxiosOutcome)
  (p : Page) : Page :=
  match outcome with
  | Resolved _ _ =>
      let p := setAddMessage o "Item added successfully!" p in
      let p := setQuestion o [] p in
      let p := setAnswer o [] p in
      let p := fetchItems user o 0 p in
      let p := setTimeout o p in
      setAdding o false p
  | Rejected response =>
      let p := if is_401 response then logout p else p in
      let p := setAddMessage o "Failed to add item." p in
      setAdding o false p
  end.

(** The callback of the [IntersectionObserver]. *)
Definition onIntersect (user : JValue) (o : nat) (isIntersecting : bool) (p : Page) : Page :=
  if isIntersecting && hasMore (dashboard p) && negb (loadingItems (dashboard p))
  then fetchItems user o (length (items (dashboard p))) p
  else p.

(** [App] renders a [Dashboard] where there was none: a new mount, in
    its initial state, whose effect on [fetchItems] loads the first page.
    The requests and timers of earlier mounts are still there. *)
Definition Dashboard_mount (p : Page) : Page :=
  let o := S (instance p) in
  fetchItems (user (host p)) o 0
    (mkPage (host p) (crashed p) o Dashboard_initial (requests p) (alerts p) (timers p)).

(** [App] renders again with a [Dashboard] already there: [handleLogout]
    is a new function, so [fetchItems] is a new callback and the effect
    on it runs again. *)
Definition Dashboard_rerender (p : Page) : Page :=
  fetchItems (user (host p)) (instance p) 0 p.

(** After the handlers of an event have run React renders.  When the
    render of [Dashboard] throws, [ErrorBoundary] shows its fallback in
    place of [App], for good. *)
Definition rendered (p : Page) : Page :=
  if alive p && negb (Dashboard_renders (dashboard p))
  then mkPage (host p) true (instance p) (dashboard p) (requests p) (alerts p) (timers p)
  else p.

(** ** The events of the page *)

Inductive DEvent :=
| ChangeQuery (value : jsstring)        (* typing in the search input *)
| KeyDown (key : jsstring)              (* a key pressed in the search input *)
| ChangeQuestion (value : jsstring)
| ChangeAnswer (value : jsstring)
| SubmitAdd                             (* the form's onSubmit *)
| Intersect (isIntersecting : bool)     (* the observer reports on the sentinel *)
| ClickLogout                           (* the Logout button, onClick={logout} *)
| Answer (i : nat) (o : AxiosOutcome)   (* the i-th request of Dashboard settles *)
| TimerFires (i : nat)                  (* the i-th setTimeout callback runs *)
| Host (e : Event).                     (* an event of Login and App *)

(** The sentinel is part of the list of all items, which is shown when
    no query is typed in, and is rendered while [hasMore]. *)
Definition sentinel_rendered (d : DashboardState) : bool :=
  negb (str_truthy (query d)) && hasMore d.

(** The form can be submitted: its button is not disabled and neither of
    its [required] fields is empty. *)
Definition add_can_be_submitted (d : DashboardState) : bool :=
  negb (adding d) && str_truthy (question d) && str_truthy (answer d).

Definition drop_request (i : nat) (p : Page) : Page :=
  mkPage (host p) (crashed p) (instance p) (dashboard p) (delete i (requests p))
         (alerts p) (timers p).

Definition drop_timer (i : nat) (p : Page) : Page :=
  mkPage (host p) (crashed p) (instance p) (dashboard p) (requests p)
         (alerts p) (delete i (timers p)).

(** The continuation of a settled request. *)
Definition settled (r : DRequest) (outcome : AxiosOutcome) (p : Page) : Page :=
  match call r with
  | GetSearch _ _ => handleSearch_settled (sender r) outcome p
  | GetAll _ offset _ => fetchItems_settled (sender r) offset outcome p
  | PostAdd _ _ _ => handleAdd_settled (seen_user r) (sender r) outcome p
  end.

(** Whether the continuation of a settled exchange reaches [setUser]:
    it calls [handleLoginSuccess], and [localStorage.setItem] does not
    throw there. *)
Definition reaches_setUser (outcome : AxiosOutcome) : bool :=
  match outcome with
  | Resolved _ data =>
      truthy data && strict_eq_str (get data "status") "login_success"
      && bool_decide (is_Some (ToString (get data "access_token")))
  | Rejected _ => false
  end.

Section DashboardRuntime.

Variable JSON_parse : jsstring -> option JValue.

(** The page right after it has loaded. *)
Definition Page_boot (st : Storage) : Page :=
  let p := mkPage (boot JSON_parse st) false 0 Dashboard_initial [] [] [] in
  if Dashboard_mounted (host p) then Dashboard_mount p else p.

(** An event of [Login] and [App] on the page.  The controls of [Login]
    are there while [App] is; a settled exchange runs its continuation
    in any case, and where that reaches [setUser], [App] renders again
    (unless [ErrorBoundary] has replaced it, when [setUser] reaches
    nothing); [logout] is raised on this page by [ClickLogout] and by the
    handlers of [Dashboard]; loading the page again starts everything
    anew, with no request and no timer left. *)
Definition host_step (p : Page) (e : Event) : option Page :=
  match e with
  | Logout => None
  | Reload => Some (Page_boot (storage (host p)))
  | Settle i outcome =>
      match step JSON_parse (host p) e with
      | Some a =>
          if crashed p then Some (set_host (setUser (user (host p)) a) p)
          else if reaches_setUser outcome then
            if Dashboard_mounted (host p) then Some (Dashboard_rerender (set_host a p))
            else Some (Dashboard_mount (set_host a p))
          else Some (set_host a p)
      | None => None
      end
  | _ =>
      if crashed p then None
      else option_map (fun a => set_host a p) (step JSON_parse (host p) e)
  end.

(** The handlers an event runs; [None] when the page offers no way to
    raise the event. *)
Definition handle (p : Page) (e : DEvent) : option Page :=
  let u := user (host p) in
  let o := instance p in
  match e with
  | ChangeQuery value => if alive p then Some (setQuery o value p) else None
  | KeyDown key => if alive p then Some (handleSearch u o key p) else None
  | ChangeQuestion value => if alive p then Some (setQuestion o value p) else None
  | ChangeAnswer value => if alive p then Some (setAnswer o value p) else None
  | SubmitAdd =>
      if alive p && add_can_be_submitted (dashboard p)
      then Some (handleAdd u o p) else None
  | Intersect isIntersecting =>
      if alive p && sentinel_rendered (dashboard p)
      then Some (onIntersect u o isIntersecting p) else None
  | ClickLogout => if alive p then Some (logout p) else None
  | Answer i outcome =>
      match requests p !! i with
      | Some r => Some (settled r outcome (drop_request i p))
      | None => None
      end
  | TimerFires i =>
      match timers p !! i with
      | Some t => Some (setAddMessage t EmptyString (drop_timer i p))
      | None => None
      end
  | Host e => host_step p e
  end.

(** One event: its handlers, then the render. *)
Definition dstep (p : Page) (e : DEvent) : option Page :=
  option_map rendered (handle p e).

Fixpoint drun (p : Page) (es : list DEvent) : option Page :=
  match es with
  | [] => Some p
  | e :: es' => match dstep p e with Some p' => drun p' es' | None => None end
  end.

(** The pages the application can get to: after loading on any storage
    content, and after any events from there. *)
Inductive dreachable : Page -> Prop :=
| dreach_boot st : dreachable (Page_boot st)
| dreach_step p e p' : dreachable p -> dstep p e = Some p' -> dreachable p'.

(** ** Schedules used in the statements *)

(** The backend's list is [all], and [/all] is answered with the slice
    asked for. *)
Definition serve_all (all : list JValue) (r : DRequest) : AxiosOutcome :=
  match call r with
  | GetAll limit offset _ => Resolved 200 (JArr (firstn limit (skipn offset all)))
  | _ => Resolved 200 (JArr [])
  end.

(** The backend answers the request sent last. *)
Definition backend_answers (all : list JValue) (p : Page) : option Page :=
  match last (requests p) with
  | Some r => dstep p (Answer (length (requests p) - 1) (serve_all all r))
  | None => None
  end.

(** The sentinel comes into view and the backend answers the request
    this raises. *)
Definition scroll_once (all : list JValue) (p : Page) : option Page :=
  match dstep p (Intersect true) with
  | Some p1 => backend_answers all p1
  | None => None
  end.

(** The user scrolls to the end of the list [k] times; once the sentinel
    is gone there is nothing left to scroll to. *)
Fixpoint scroll (all : list JValue) (k : nat) (p : Page) : option Page :=
  match k with
  | O => Some p
  | S k' =>
      match scroll_once all p with
      | Some p' => scroll all k' p'
      | None => Some p
      end
  end.

End DashboardRuntime.

(** ** Vocabulary of the statements about [Dashboard] *)

Definition is_add (r : DRequest) : bool :=
  match call r with PostAdd _ _ _ => true | _ => false end.

(** The [/add] requests in flight that the current mount has sent. *)
Definition own_adds (p : Page) : nat :=
  length (List.filter (fun r => is_add r && (sender r =? instance p)%nat) (requests p)).

(** What may stand in the value of a query parameter: the unreserved
    characters and the percent sign of an escape. *)
Definition url_safe (c : N) : bool := uri_unreserved c || (c =? 37).

(** A control of the page: an event only the user can raise. *)
Definition user_event (e : DEvent) : bool :=
  match e with
  | Answer _ _ | TimerFires _ => false
  | Host (Settle _ _) | Host Reload => false
  | _ => true
  end.

(** After the mount made from the page [p0], the first [n] pages of
    [all] are on screen and nothing more is in flight than was. *)
Definition scrolled (all : list JValue) (p0 : Page) (n : nat) (p : Page) : Prop :=
  host p = host p0 /\ crashed p = false /\ instance p = S (instance p0) /\
  requests p = requests p0 /\ alerts p = alerts p0 /\ timers p = timers p0 /\
  query (dashboard p) = [] /\
  loadingItems (dashboard p) = false /\
  items (dashboard p) = firstn (ITEMS_PER_PAGE * n) all /\
  hasMore (dashboard p) = (ITEMS_PER_PAGE * n <=? length all)%nat.

(** At most one [/add] request of the current mount is in flight, and
    with [Dashboard] on screen [adding] tells whether one is; no request
    in flight was sent by a mount still to come. *)
Definition one_add_at_a_time (p : Page) : Prop :=
  Forall (fun r => (sender r <= instance p)%nat) (requests p) /\
  (own_adds p <= 1)%nat /\
  (alive p = true -> own_adds p = if adding (dashboard p) then 1%nat else 0%nat).

(** A state update that does not touch [adding]. *)
Definition keeps_adding (f : DashboardState -> DashboardState) : Prop :=
  forall d, adding (f d) = adding d.

(** The invariant without its clause on [adding]. *)
Definition no_own_add (p : Page) : Prop :=
  Forall (fun r => (sender r <= instance p)%nat) (requests p) /\ own_adds p = 0%nat.

(** What a page keeps once [ErrorBoundary] has replaced [App]. *)
Definition same_fallback (p p' : Page) : Prop :=
  crashed p' = true /\ dashboard p' = dashboard p /\
  user (host p') = user (host p) /\ instance p' = instance p.

(** ** Concrete inputs for [Dashboard] *)

(** A backend list of twelve items, one page and a bit. *)
Definition twelve_items : list JValue :=
  List.map (fun n => JObj [(js "id", JStr [N.of_nat n]);
                           (js "question", JStr (js "Why?"));
                           (js "answer", JStr (js "Because."))])
           (seq 65 12).

(** [App] holding Ada's session, at the moment it is about to render a
    [Dashboard]; the page loaded on her session, with the first request
    for the list in flight; the list once its first page is in; the same
    with a query typed in; and with a contribution on its way. *)
Definition Ada_signed_in : Page :=
  mkPage authenticated_Ada false 0 Dashboard_initial [] [] [].

Definition Ada_loading : Page := Page_boot json_parse (storage authenticated_Ada).

Definition Ada_listing : Page :=
  mkPage authenticated_Ada false 1
    (mkDashboard [] [] false [] [] false [] (firstn 10 twelve_items) false true)
    [] [] [].

Definition Ada_searching : Page :=
  mkPage authenticated_Ada false 1
    (mkDashboard (js "a b") [] false [] [] false [] (firstn 10 twelve_items) false true)
    [] [] [].

Definition Ada_contributing : Page :=
  mkPage authenticated_Ada false 1
    (mkDashboard [] [] false (js "Why?") (js "Because.") true []
       (firstn 10 twelve_items) false true)
    [mkDRequest (PostAdd (js "Why?") (js "Because.") (js "Bearer abc")) 1
                (user authenticated_Ada)]
    [] [].

(** Ada contributes, signs out before the answer is in, signs in again
    and contributes again. *)
Definition contribute_twice : list DEvent :=
  [Answer 0 (Resolved 200 (JArr []));
   ChangeQuestion (js "Why?"); ChangeAnswer (js "Because."); SubmitAdd;
   ClickLogout;
   Host (GoogleSuccess tok_A); Host (Settle 0 (Resolved 200 ada_success));
   Answer 1 (Resolved 200 (JArr []));
   ChangeQuestion (js "Why?"); ChangeAnswer (js "Because."); SubmitAdd].

(** * Properties *)

(** ** Strings *)

Lemma trimStart_nil (s : jsstring) : trimStart s = [] <-> blank s = true.
Proof.
  induction s as [|c s IH]; simpl; [done|].
  destruct (is_js_whitespace c); simpl; [exact IH|].
  split; discriminate.
Qed.

Lemma trimStart_head (s : jsstring) c rest :
  trimStart s = c :: rest -> is_js_whitespace c = false.
Proof.
  induction s as [|a s IH]; simpl; [discriminate|].
  destruct (is_js_whitespace a) eqn:Ha; [exact IH|].
  intros [= <- _]. exact Ha.
Qed.

Lemma blank_rev (s : jsstring) : blank (rev s) = blank s.
Proof.
  unfold blank. induction s as [|c s IH]; simpl; [done|].
  rewrite forallb_app, IH. simpl. rewrite andb_true_r. apply andb_comm.
Qed.

Lemma blank_false (s : jsstring) :
  blank s = false -> exists c, In c s /\ is_js_whitespace c = false.
Proof.
  induction s as [|a s IH]; simpl; [done|].
  destruct (is_js_whitespace a) eqn:Ha; simpl.
  - intros H. destruct (IH H) as (c & Hin & Hc). exists c. auto.
  - intros _. exists a. auto.
Qed.

(** [!s.trim()] holds exactly for the strings made of white space only. *)
Lemma trim_blank (s : jsstring) : str_truthy (trim s) = false <-> blank s = true.
Proof.
  unfold str_truthy, trim, trimEnd.
  rewrite negb_false_iff, bool_decide_eq_true.
  split.
  - intros H. apply (f_equal (@rev N)) in H. rewrite rev_involutive in H. simpl in H.
    apply trimStart_nil in H. rewrite blank_rev in H.
    destruct (trimStart s) as [|c rest] eqn:E; [by apply trimStart_nil|].
    apply trimStart_head in E. simpl in H. rewrite E in H. discriminate.
  - intros H. apply trimStart_nil in H. rewrite H. reflexivity.
Qed.

Lemma trim_not_blank (s : jsstring) : str_truthy (trim s) = true <-> blank s = false.
Proof.
  destruct (str_truthy (trim s)) eqn:E, (blank s) eqn:B; try done.
  - apply trim_blank in B. congruence.
  - apply trim_blank in E. congruence.
Qed.

(** ** The phases *)

Lemma phase_AwaitingProfile (w : World) :
  phase w = AwaitingProfile <->
  truthy (user w) = false /\ isRegistering (login w) = true /\ isLoggingIn (login w) = false.
Proof.
  unfold phase.
  destruct (truthy (user w)), (isRegistering (login w)), (isLoggingIn (login w)),
    (str_truthy (error (login w))); intuition congruence.
Qed.

Lemma phase_Submitting (w : World) :
  phase w = Submitting <->
  truthy (user w) = false /\ isRegistering (login w) = true /\ isLoggingIn (login w) = true.
Proof.
  unfold phase.
  destruct (truthy (user w)), (isRegistering (login w)), (isLoggingIn (login w)),
    (str_truthy (error (login w))); intuition congruence.
Qed.

Lemma phase_Exchanging (w : World) :
  phase w = Exchanging <->
  truthy (user w) = false /\ isRegistering (login w) = false /\ isLoggingIn (login w) = true.
Proof.
  unfold phase.
  destruct (truthy (user w)), (isRegistering (login w)), (isLoggingIn (login w)),
    (str_truthy (error (login w))); intuition congruence.
Qed.

Lemma phase_Authenticated (w : World) :
  phase w = Authenticated <-> truthy (user w) = true.
Proof.
  unfold phase.
  destruct (truthy (user w)), (isRegistering (login w)), (isLoggingIn (login w)),
    (str_truthy (error (login w))); intuition congruence.
Qed.

(** A status string is only ever found on an object. *)
Lemma status_on_object (data : JValue) (lit : string) :
  strict_eq_str (get data "status") lit = true -> truthy data = true.
Proof. destruct data; simpl; done. Qed.

Lemma status_exclusive (data : JValue) :
  strict_eq_str (get data "status") "register_required" = true ->
  strict_eq_str (get data "status") "login_success" = false.
Proof.
  unfold strict_eq_str. destruct (get data "status"); try done.
  rewrite !bool_decide_eq_true, bool_decide_eq_false. intros ->. done.
Qed.

Lemma keys_distinct : js "user_data" <> js "access_token".
Proof. intros H. vm_compute in H. discriminate. Qed.

(** ** What the handlers leave alone *)

(** What a completed [handleLoginSuccess] has done. *)
Lemma handleLoginSuccess_done (data : JValue) (w w' : World) :
  handleLoginSuccess data w = Some w' ->
  exists token_text userData,
    ToString (get data "access_token") = Some token_text /\
    userData = JObj [(js "name", if typeof_string (get data "username")
                                 then get data "username" else JStr (js "User"));
                     (js "token", get data "access_token")] /\
    w' = mkWorld (setItem "user_data" (JSON_stringify userData)
                    (setItem "access_token" token_text (storage w)))
                 userData
                 (mkLogin (error (login w)) false (isRegistering (login w))
                          (displayName (login w)) (googleToken (login w)))
                 (mount w) (pending w).
Proof.
  unfold handleLoginSuccess.
  destruct (ToString (get data "access_token")) as [t|]; [|done].
  intros [= <-]. eexists _, _. repeat split.
Qed.

(** The first exchange carries the credential the widget produced, and
    nothing else. *)
Lemma handleGoogleSuccess_sends (credential : JValue) (w : World) :
  pending (handleGoogleSuccess credential w) =
    pending w ++ [mkRequest (JObj [(js "token", credential)])
                            (AfterGoogleSuccess credential) (mount w)].
Proof. reflexivity. Qed.

(** Every rejection but a 202 gets the message of a request that was
    never answered. *)
Lemma rejected_messages_coincide (status : Z) (w : World) :
  status <> 202%Z ->
  handleGoogleSuccess_catch (Some status) w = handleGoogleSuccess_catch None w.
Proof.
  intros H. unfold handleGoogleSuccess_catch.
  destruct (Z.eqb_spec status 202); [done | reflexivity].
Qed.

(** The continuations send no request. *)
Lemma handleGoogleSuccess_settled_pending (credential : JValue) (o : AxiosOutcome) (w : World) :
  pending (handleGoogleSuccess_settled credential o w) = pending w.
Proof.
  unfold handleGoogleSuccess_settled, handleGoogleSuccess_catch.
  destruct o as [st data|[st|]]; simpl.
  - destruct (_ && _); [done|]. destruct (_ && _); [|done].
    destruct (handleLoginSuccess data w) as [w'|] eqn:E; [|done].
    apply handleLoginSuccess_done in E as (? & ? & _ & _ & ->). done.
  - destruct (st =? 202)%Z; done.
  - done.
Qed.

Lemma handleRegisterSubmit_settled_pending (o : AxiosOutcome) (w : World) :
  pending (handleRegisterSubmit_settled o w) = pending w.
Proof.
  unfold handleRegisterSubmit_settled, handleRegisterSubmit_catch.
  destruct o as [st data|r]; simpl; [|done].
  destruct (_ && _); [|done].
  destruct (handleLoginSuccess data w) as [w'|] eqn:E; [|done].
  apply handleLoginSuccess_done in E as (? & ? & _ & _ & ->). done.
Qed.

(** ** The registration form *)

Section FlowProperties.

(** Every statement of this section holds whatever [JSON.parse] does. *)

Variable JSON_parse : jsstring -> option JValue.

(** Typing in the input changes the draft name and the message only. *)
Lemma onChange_frame (value : jsstring) (w : World) :
  let w' := onChange value w in
  storage w' = storage w /\ user w' = user w /\ pending w' = pending w /\
  mount w' = mount w /\ displayName (login w') = value /\
  isRegistering (login w') = isRegistering (login w) /\
  isLoggingIn (login w') = isLoggingIn (login w) /\
  googleToken (login w') = googleToken (login w).
Proof. unfold onChange. destruct (str_truthy (error (login w))); simpl; done. Qed.

(** What a click on the registration button does, by the draft name. *)
Lemma handleRegisterSubmit_cases (w : World) :
  (blank (displayName (login w)) = true /\
   handleRegisterSubmit w = setError "Please enter a display name." w) \/
  (blank (displayName (login w)) = false /\
   handleRegisterSubmit w =
     axios_post (JObj [(js "token", googleToken (login w));
                       (js "name", JStr (displayName (login w)))])
                AfterRegisterSubmit (setIsLoggingIn true w)).
Proof.
  unfold handleRegisterSubmit.
  destruct (str_truthy (trim (displayName (login w)))) eqn:E; simpl.
  - right. split; [by apply trim_not_blank | done].
  - left. split; [by apply trim_blank | done].
Qed.

(** While a registration request is in flight the form sends nothing. *)
Lemma submitting_form_events (es : list Event) (w w2 : World) :
  phase w = Submitting ->
  Forall (fun e => form_event e = true) es ->
  run JSON_parse w es = Some w2 ->
  pending w2 = pending w /\ phase w2 = Submitting.
Proof.
  revert w. induction es as [|e es IH]; intros w Hph Hes Hrun.
  - simpl in Hrun. by inversion Hrun; subst.
  - inversion Hes as [|? ? He Hes']; subst.
    apply phase_Submitting in Hph as Hflags. destruct Hflags as (Hu & Hr & Hl).
    destruct e; try discriminate He; simpl in Hrun.
    + unfold Login_mounted in Hrun. rewrite Hu, Hr in Hrun. simpl in Hrun.
      destruct (onChange_frame value w) as (_ & Hu' & Hp' & _ & _ & Hr' & Hl' & _).
      destruct (IH (onChange value w)) as [Hp2 Hph2]; try done.
      * apply phase_Submitting. rewrite Hu', Hr', Hl'. done.
      * split; [congruence | done].
    + unfold Login_mounted, submit_button_rendered, submit_button_disabled in Hrun.
      rewrite Hu, Hr, Hl in Hrun. discriminate.
Qed.

(** From the registration form, whatever is typed and however often the
    button is clicked, either nothing has been sent, or exactly one
    request has, carrying the retained token and the name that was in
    the input at the click, which was not blank. *)
Lemma awaiting_form_events (es : list Event) (w w2 : World) :
  phase w = AwaitingProfile ->
  Forall (fun e => form_event e = true) es ->
  run JSON_parse w es = Some w2 ->
  (pending w2 = pending w /\ phase w2 = AwaitingProfile /\
   googleToken (login w2) = googleToken (login w))
  \/
  (exists es1 es2 wa,
      es = es1 ++ ClickSubmit :: es2 /\
      run JSON_parse w es1 = Some wa /\
      blank (displayName (login wa)) = false /\
      pending w2 = pending w ++
        [register_request (googleToken (login w)) (displayName (login wa)) (mount w)] /\
      phase w2 = Submitting).
Proof.
  revert w. induction es as [|e es IH]; intros w Hph Hes Hrun.
  - simpl in Hrun. inversion Hrun; subst. by left.
  - inversion Hes as [|? ? He Hes']; subst.
    apply phase_AwaitingProfile in Hph as Hflags. destruct Hflags as (Hu & Hr & Hl).
    destruct e; try discriminate He; simpl in Hrun.
    + unfold Login_mounted in Hrun. rewrite Hu, Hr in Hrun. simpl in Hrun.
      destruct (onChange_frame value w) as (_ & Hu' & Hp' & Hm' & _ & Hr' & Hl' & Ht').
      destruct (IH (onChange value w)) as [(Hp2 & Hph2 & Ht2)|(es1 & es2 & wa & -> & Hr1 & Hb & Hp2 & Hph2)];
        try done.
      * apply phase_AwaitingProfile. rewrite Hu', Hr', Hl'. done.
      * left. repeat split; congruence.
      * right. exists (ChangeName value :: es1), es2, wa. repeat split; try done.
        -- simpl. unfold Login_mounted. rewrite Hu, Hr. simpl. done.
        -- rewrite Hp2, Hp', Ht', Hm'. done.
    + unfold Login_mounted, submit_button_rendered, submit_button_disabled in Hrun.
      rewrite Hu, Hr, Hl in Hrun. simpl in Hrun.
      destruct (handleRegisterSubmit_cases w) as [[Hb Heq]|[Hb Heq]]; rewrite Heq in Hrun.
      * destruct (IH (setError "Please enter a display name." w))
          as [(Hp2 & Hph2 & Ht2)|(es1 & es2 & wa & -> & Hr1 & Hb1 & Hp2 & Hph2)]; try done.
        -- apply phase_AwaitingProfile. simpl. done.
        -- left. done.
        -- right. exists (ClickSubmit :: es1), es2, wa. repeat split; try done.
           simpl. unfold Login_mounted, submit_button_rendered, submit_button_disabled.
           rewrite Hu, Hr, Hl. simpl. rewrite Heq. done.
      * match type of Hrun with run _ ?w' _ = _ =>
          destruct (submitting_form_events es w' w2) as [Hp2 Hph2]; try done
        end.
        { apply phase_Submitting. simpl. done. }
        right. exists [], es, w. repeat split; done.
Qed.

(** A request of the mounted [Login] settles: its continuation runs on
    the world without that request. *)
Lemma step_settle_mounted (w : World) (i : nat) (r : Request) (o : AxiosOutcome) :
  Login_mounted w = true -> pending w !! i = Some r -> owner r = mount w ->
  step JSON_parse w (Settle i o) =
    Some match continuation r with
         | AfterGoogleSuccess credential =>
             handleGoogleSuccess_settled credential o (drop_pending i w)
         | AfterRegisterSubmit => handleRegisterSubmit_settled o (drop_pending i w)
         end.
Proof.
  intros Hm Hr Ho. simpl. rewrite Hr. unfold settle.
  replace (Login_mounted (drop_pending i w)) with true by (symmetry; exact Hm).
  simpl. rewrite Ho, Nat.eqb_refl. done.
Qed.

(** Only two events put a request in flight, and both are actions of the
    user: the provider widget's success and a click on the button. *)
Lemma requests_come_from_user_actions (w w' : World) (e : Event) :
  step JSON_parse w e = Some w' ->
  (length (pending w) < length (pending w'))%nat ->
  (exists credential, e = GoogleSuccess credential) \/ e = ClickSubmit.
Proof.
  intros Hstep Hlen. destruct e; eauto; exfalso; simpl in Hstep.
  - destruct (_ && _); [|done]. inversion Hstep; subst. simpl in Hlen. lia.
  - destruct (_ && _); [|done]. inversion Hstep; subst.
    destruct (onChange_frame value w) as (_ & _ & Hp & _). rewrite Hp in Hlen. lia.
  - destruct (pending w !! i) as [r|] eqn:Hr; [|done]. inversion Hstep; subst.
    assert (Hdel : (length (delete i (pending w)) <= length (pending w))%nat).
    { rewrite length_delete; [lia | eauto]. }
    assert (Hsame : pending (settle r o (drop_pending i w)) = delete i (pending w)).
    { unfold settle.
      pose proof (handleGoogleSuccess_settled_pending) as Hk.
      pose proof (handleRegisterSubmit_settled_pending o (drop_pending i w)) as Hk'.
      destruct (continuation r); destruct (_ && _); simpl; auto. }
    rewrite Hsame in Hlen. lia.
  - inversion Hstep; subst. destruct (Dashboard_mounted w); simpl in Hlen; lia.
  - inversion Hstep; subst. unfold boot in Hlen. destruct (App_init _ _). simpl in Hlen. lia.
Qed.

(** The registration form with the retained [credential] and nothing in
    flight, on the mount [m] of [Login]. *)
Lemma awaiting_alone_step (credential : JValue) (m : nat) (w w' : World) (e : Event) :
  phase w = AwaitingProfile -> pending w = [] ->
  googleToken (login w) = credential -> mount w = m ->
  e <> Reload ->
  step JSON_parse w e = Some w' ->
  (phase w' = AwaitingProfile /\ pending w' = [] /\
   googleToken (login w') = credential /\ mount w' = m)
  \/
  (e = ClickSubmit /\ blank (displayName (login w)) = false /\
   pending w' = [register_request credential (displayName (login w)) m] /\
   phase w' = Submitting).
Proof.
  intros Hph Hp Ht Hm He Hstep.
  apply phase_AwaitingProfile in Hph as Hflags. destruct Hflags as (Hu & Hr & Hl).
  destruct e; simpl in Hstep.
  - unfold Login_mounted, google_widget_rendered in Hstep.
    rewrite Hu, Hr in Hstep. discriminate.
  - unfold Login_mounted, google_widget_rendered in Hstep.
    rewrite Hu, Hr in Hstep. discriminate.
  - unfold Login_mounted in Hstep. rewrite Hu, Hr in Hstep. simpl in Hstep.
    injection Hstep as <-.
    destruct (onChange_frame value w) as (_ & Hu' & Hp' & Hm' & _ & Hr' & Hl' & Ht').
    left. split; [apply phase_AwaitingProfile; by rewrite Hu', Hr', Hl'|].
    split; [congruence|]. split; congruence.
  - unfold Login_mounted, submit_button_rendered, submit_button_disabled in Hstep.
    rewrite Hu, Hr, Hl in Hstep. simpl in Hstep. injection Hstep as <-.
    destruct (handleRegisterSubmit_cases w) as [[Hb Heq]|[Hb Heq]]; rewrite Heq.
    + left. split; [apply phase_AwaitingProfile; simpl; done|]. simpl. done.
    + right. split; [done|]. split; [done|].
      split; [simpl; rewrite Hp, Ht, Hm; reflexivity|].
      apply phase_Submitting. simpl. done.
  - rewrite Hp in Hstep. discriminate.
  - injection Hstep as <-. unfold Dashboard_mounted. rewrite Hu.
    left. split; [apply phase_AwaitingProfile; simpl; done|]. simpl. done.
  - done.
Qed.

(** What a click on the button does from that form. *)
Lemma awaiting_alone_click (credential : JValue) (m : nat) (w : World) :
  phase w = AwaitingProfile -> pending w = [] ->
  googleToken (login w) = credential -> mount w = m ->
  exists w',
    step JSON_parse w ClickSubmit = Some w' /\
    (blank (displayName (login w)) = true ->
     pending w' = [] /\ phase w' = AwaitingProfile) /\
    (blank (displayName (login w)) = false ->
     pending w' = [register_request credential (displayName (login w)) m] /\
     phase w' = Submitting).
Proof.
  intros Hph Hp Ht Hm.
  apply phase_AwaitingProfile in Hph as Hflags. destruct Hflags as (Hu & Hr & Hl).
  eexists. split.
  { simpl. unfold Login_mounted, submit_button_rendered, submit_button_disabled.
    rewrite Hu, Hr, Hl. simpl. reflexivity. }
  destruct (handleRegisterSubmit_cases w) as [[Hb Heq]|[Hb Heq]]; rewrite Heq; split.
  - intros _. split; [simpl; done|]. apply phase_AwaitingProfile. simpl. done.
  - congruence.
  - congruence.
  - intros _. split; [simpl; rewrite Hp, Ht, Hm; reflexivity|].
    apply phase_Submitting. simpl. done.
Qed.

Lemma awaiting_alone_events (credential : JValue) (m : nat) (es : list Event) (w w2 : World) :
  phase w = AwaitingProfile -> pending w = [] ->
  googleToken (login w) = credential -> mount w = m ->
  Forall (fun e => e <> Reload) es ->
  run JSON_parse w es = Some w2 ->
  (phase w2 = AwaitingProfile /\ pending w2 = [] /\
   googleToken (login w2) = credential /\ mount w2 = m)
  \/
  (exists es1 es2 wa wb,
      es = es1 ++ ClickSubmit :: es2 /\
      run JSON_parse w es1 = Some wa /\
      phase wa = AwaitingProfile /\ pending wa = [] /\
      googleToken (login wa) = credential /\
      blank (displayName (login wa)) = false /\
      step JSON_parse wa ClickSubmit = Some wb /\
      pending wb = [register_request credential (displayName (login wa)) m] /\
      phase wb = Submitting /\
      run JSON_parse wb es2 = Some w2).
Proof.
  revert w. induction es as [|e es IH]; intros w Hph Hp Ht Hm Hes Hrun; simpl in Hrun.
  - injection Hrun as <-. by left.
  - inversion Hes as [|? ? He Hes']; subst.
    destruct (step JSON_parse w e) as [w1|] eqn:Hstep; [|done].
    destruct (awaiting_alone_step _ _ w w1 e Hph Hp eq_refl eq_refl He Hstep)
      as [(Hph1 & Hp1 & Ht1 & Hm1)|(-> & Hb & Hp1 & Hph1)].
    + destruct (IH w1 Hph1 Hp1 Ht1 Hm1 Hes' Hrun)
        as [H|(es1 & es2 & wa & wb & -> & Hr1 & Hpha & Hpa & Hta & Hba & Hsa & Hpb & Hphb & Hr2)];
        [by left|].
      right. exists (e :: es1), es2, wa, wb. repeat split; try done.
      simpl. by rewrite Hstep.
    + right. exists [], es, w, w1. repeat split; done.
Qed.

(** X13.  A first exchange that was the only request in flight and is
    answered [{status: "register_required"}] puts the flow in
    [AwaitingProfile] with its credential retained and nothing in flight.
    From there, whatever happens short of loading the page again, as
    long as no name that is not blank has been submitted nothing is in
    flight and the credential is still retained, a click with a blank
    name sends nothing, and a click with a name that is not blank sends
    exactly [{token: credential, name: name}] and moves to [Submitting]. *)
Theorem registration_sends_retained_credential
  (w : World) (i : nat) (r : Request) (credential : JValue)
  (status : Z) (data : JValue) :
  Login_mounted w = true ->
  pending w !! i = Some r ->
  continuation r = AfterGoogleSuccess credential ->
  owner r = mount w ->
  delete i (pending w) = [] ->
  strict_eq_str (get data "status") "register_required" = true ->
  exists w1,
    step JSON_parse w (Settle i (Resolved status data)) = Some w1 /\
    phase w1 = AwaitingProfile /\
    googleToken (login w1) = credential /\
    pending w1 = [] /\
    forall es w2,
      Forall (fun e => e <> Reload) es ->
      run JSON_parse w1 es = Some w2 ->
      (pending w2 = [] /\ phase w2 = AwaitingProfile /\
       googleToken (login w2) = credential /\
       exists w3,
         step JSON_parse w2 ClickSubmit = Some w3 /\
         (blank (displayName (login w2)) = true ->
          pending w3 = [] /\ phase w3 = AwaitingProfile) /\
         (blank (displayName (login w2)) = false ->
          pending w3 = [register_request credential (displayName (login w2)) (mount w)] /\
          phase w3 = Submitting))
      \/
      (exists es1 es2 wa wb,
          es = es1 ++ ClickSubmit :: es2 /\
          run JSON_parse w1 es1 = Some wa /\
          phase wa = AwaitingProfile /\ pending wa = [] /\
          googleToken (login wa) = credential /\
          blank (displayName (login wa)) = false /\
          step JSON_parse wa ClickSubmit = Some wb /\
          pending wb = [register_request credential (displayName (login wa)) (mount w)] /\
          phase wb = Submitting /\
          run JSON_parse wb es2 = Some w2).
Proof.
  intros Hmo Hr Hk Ho Hdel Hst.
  eexists. split.
  { rewrite (step_settle_mounted w i r _ Hmo Hr Ho), Hk.
    unfold handleGoogleSuccess_settled.
    rewrite (status_on_object _ _ Hst), Hst. simpl. reflexivity. }
  unfold Login_mounted in Hmo. apply negb_true_iff in Hmo.
  assert (Hph : phase (setIsLoggingIn false (setIsRegistering true
                  (setGoogleToken credential (drop_pending i w)))) = AwaitingProfile).
  { apply phase_AwaitingProfile. simpl. done. }
  split; [exact Hph|]. split; [reflexivity|]. split; [exact Hdel|].
  intros es w2 Hes Hrun.
  destruct (awaiting_alone_events credential (mount w) es _ w2 Hph Hdel eq_refl eq_refl Hes Hrun)
    as [(Hph2 & Hp2 & Ht2 & Hm2)|H]; [left|right; exact H].
  split; [done|]. split; [done|]. split; [done|].
  exact (awaiting_alone_click credential (mount w) w2 Hph2 Hp2 Ht2 Hm2).
Qed.

(** C5. In [AwaitingProfile] a click on the button is always possible;
    when the draft name is blank (empty, or white space only) it sends
    nothing, leaves storage and user alone, keeps the flow in
    [AwaitingProfile] and sets the message; and whenever the click does
    put a request in flight the name has a character that is not white
    space. *)
Theorem blank_name_rejected_locally (w : World) :
  phase w = AwaitingProfile ->
  exists w',
    step JSON_parse w ClickSubmit = Some w' /\
    (blank (displayName (login w)) = true ->
     pending w' = pending w /\ storage w' = storage w /\ user w' = user w /\
     phase w' = AwaitingProfile /\
     error (login w') = js "Please enter a display name.") /\
    (pending w' <> pending w ->
     exists c, In c (displayName (login w)) /\ is_js_whitespace c = false).
Proof.
  intros Hph. apply phase_AwaitingProfile in Hph as (Hu & Hr & Hl).
  eexists. split.
  { simpl. unfold Login_mounted, submit_button_rendered, submit_button_disabled.
    rewrite Hu, Hr, Hl. simpl. reflexivity. }
  destruct (handleRegisterSubmit_cases w) as [[Hb Heq]|[Hb Heq]]; rewrite Heq; split.
  - intros _. repeat split; try done. apply phase_AwaitingProfile. simpl. done.
  - simpl. done.
  - congruence.
  - intros _. by apply blank_false.
Qed.

(** C6. A second exchange answered with [{status: "register_required"}]
    is a failure: the message is set, no user is set and nothing is
    stored, the flow is back on the form (not [Authenticated]), the
    settled request is gone and no new one is in flight; from there only
    a new click on the button can send a request. *)
Theorem second_register_required_fails
  (w : World) (i : nat) (r : Request) (status : Z) (data : JValue) :
  phase w = Submitting ->
  pending w !! i = Some r ->
  continuation r = AfterRegisterSubmit ->
  owner r = mount w ->
  strict_eq_str (get data "status") "register_required" = true ->
  exists w',
    step JSON_parse w (Settle i (Resolved status data)) = Some w' /\
    error (login w') = js "Registration failed." /\
    phase w' = AwaitingProfile /\ phase w' <> Authenticated /\
    user w' = user w /\ storage w' = storage w /\
    pending w' = delete i (pending w) /\
    (forall e w'', step JSON_parse w' e = Some w'' ->
                   (length (pending w') < length (pending w''))%nat ->
                   e = ClickSubmit).
Proof.
  intros Hph Hr Hk Ho Hst.
  apply phase_Submitting in Hph as (Hu & Hreg & Hl).
  assert (Hm : Login_mounted w = true) by (unfold Login_mounted; by rewrite Hu).
  eexists. split.
  { rewrite (step_settle_mounted w i r _ Hm Hr Ho), Hk.
    unfold handleRegisterSubmit_settled.
    rewrite (status_exclusive _ Hst), andb_false_r. reflexivity. }
  assert (Hph' : phase (setIsLoggingIn false (setError "Registration failed."
                          (drop_pending i w))) = AwaitingProfile).
  { apply phase_AwaitingProfile. simpl. done. }
  repeat split; try done.
  - rewrite Hph'. discriminate.
  - intros e w'' Hstep Hlen.
    destruct (requests_come_from_user_actions _ _ _ Hstep Hlen) as [[c ->] | ->]; [|done].
    simpl in Hstep. unfold Login_mounted, google_widget_rendered in Hstep. simpl in Hstep.
    rewrite Hu, Hreg in Hstep. discriminate.
Qed.

(** A settled request either leaves storage and user alone or has gone
    through [handleLoginSuccess]. *)
Lemma settle_session (r : Request) (o : AxiosOutcome) (w : World) :
  let w' := settle r o w in
  (storage w' = storage w /\ user w' = user w) \/
  (exists data w1, handleLoginSuccess data w = Some w1 /\
                   storage w' = storage w1 /\ user w' = user w1).
Proof.
  assert (Hg : forall c, let w' := handleGoogleSuccess_settled c o w in
            (storage w' = storage w /\ user w' = user w) \/
            (exists data, handleLoginSuccess data w = Some w')).
  { intros c. unfold handleGoogleSuccess_settled, handleGoogleSuccess_catch.
    destruct o as [st data|[st|]]; simpl.
    - destruct (_ && _); [by left|]. destruct (_ && _); [|by left].
      destruct (handleLoginSuccess data w) eqn:E; [right; eauto | by left].
    - destruct (st =? 202)%Z; by left.
    - by left. }
  assert (Hs : let w' := handleRegisterSubmit_settled o w in
            (storage w' = storage w /\ user w' = user w) \/
            (exists data, handleLoginSuccess data w = Some w')).
  { unfold handleRegisterSubmit_settled, handleRegisterSubmit_catch.
    destruct o as [st data|rs]; simpl; [|by left].
    destruct (_ && _); [|by left].
    destruct (handleLoginSuccess data w) eqn:E; [right; eauto | by left]. }
  unfold settle.
  destruct (continuation r) as [c|].
  - destruct (Hg c) as [H|(data & H)]; [left|right; exists data; eexists; split; [exact H|]];
      destruct (_ && _); simpl; done.
  - destruct Hs as [H|(data & H)]; [left|right; exists data; eexists; split; [exact H|]];
      destruct (_ && _); simpl; done.
Qed.

Lemma handleLoginSuccess_session (data : JValue) (w w' : World) :
  handleLoginSuccess data w = Some w' ->
  session_stored (storage w') /\ Dashboard_mounted w' = true.
Proof.
  intros H. apply handleLoginSuccess_done in H as (t & u & _ & -> & ->).
  unfold session_stored, getItem, Dashboard_mounted. simpl. unfold setItem.
  rewrite lookup_insert_eq, lookup_insert_ne, lookup_insert_eq; [eauto | apply keys_distinct].
Qed.

Lemma handleLogout_session (w : World) :
  getItem "access_token" (storage (handleLogout w)) = None /\
  getItem "user_data" (storage (handleLogout w)) = None /\
  Dashboard_mounted (handleLogout w) = false.
Proof.
  unfold handleLogout, getItem, Dashboard_mounted. simpl. unfold removeItem.
  rewrite lookup_delete_ne, !lookup_delete_eq; [done | apply keys_distinct].
Qed.







Lemma login_success_not_register (data : JValue) :
  strict_eq_str (get data "status") "login_success" = true ->
  strict_eq_str (get data "status") "register_required" = false.
Proof.
  unfold strict_eq_str. destruct (get data "status"); try done.
  rewrite !bool_decide_eq_true, bool_decide_eq_false. intros ->. done.
Qed.

(** A response with [status: "login_success"] and a string
    [access_token], to either exchange, whoever sent it. *)
Lemma settle_login_success
  (w : World) (i : nat) (r : Request) (status : Z) (data : JValue) (token : jsstring) :
  pending w !! i = Some r ->
  strict_eq_str (get data "status") "login_success" = true ->
  get data "access_token" = JStr token ->
  exists w',
    let userData :=
      JObj [(js "name", if typeof_string (get data "username")
                        then get data "username" else JStr (js "User"));
            (js "token", JStr token)] in
    step JSON_parse w (Settle i (Resolved status data)) = Some w' /\
    user w' = userData /\
    storage w' = setItem "user_data" (JSON_stringify userData)
                   (setItem "access_token" token (storage w)) /\
    pending w' = delete i (pending w).
Proof.
  intros Hr Hst Htok.
  assert (Hls : handleLoginSuccess data (drop_pending i w) =
                Some (setIsLoggingIn false (setUser
                  (JObj [(js "name", if typeof_string (get data "username")
                                     then get data "username" else JStr (js "User"));
                         (js "token", JStr token)])
                  (localStorage_setItem "user_data"
                     (JSON_stringify
                        (JObj [(js "name", if typeof_string (get data "username")
                                           then get data "username" else JStr (js "User"));
                               (js "token", JStr token)]))
                     (localStorage_setItem "access_token" token (drop_pending i w)))))).
  { unfold handleLoginSuccess. rewrite Htok. simpl. reflexivity. }
  eexists. split.
  { simpl. rewrite Hr. reflexivity. }
  unfold settle, handleGoogleSuccess_settled, handleRegisterSubmit_settled.
  rewrite (login_success_not_register _ Hst), (status_on_object _ _ Hst), Hst, Hls.
  simpl. destruct (continuation r); destruct (_ && _); simpl; done.
Qed.

(** C8. From a page showing the provider widget with nothing in flight:
    the assertion ["tok-A"], answered (under any HTTP status) with
    [{status: "login_success", access_token: "abc", username: "Ada"}],
    ends in [Authenticated] with nothing in flight, the user
    [{name: "Ada", token: "abc"}], and that record in storage. *)
Theorem scenario_tok_A (w : World) (status : Z) :
  Login_mounted w = true ->
  isRegistering (login w) = false ->
  pending w = [] ->
  exists w',
    run JSON_parse w
      [GoogleSuccess (JStr (js "tok-A"));
       Settle 0 (Resolved status
                   (JObj [(js "status", JStr (js "login_success"));
                          (js "access_token", JStr (js "abc"));
                          (js "username", JStr (js "Ada"))]))] = Some w' /\
    phase w' = Authenticated /\
    pending w' = [] /\
    user w' = JObj [(js "name", JStr (js "Ada")); (js "token", JStr (js "abc"))] /\
    getItem "access_token" (storage w') = Some (js "abc") /\
    getItem "user_data" (storage w') =
      Some (js "{" ++ dq "name" ++ js ":" ++ dq "Ada" ++ js ","
                   ++ dq "token" ++ js ":" ++ dq "abc" ++ js "}").
Proof.
  intros Hm Hr Hp.
  set (data := JObj [(js "status", JStr (js "login_success"));
                     (js "access_token", JStr (js "abc"));
                     (js "username", JStr (js "Ada"))]).
  set (w1 := handleGoogleSuccess (JStr (js "tok-A")) w).
  assert (Hp1 : pending w1 !! 0%nat =
                Some (mkRequest (JObj [(js "token", JStr (js "tok-A"))])
                                (AfterGoogleSuccess (JStr (js "tok-A"))) (mount w))).
  { unfold w1, handleGoogleSuccess, axios_post. simpl. rewrite Hp. reflexivity. }
  destruct (settle_login_success w1 0 _ status data (js "abc") Hp1)
    as (w' & Hstep & Hu & Hs & Hpend); [reflexivity | reflexivity |].
  exists w'. split.
  { assert (Hstep0 : step JSON_parse w (GoogleSuccess (JStr (js "tok-A"))) = Some w1).
    { unfold step, google_widget_rendered, google_widget_disabled.
      rewrite Hm, Hr. reflexivity. }
    cbn [run]. rewrite Hstep0, Hstep. reflexivity. }
  split; [apply phase_Authenticated; rewrite Hu; reflexivity|].
  split; [rewrite Hpend; unfold w1, handleGoogleSuccess, axios_post; simpl; rewrite Hp; reflexivity|].
  split; [exact Hu|].
  rewrite Hs. unfold getItem, setItem.
  rewrite lookup_insert_ne, !lookup_insert_eq; [|apply keys_distinct].
  split; reflexivity.
Qed.

(** C9. A response with [status: "login_success"], a string
    [access_token] and a [username] that is not a string (missing,
    null, a number, ...), to either exchange: the flow is
    [Authenticated], the user and the stored record carry the name
    ["User"]; and [Dashboard], which is only mounted on a truthy user,
    shows ["User"] for any such user whose [name] is not a string. *)
Theorem non_string_username_falls_back
  (w : World) (i : nat) (r : Request) (status : Z) (data : JValue) (token : jsstring) :
  pending w !! i = Some r ->
  strict_eq_str (get data "status") "login_success" = true ->
  get data "access_token" = JStr token ->
  typeof_string (get data "username") = false ->
  exists w',
    step JSON_parse w (Settle i (Resolved status data)) = Some w' /\
    phase w' = Authenticated /\
    user w' = JObj [(js "name", JStr (js "User")); (js "token", JStr token)] /\
    getItem "access_token" (storage w') = Some token /\
    getItem "user_data" (storage w') =
      Some (JSON_stringify (JObj [(js "name", JStr (js "User"));
                                  (js "token", JStr token)])) /\
    Dashboard.displayName (user w') = JStr (js "User") /\
    (forall u, truthy u = true -> typeof_string (get u "name") = false ->
               Dashboard.displayName u = JStr (js "User")).
Proof.
  intros Hr Hst Htok Hname.
  destruct (settle_login_success w i r status data token Hr Hst Htok)
    as (w' & Hstep & Hu & Hs & _).
  rewrite Hname in Hu, Hs.
  exists w'. split; [exact Hstep|].
  split; [apply phase_Authenticated; rewrite Hu; reflexivity|].
  split; [exact Hu|].
  rewrite Hs. unfold getItem, setItem.
  rewrite lookup_insert_ne, !lookup_insert_eq; [|apply keys_distinct].
  repeat split.
  - rewrite Hu. reflexivity.
  - intros u _ Hn. unfold Dashboard.displayName. rewrite Hn. reflexivity.
Qed.

(** C10, as the code has it.  When storage holds an [access_token] and a
    [user_data] that [JSON.parse] rejects, the application starts
    unauthenticated; both keys are removed when neither value is the
    empty string, and storage is left as it was when one of them is. *)
Theorem corrupted_session_is_discarded (st : Storage) (token storedUser : jsstring) :
  getItem "access_token" st = Some token ->
  getItem "user_data" st = Some storedUser ->
  JSON_parse storedUser = None ->
  user (boot JSON_parse st) = JNull /\
  phase (boot JSON_parse st) = Idle /\
  (token <> [] /\ storedUser <> [] ->
   storage (boot JSON_parse st) = removeItem "user_data" (removeItem "access_token" st) /\
   getItem "access_token" (storage (boot JSON_parse st)) = None /\
   getItem "user_data" (storage (boot JSON_parse st)) = None) /\
  (token = [] \/ storedUser = [] -> storage (boot JSON_parse st) = st).
Proof.
  intros Ht Hu Hp. unfold boot, App_init. rewrite Ht, Hu. simpl. rewrite Hp.
  unfold str_truthy.
  destruct (decide (token = [])) as [->|Hnt]; [|destruct (decide (storedUser = [])) as [->|Hnu]].
  - simpl. split; [done|]. split; [done|]. split; [|done]. intros [? _]. done.
  - rewrite bool_decide_eq_false_2 by done. simpl.
    split; [done|]. split; [done|]. split; [|done]. intros [_ ?]. done.
  - rewrite !bool_decide_eq_false_2 by done. simpl.
    split; [done|]. split; [done|]. split.
    + intros _. split; [done|]. unfold getItem, removeItem. split.
      * rewrite lookup_delete_ne, lookup_delete_eq; [done|apply keys_distinct].
      * apply lookup_delete_eq.
    + intros [?|?]; done.
Qed.

End FlowProperties.

(** * The flow on concrete inputs, with the reference [JSON.parse] *)

Lemma run_reachable (parse : jsstring -> option JValue) (es : list Event) (w w' : World) :
  reachable parse w -> run parse w es = Some w' -> reachable parse w'.
Proof.
  revert w. induction es as [|e es IH]; intros w Hw Hrun; simpl in Hrun.
  - by inversion Hrun; subst.
  - destruct (step parse w e) as [w1|] eqn:E; [|done].
    apply (IH w1); [|done]. by eapply reach_step.
Qed.

(** While [Submitting], neither control can be triggered. *)
Lemma controls_unavailable_while_submitting (parse : jsstring -> option JValue) (w : World) :
  phase w = Submitting ->
  step parse w ClickSubmit = None /\
  (forall credential, step parse w (GoogleSuccess credential) = None).
Proof.
  intros H. apply phase_Submitting in H as (Hu & Hr & Hl).
  unfold step, Login_mounted, submit_button_rendered, submit_button_disabled,
    google_widget_rendered.
  rewrite Hu, Hr, Hl. done.
Qed.

(** The click on the button with ["Grace"] in the input: the body of the
    second exchange. *)
Example second_exchange_request :
  step json_parse awaiting_Grace ClickSubmit = Some submitting_Grace /\
  payload <$> pending submitting_Grace =
    [JObj [(js "token", tok_B); (js "name", JStr (js "Grace"))]].
Proof. split; vm_compute; reflexivity. Qed.

(** A stored [user_data] that is valid JSON for a falsy value: the keys
    stay and nobody is authenticated. *)
Example stored_null_user :
  let st : Storage := {[ js "access_token" := js "abc"; js "user_data" := js "null" ]} in
  json_parse (js "null") = Some JNull /\
  storage (boot json_parse st) = st /\
  Dashboard_mounted (boot json_parse st) = false.
Proof. vm_compute. done. Qed.

(** The second scenario of the specification, from end to end. *)
Example scenario_tok_B :
  exists w,
    run json_parse fresh
      [GoogleSuccess tok_B;
       Settle 0 (Resolved 200 register_required_body);
       ChangeName (js "Grace");
       ClickSubmit;
       Settle 0 (Resolved 200
                   (JObj [(js "status", JStr (js "login_success"));
                          (js "access_token", JStr (js "xyz"));
                          (js "username", JStr (js "Grace"))]))] = Some w /\
    phase w = Authenticated /\
    user w = JObj [(js "name", JStr (js "Grace")); (js "token", JStr (js "xyz"))] /\
    getItem "access_token" (storage w) = Some (js "xyz") /\
    (* loading the page again finds the same session *)
    user (boot json_parse (storage w)) = user w.
Proof. eexists. split; [vm_compute; reflexivity|]. vm_compute. done. Qed.

(** The third scenario: a 401 leaves no session behind. *)
Example scenario_tok_C :
  exists w,
    run json_parse fresh
      [GoogleSuccess (JStr (js "tok-C")); Settle 0 (Rejected (Some 401%Z))] = Some w /\
    phase w = Failed /\ user w = JNull /\ storage w = ∅.
Proof. eexists. split; [vm_compute; reflexivity|]. vm_compute. done. Qed.

(** ** Where the code and its tests part *)

(** C1.  [Login.test.jsx], "handles direct token response successfully"
    and "handles 202 Accepted with valid payload successfully": a body
    [{access_token, username}] of two strings without a [status] field,
    under any HTTP status.  The code takes the last branch of
    [handleGoogleSuccess]: the message is "Unexpected response from
    server.", no user is set, nothing is stored. *)
Theorem direct_token_response_is_refused
  (status : Z) (access_token username : jsstring) :
  exists w,
    run json_parse fresh
      [GoogleSuccess fake_token;
       Settle 0 (Resolved status
                   (JObj [(js "access_token", JStr access_token);
                          (js "username", JStr username)]))] = Some w /\
    phase w = Failed /\
    error (login w) = js "Unexpected response from server." /\
    user w = JNull /\
    storage w = ∅.
Proof. eexists. split; [vm_compute; reflexivity|]. vm_compute. done. Qed.

(** C2.  [Login.test.jsx], "handles 401 Unauthorized", expects the text
    "Authentication failed: Invalid credentials.".  The code tests the
    rejected status against 202 and gives a 401 the message it gives a
    request that got no answer at all; the second exchange has a single
    message for every failure. *)
Theorem unauthorized_has_no_message_of_its_own :
  (exists w401 wnet,
      run json_parse fresh
        [GoogleSuccess fake_token; Settle 0 (Rejected (Some 401%Z))] = Some w401 /\
      run json_parse fresh
        [GoogleSuccess fake_token; Settle 0 (Rejected None)] = Some wnet /\
      phase w401 = Failed /\
      error (login w401) = js "Authentication failed." /\
      error (login w401) <> js "Authentication failed: Invalid credentials." /\
      error (login wnet) = error (login w401)) /\
  (exists w401 wnet,
      step json_parse submitting_Grace (Settle 0 (Rejected (Some 401%Z))) = Some w401 /\
      step json_parse submitting_Grace (Settle 0 (Rejected None)) = Some wnet /\
      error (login w401) = js "Registration failed." /\
      error (login wnet) = error (login w401) /\
      phase w401 = AwaitingProfile).
Proof.
  split; eexists _, _; (split; [vm_compute; reflexivity|]); (split; [vm_compute; reflexivity|]); vm_compute; done.
Qed.

(** C7.  After a first success of the provider widget the flow is
    [Exchanging], the widget is still rendered and is not disabled, and a
    second success puts a second request in flight before the first has
    settled, whatever the two credentials. *)
Theorem widget_stays_enabled_while_exchanging (first second : JValue) :
  exists w1 w2,
    step json_parse fresh (GoogleSuccess first) = Some w1 /\
    phase w1 = Exchanging /\
    google_widget_rendered (login w1) = true /\
    google_widget_disabled (login w1) = false /\
    length (pending w1) = 1%nat /\
    step json_parse w1 (GoogleSuccess second) = Some w2 /\
    phase w2 = Exchanging /\
    payload <$> pending w2 = [JObj [(js "token", first)]; JObj [(js "token", second)]].
Proof. eexists _, _. split; [vm_compute; reflexivity|]. vm_compute. done. Qed.

(** C3.  The widget is still there while the first exchange is in flight
    (the defect of C7), so two first exchanges can be pending at once.
    When both are answered [{status: "register_required"}], the first
    answer puts the flow in [AwaitingProfile] with the first credential
    retained, the second answer replaces it, and the name submitted next
    goes out with the second credential: the registration that the first
    answer opened is not completed with its own assertion. *)
Theorem concurrent_exchange_replaces_credential (first second : JValue) :
  exists w1 w2,
    run json_parse fresh
      [GoogleSuccess first; GoogleSuccess second;
       Settle 0 (Resolved 200 register_required_body)] = Some w1 /\
    phase w1 = AwaitingProfile /\
    googleToken (login w1) = first /\
    run json_parse w1
      [Settle 0 (Resolved 200 register_required_body);
       ChangeName (js "Grace"); ClickSubmit] = Some w2 /\
    phase w2 = Submitting /\
    payload <$> pending w2 = [JObj [(js "token", second); (js "name", JStr (js "Grace"))]].
Proof. eexists _, _. split; [vm_compute; reflexivity|]. vm_compute. done. Qed.

(** ** Where the specification says more than the code does *)


(** C10.  Storage holds an (empty) [access_token] and a [user_data] that
    is not JSON: the test [token && storedUser] fails, [JSON.parse] is
    never reached and both keys stay where they are. *)
Lemma corrupted_session_kept_when_token_empty :
  let st : Storage := {[ js "access_token" := js EmptyString; js "user_data" := js "{bad" ]} in
  getItem "access_token" st = Some (js EmptyString) /\
  getItem "user_data" st = Some (js "{bad") /\
  json_parse (js "{bad") = None /\
  user (boot json_parse st) = JNull /\
  getItem "access_token" (storage (boot json_parse st)) = Some (js EmptyString) /\
  getItem "user_data" (storage (boot json_parse st)) = Some (js "{bad").
Proof. vm_compute. done. Qed.

(** ** The theorems at concrete inputs *)

Lemma registration_sends_retained_credential_witness :
  let es := [ClickSubmit; ChangeName (js "  "); ClickSubmit; Logout;
             ChangeName (js "Grace"); ClickSubmit] in
  delete 0%nat (pending exchanging_B) = [] /\
  run json_parse awaiting_B es = Some submitting_Grace /\
  exists w1,
    step json_parse exchanging_B (Settle 0 (Resolved 200 register_required_body)) = Some w1 /\
    phase w1 = AwaitingProfile /\
    googleToken (login w1) = tok_B /\
    pending w1 = [] /\
    forall es w2,
      Forall (fun e => e <> Reload) es ->
      run json_parse w1 es = Some w2 ->
      (pending w2 = [] /\ phase w2 = AwaitingProfile /\
       googleToken (login w2) = tok_B /\
       exists w3,
         step json_parse w2 ClickSubmit = Some w3 /\
         (blank (displayName (login w2)) = true ->
          pending w3 = [] /\ phase w3 = AwaitingProfile) /\
         (blank (displayName (login w2)) = false ->
          pending w3 = [register_request tok_B (displayName (login w2)) (mount exchanging_B)] /\
          phase w3 = Submitting))
      \/
      (exists es1 es2 wa wb,
          es = es1 ++ ClickSubmit :: es2 /\
          run json_parse w1 es1 = Some wa /\
          phase wa = AwaitingProfile /\ pending wa = [] /\
          googleToken (login wa) = tok_B /\
          blank (displayName (login wa)) = false /\
          step json_parse wa ClickSubmit = Some wb /\
          pending wb = [register_request tok_B (displayName (login wa)) (mount exchanging_B)] /\
          phase wb = Submitting /\
          run json_parse wb es2 = Some w2).
Proof.
  split; [vm_compute; reflexivity|]. split; [vm_compute; reflexivity|].
  apply (registration_sends_retained_credential json_parse exchanging_B 0
           (mkRequest (JObj [(js "token", tok_B)]) (AfterGoogleSuccess tok_B) 0) tok_B
           200 register_required_body);
    vm_compute; reflexivity.
Defined.

Lemma blank_name_rejected_locally_witness :
  phase awaiting_blank = AwaitingProfile /\
  blank (displayName (login awaiting_blank)) = true /\
  exists w',
    step json_parse awaiting_blank ClickSubmit = Some w' /\
    (blank (displayName (login awaiting_blank)) = true ->
     pending w' = pending awaiting_blank /\ storage w' = storage awaiting_blank /\
     user w' = user awaiting_blank /\
     phase w' = AwaitingProfile /\
     error (login w') = js "Please enter a display name.") /\
    (pending w' <> pending awaiting_blank ->
     exists c, In c (displayName (login awaiting_blank)) /\ is_js_whitespace c = false).
Proof.
  split; [vm_compute; reflexivity|]. split; [vm_compute; reflexivity|].
  apply (blank_name_rejected_locally json_parse awaiting_blank). vm_compute; reflexivity.
Defined.

Lemma second_register_required_fails_witness :
  phase submitting_Grace = Submitting /\
  pending submitting_Grace !! 0%nat = Some (register_request tok_B (js "Grace") 0) /\
  exists w',
    step json_parse submitting_Grace (Settle 0 (Resolved 200 register_required_body))
      = Some w' /\
    error (login w') = js "Registration failed." /\
    phase w' = AwaitingProfile /\ phase w' <> Authenticated /\
    user w' = user submitting_Grace /\ storage w' = storage submitting_Grace /\
    pending w' = delete 0%nat (pending submitting_Grace) /\
    (forall e w'', step json_parse w' e = Some w'' ->
                   (length (pending w') < length (pending w''))%nat ->
                   e = ClickSubmit).
Proof.
  split; [vm_compute; reflexivity|]. split; [vm_compute; reflexivity|].
  apply (second_register_required_fails json_parse submitting_Grace 0
           (register_request tok_B (js "Grace") 0) 200 register_required_body);
    vm_compute; reflexivity.
Defined.

Lemma scenario_tok_A_witness :
  Login_mounted fresh = true /\
  isRegistering (login fresh) = false /\
  pending fresh = [] /\
  exists w',
    run json_parse fresh
      [GoogleSuccess (JStr (js "tok-A"));
       Settle 0 (Resolved 200
                   (JObj [(js "status", JStr (js "login_success"));
                          (js "access_token", JStr (js "abc"));
                          (js "username", JStr (js "Ada"))]))] = Some w' /\
    phase w' = Authenticated /\
    pending w' = [] /\
    user w' = JObj [(js "name", JStr (js "Ada")); (js "token", JStr (js "abc"))] /\
    getItem "access_token" (storage w') = Some (js "abc") /\
    getItem "user_data" (storage w') =
      Some (js "{" ++ dq "name" ++ js ":" ++ dq "Ada" ++ js ","
                   ++ dq "token" ++ js ":" ++ dq "abc" ++ js "}").
Proof.
  split; [vm_compute; reflexivity|]. split; [vm_compute; reflexivity|]. split; [vm_compute; reflexivity|].
  apply (scenario_tok_A json_parse fresh 200);
    vm_compute; reflexivity.
Defined.

Lemma non_string_username_falls_back_witness :
  pending exchanging_B !! 0%nat =
    Some (mkRequest (JObj [(js "token", tok_B)]) (AfterGoogleSuccess tok_B) 0) /\
  strict_eq_str (get nameless_success "status") "login_success" = true /\
  get nameless_success "access_token" = JStr (js "abc") /\
  typeof_string (get nameless_success "username") = false /\
  exists w',
    step json_parse exchanging_B (Settle 0 (Resolved 200 nameless_success)) = Some w' /\
    phase w' = Authenticated /\
    user w' = JObj [(js "name", JStr (js "User")); (js "token", JStr (js "abc"))] /\
    getItem "access_token" (storage w') = Some (js "abc") /\
    getItem "user_data" (storage w') =
      Some (JSON_stringify (JObj [(js "name", JStr (js "User"));
                                  (js "token", JStr (js "abc"))])) /\
    Dashboard.displayName (user w') = JStr (js "User") /\
    (forall u, truthy u = true -> typeof_string (get u "name") = false ->
               Dashboard.displayName u = JStr (js "User")).
Proof.
  split; [vm_compute; reflexivity|]. split; [vm_compute; reflexivity|]. split; [vm_compute; reflexivity|]. split; [vm_compute; reflexivity|].
  apply (non_string_username_falls_back json_parse exchanging_B 0
           (mkRequest (JObj [(js "token", tok_B)]) (AfterGoogleSuccess tok_B) 0)
           200 nameless_success (js "abc"));
    vm_compute; reflexivity.
Defined.


Lemma corrupted_session_is_discarded_witness :
  getItem "access_token" corrupted_storage = Some (js "abc") /\
  getItem "user_data" corrupted_storage = Some (js "{bad") /\
  json_parse (js "{bad") = None /\
  user (boot json_parse corrupted_storage) = JNull /\
  phase (boot json_parse corrupted_storage) = Idle /\
  (js "abc" <> [] /\ js "{bad" <> [] ->
   storage (boot json_parse corrupted_storage)
     = removeItem "user_data" (removeItem "access_token" corrupted_storage) /\
   getItem "access_token" (storage (boot json_parse corrupted_storage)) = None /\
   getItem "user_data" (storage (boot json_parse corrupted_storage)) = None) /\
  (js "abc" = [] \/ js "{bad" = [] ->
   storage (boot json_parse corrupted_storage) = corrupted_storage).
Proof.
  split; [vm_compute; reflexivity|]. split; [vm_compute; reflexivity|]. split; [vm_compute; reflexivity|].
  apply (corrupted_session_is_discarded json_parse corrupted_storage (js "abc") (js "{bad"));
    vm_compute; reflexivity.
Defined.

(** * More of the sign-in flow *)

Section SessionWrites.

Variable JSON_parse : jsstring -> option JValue.

(** A settled request that touched storage or the user was a
    [login_success] that went through [handleLoginSuccess]. *)
Lemma settle_touches_session (r : Request) (o : AxiosOutcome) (w : World) :
  let w' := settle r o w in
  (storage w' = storage w /\ user w' = user w) \/
  (exists status data w1,
      o = Resolved status data /\
      strict_eq_str (get data "status") "login_success" = true /\
      handleLoginSuccess data w = Some w1 /\
      storage w' = storage w1 /\ user w' = user w1).
Proof.
  assert (Hg : forall c, let w' := handleGoogleSuccess_settled c o w in
            (storage w' = storage w /\ user w' = user w) \/
            (exists status data,
                o = Resolved status data /\
                strict_eq_str (get data "status") "login_success" = true /\
                handleLoginSuccess data w = Some w')).
  { intros c. unfold handleGoogleSuccess_settled, handleGoogleSuccess_catch.
    destruct o as [st data|[st|]]; simpl.
    - destruct (_ && _); [by left|].
      destruct (truthy data && strict_eq_str (get data "status") "login_success") eqn:E;
        [|by left].
      apply andb_true_iff in E as [_ E].
      destruct (handleLoginSuccess data w) eqn:E'; [right; eauto | by left].
    - destruct (st =? 202)%Z; by left.
    - by left. }
  assert (Hs : let w' := handleRegisterSubmit_settled o w in
            (storage w' = storage w /\ user w' = user w) \/
            (exists status data,
                o = Resolved status data /\
                strict_eq_str (get data "status") "login_success" = true /\
                handleLoginSuccess data w = Some w')).
  { unfold handleRegisterSubmit_settled, handleRegisterSubmit_catch.
    destruct o as [st data|rs]; simpl; [|by left].
    destruct (truthy data && strict_eq_str (get data "status") "login_success") eqn:E;
      [|by left].
    apply andb_true_iff in E as [_ E].
    destruct (handleLoginSuccess data w) eqn:E'; [right; eauto | by left]. }
  unfold settle.
  destruct (continuation r) as [c|].
  - destruct (Hg c) as [H|(st & data & Ho & Hst & H)];
      [left|right; exists st, data; eexists; split; [exact Ho|split; [exact Hst|split; [exact H|]]]];
      destruct (_ && _); simpl; done.
  - destruct Hs as [H|(st & data & Ho & Hst & H)];
      [left|right; exists st, data; eexists; split; [exact Ho|split; [exact Hst|split; [exact H|]]]];
      destruct (_ && _); simpl; done.
Qed.

(** X1.  Storage and [App]'s user only ever change when an exchange is
    answered [login_success], on logout, or when the page is loaded
    again: no failure path, no typing and no click writes a session. *)
Theorem session_only_changes_on_success_logout_reload (w w' : World) (e : Event) :
  step JSON_parse w e = Some w' ->
  storage w' <> storage w \/ user w' <> user w ->
  (exists i status data,
      e = Settle i (Resolved status data) /\
      strict_eq_str (get data "status") "login_success" = true)
  \/ e = Logout \/ e = Reload.
Proof.
  intros Hstep Hch.
  assert (Hsame : storage w' = storage w /\ user w' = user w -> False).
  { intros [Hs Hu]. destruct Hch as [H|H]; apply H; done. }
  destruct e; simpl in Hstep; [exfalso..| | by right; left | by right; right].
  - destruct (_ && _); [|done]. inversion Hstep; subst. by apply Hsame.
  - destruct (_ && _); [|done]. inversion Hstep; subst. by apply Hsame.
  - destruct (_ && _); [|done]. inversion Hstep; subst.
    destruct (onChange_frame value w) as (Hs & Hu & _). by apply Hsame.
  - destruct (_ && _); [|done]. inversion Hstep; subst. apply Hsame.
    destruct (handleRegisterSubmit_cases w) as [[_ Heq]|[_ Heq]]; rewrite Heq; done.
  - destruct (pending w !! i) as [r|]; [|done]. inversion Hstep; subst.
    destruct (settle_touches_session r o (drop_pending i w))
      as [[Hs Hu]|(st & data & w1 & -> & Hst & _)]; [exfalso; by apply Hsame|].
    left. eauto.
Qed.

End SessionWrites.

(** X2.  A login overwrites and never merges: after a login, the two
    session keys and the user are those of the new answer alone, as if
    no earlier login had happened, and every other key of storage is
    left as it was. *)
Theorem relogin_overwrites (first second : JValue) (w w1 w2 : World) :
  handleLoginSuccess first w = Some w1 ->
  handleLoginSuccess second w1 = Some w2 ->
  exists w2',
    handleLoginSuccess second w = Some w2' /\
    storage w2 = storage w2' /\ user w2 = user w2' /\
    (forall k, k <> js "access_token" -> k <> js "user_data" ->
               storage w2 !! k = storage w !! k).
Proof.
  intros H1 H2.
  apply handleLoginSuccess_done in H1 as (t1 & u1 & Ht1 & -> & ->).
  apply handleLoginSuccess_done in H2 as (t2 & u2 & Ht2 & -> & ->).
  unfold handleLoginSuccess. rewrite Ht2. eexists. split; [reflexivity|].
  simpl. unfold setItem. split; [|split; [done|]].
  - apply map_eq. intros k. rewrite !lookup_insert.
    repeat case_decide; congruence.
  - intros k Ha Hu. by rewrite !lookup_insert_ne by congruence.
Qed.

Section SignOut.

Variable JSON_parse : jsstring -> option JValue.

(** X3.  Logout removes the two session keys and nothing else, and the
    page loaded again after a logout shows the sign-in widget with no
    message, whatever else is in storage. *)
Theorem logout_then_reload_is_signed_out (w w1 w2 : World) :
  step JSON_parse w Logout = Some w1 ->
  step JSON_parse w1 Reload = Some w2 ->
  getItem "access_token" (storage w2) = None /\
  getItem "user_data" (storage w2) = None /\
  (forall k, k <> js "access_token" -> k <> js "user_data" ->
             storage w2 !! k = storage w !! k) /\
  user w2 = JNull /\ phase w2 = Idle /\ pending w2 = [] /\
  google_widget_rendered (login w2) = true.
Proof.
  intros H1 H2. simpl in H1, H2. inversion H1; subst; clear H1.
  inversion H2; subst; clear H2.
  assert (Hst : storage (if Dashboard_mounted w
                         then remount_Login (handleLogout w) else handleLogout w)
                = removeItem "user_data" (removeItem "access_token" (storage w))).
  { destruct (Dashboard_mounted w); reflexivity. }
  rewrite Hst. unfold boot, App_init, getItem, removeItem.
  rewrite lookup_delete_ne, lookup_delete_eq by apply keys_distinct. simpl.
  rewrite lookup_delete_ne, !lookup_delete_eq by apply keys_distinct.
  repeat split; try done.
  intros k Ha Hu. by rewrite !lookup_delete_ne by congruence.
Qed.

End SignOut.

Section SessionReload.

Variable JSON_parse : jsstring -> option JValue.

(** A [login_success] answer whose [access_token] converts to a string,
    to either exchange, whoever sent it. *)
Lemma settle_login_success_any_token
  (w : World) (i : nat) (r : Request) (status : Z) (data : JValue) (token_text : jsstring) :
  pending w !! i = Some r ->
  strict_eq_str (get data "status") "login_success" = true ->
  ToString (get data "access_token") = Some token_text ->
  exists w',
    let userData :=
      JObj [(js "name", if typeof_string (get data "username")
                        then get data "username" else JStr (js "User"));
            (js "token", get data "access_token")] in
    step JSON_parse w (Settle i (Resolved status data)) = Some w' /\
    user w' = userData /\
    storage w' = setItem "user_data" (JSON_stringify userData)
                   (setItem "access_token" token_text (storage w)) /\
    pending w' = delete i (pending w).
Proof.
  intros Hr Hst Htok.
  assert (Hls : exists w1, handleLoginSuccess data (drop_pending i w) = Some w1 /\
                  user w1 = JObj [(js "name", if typeof_string (get data "username")
                                       then get data "username" else JStr (js "User"));
                                  (js "token", get data "access_token")] /\
                  storage w1 = setItem "user_data"
                       (JSON_stringify
                          (JObj [(js "name", if typeof_string (get data "username")
                                             then get data "username" else JStr (js "User"));
                                 (js "token", get data "access_token")]))
                       (setItem "access_token" token_text (storage w)) /\
                  pending w1 = delete i (pending w)).
  { unfold handleLoginSuccess. rewrite Htok. eexists. split; [reflexivity|]. simpl. done. }
  destruct Hls as (w1 & Hls & Hu & Hs & Hp).
  eexists. split.
  { simpl. rewrite Hr. reflexivity. }
  unfold settle, handleGoogleSuccess_settled, handleRegisterSubmit_settled.
  rewrite (login_success_not_register _ Hst), (status_on_object _ _ Hst), Hst, Hls.
  simpl. destruct (continuation r); destruct (_ && _); simpl; done.
Qed.

(** X4.  A session written by a login is found again when the page is
    loaded: for a [login_success] answer with a non-empty string token,
    provided [JSON.parse] reads back what [JSON.stringify] wrote for the
    user record, the reloaded page is authenticated with the same user
    and the same storage. *)
Theorem session_survives_reload
  (w : World) (i : nat) (r : Request) (status : Z) (data : JValue) (token : jsstring) :
  pending w !! i = Some r ->
  strict_eq_str (get data "status") "login_success" = true ->
  get data "access_token" = JStr token ->
  token <> [] ->
  JSON_parse (JSON_stringify
                (JObj [(js "name", if typeof_string (get data "username")
                                   then get data "username" else JStr (js "User"));
                       (js "token", JStr token)]))
    = Some (JObj [(js "name", if typeof_string (get data "username")
                              then get data "username" else JStr (js "User"));
                  (js "token", JStr token)]) ->
  exists w1 w2,
    step JSON_parse w (Settle i (Resolved status data)) = Some w1 /\
    step JSON_parse w1 Reload = Some w2 /\
    phase w2 = Authenticated /\
    user w2 = user w1 /\
    storage w2 = storage w1 /\
    user w2 = JObj [(js "name", if typeof_string (get data "username")
                                then get data "username" else JStr (js "User"));
                    (js "token", JStr token)].
Proof.
  intros Hr Hst Htok Hne Hparse.
  destruct (settle_login_success JSON_parse w i r status data token Hr Hst Htok)
    as (w1 & Hstep & Hu & Hs & _).
  exists w1. eexists. split; [exact Hstep|]. split; [reflexivity|].
  unfold boot, App_init. rewrite Hs. unfold getItem, setItem.
  rewrite lookup_insert_ne, !lookup_insert_eq by apply keys_distinct.
  unfold str_truthy. rewrite (bool_decide_eq_false_2 (token = [])) by done.
  rewrite bool_decide_eq_false_2.
  2:{ unfold JSON_stringify. simpl. discriminate. }
  simpl andb. cbv iota. rewrite Hparse. simpl.
  rewrite Hu. repeat split; done.
Qed.

(** X5.  A [login_success] answer that carries no [access_token] is
    accepted all the same: the user is authenticated with an undefined
    token, the text "undefined" is stored under [access_token], and the
    stored record has a name and no token. *)
Theorem login_success_without_token
  (w : World) (i : nat) (r : Request) (status : Z) (data : JValue) (username : jsstring) :
  pending w !! i = Some r ->
  strict_eq_str (get data "status") "login_success" = true ->
  get data "access_token" = JUndefined ->
  get data "username" = JStr username ->
  exists w',
    step JSON_parse w (Settle i (Resolved status data)) = Some w' /\
    phase w' = Authenticated /\
    get (user w') "name" = JStr username /\
    get (user w') "token" = JUndefined /\
    getItem "access_token" (storage w') = Some (js "undefined") /\
    getItem "user_data" (storage w') =
      Some (js "{" ++ dq "name" ++ js ":" ++ QuoteJSONString username ++ js "}").
Proof.
  intros Hr Hst Htok Hname.
  destruct (settle_login_success_any_token w i r status data (js "undefined") Hr Hst)
    as (w' & Hstep & Hu & Hs & _); [by rewrite Htok|].
  rewrite Hname, Htok in Hu, Hs. simpl in Hu, Hs.
  exists w'. split; [exact Hstep|].
  split; [apply phase_Authenticated; by rewrite Hu|].
  rewrite Hu, Hs. unfold getItem, setItem.
  rewrite lookup_insert_ne, !lookup_insert_eq by apply keys_distinct.
  repeat split.
  unfold JSON_stringify. simpl. rewrite app_nil_r. reflexivity.
Qed.

End SessionReload.

Section LoginFlags.

Variable JSON_parse : jsstring -> option JValue.

Lemma elem_of_delete_or {A} (l : list A) (i : nat) (x : A) :
  x ∈ l -> l !! i = Some x \/ x ∈ delete i l.
Proof.
  revert i. induction l as [|a l IH]; intros i Hin; [by apply elem_of_nil in Hin|].
  destruct i as [|i]; simpl.
  - apply elem_of_cons in Hin as [->|Hin]; [by left | by right].
  - apply elem_of_cons in Hin as [->|Hin]; [right; by left|].
    destruct (IH i Hin) as [H|H]; [by left | right; by right].
Qed.

(** Every branch of the two continuations ends with
    [setIsLoggingIn(false)]. *)
Lemma settled_resets_isLoggingIn (k : Continuation) (o : AxiosOutcome) (w : World) :
  isLoggingIn (login match k with
                     | AfterGoogleSuccess credential => handleGoogleSuccess_settled credential o w
                     | AfterRegisterSubmit => handleRegisterSubmit_settled o w
                     end) = false.
Proof.
  destruct k as [c|]; unfold handleGoogleSuccess_settled, handleRegisterSubmit_settled,
    handleGoogleSuccess_catch, handleRegisterSubmit_catch.
  - destruct o as [st data|[st|]]; simpl.
    + destruct (_ && _); [done|]. destruct (_ && _); [|done].
      destruct (handleLoginSuccess data w) as [w'|] eqn:E; [|done].
      apply handleLoginSuccess_done in E as (? & ? & _ & _ & ->). done.
    + destruct (st =? 202)%Z; done.
    + done.
  - destruct o as [st data|rs]; simpl; [|done].
    destruct (_ && _); [|done].
    destruct (handleLoginSuccess data w) as [w'|] eqn:E; [|done].
    apply handleLoginSuccess_done in E as (? & ? & _ & _ & ->). done.
Qed.

Lemma settle_frame (r : Request) (o : AxiosOutcome) (w : World) :
  mount (settle r o w) = mount w /\ pending (settle r o w) = pending w.
Proof.
  assert (Hm : forall k, mount match k with
                     | AfterGoogleSuccess credential => handleGoogleSuccess_settled credential o w
                     | AfterRegisterSubmit => handleRegisterSubmit_settled o w
                     end = mount w).
  { intros [c|]; unfold handleGoogleSuccess_settled, handleRegisterSubmit_settled,
      handleGoogleSuccess_catch, handleRegisterSubmit_catch.
    - destruct o as [st data|[st|]]; simpl.
      + destruct (_ && _); [done|]. destruct (_ && _); [|done].
        destruct (handleLoginSuccess data w) as [w'|] eqn:E; [|done].
        apply handleLoginSuccess_done in E as (? & ? & _ & _ & ->). done.
      + destruct (st =? 202)%Z; done.
      + done.
    - destruct o as [st data|rs]; simpl; [|done].
      destruct (_ && _); [|done].
      destruct (handleLoginSuccess data w) as [w'|] eqn:E; [|done].
      apply handleLoginSuccess_done in E as (? & ? & _ & _ & ->). done. }
  pose proof (handleGoogleSuccess_settled_pending) as Hg.
  pose proof (handleRegisterSubmit_settled_pending o w) as Hs.
  unfold settle. specialize (Hm (continuation r)).
  destruct (continuation r); destruct (_ && _); simpl; auto.
Qed.

(** X6.  The "logging in" flag never outlives the requests: in every
    reachable state where [Login] is on screen and none of its requests
    is in flight any more, [isLoggingIn] is false, so the registration
    button is not left disabled. *)
Theorem isLoggingIn_needs_a_request_in_flight (w : World) :
  reachable JSON_parse w ->
  Login_mounted w = true ->
  (forall r, r ∈ pending w -> owner r <> mount w) ->
  isLoggingIn (login w) = false /\ submit_button_disabled (login w) = false.
Proof.
  intros Hreach Hm Hp. cut (isLoggingIn (login w) = false); [done|].
  revert Hm Hp.
  induction Hreach as [st|w e w' Hreach IH Hstep].
  { intros _ _. unfold boot. destruct (App_init _ _). done. }
  intros Hm Hp. destruct e; simpl in Hstep.
  - destruct (_ && _); [|done]. inversion Hstep; subst. exfalso.
    apply (Hp (mkRequest (JObj [(js "token", credential)])
                         (AfterGoogleSuccess credential) (mount w))); [|done].
    simpl. apply elem_of_app. right. by left.
  - destruct (_ && _); [|done]. inversion Hstep; subst. by apply IH.
  - destruct (_ && _); [|done]. inversion Hstep; subst.
    destruct (onChange_frame value w) as (_ & Hu & Hpe & Hmo & _ & _ & Hl & _).
    rewrite Hl. apply IH.
    + unfold Login_mounted in *. by rewrite <- Hu.
    + intros r Hr. rewrite <- Hmo. apply Hp. by rewrite Hpe.
  - destruct (_ && _); [|done]. inversion Hstep; subst.
    destruct (handleRegisterSubmit_cases w) as [[_ Heq]|[_ Heq]]; rewrite Heq in *.
    + by apply IH.
    + exfalso.
      apply (Hp (mkRequest (JObj [(js "token", googleToken (login w));
                                  (js "name", JStr (displayName (login w)))])
                           AfterRegisterSubmit (mount w))); [|done].
      simpl. apply elem_of_app. right. by left.
  - destruct (pending w !! i) as [r|] eqn:Hr; [|done]. inversion Hstep; subst.
    destruct (settle_frame r o (drop_pending i w)) as [Hmo Hpe].
    simpl in Hmo, Hpe. rewrite Hmo, Hpe in Hp.
    pose proof (settled_resets_isLoggingIn (continuation r) o (drop_pending i w)) as Hreset.
    destruct (settle_session r o (drop_pending i w)) as [[Hs Hu]|(data & w1 & H1 & Hs & Hu)].
    + unfold settle in *.
      destruct (Login_mounted (drop_pending i w) && (owner r =? mount (drop_pending i w))%nat)
        eqn:Hlive; [exact Hreset|].
      simpl. simpl in Hu.
      assert (Hmw : Login_mounted w = true).
      { unfold Login_mounted in *. by rewrite <- Hu. }
      apply IH; [exact Hmw|].
      intros r' Hin. destruct (elem_of_delete_or _ i _ Hin) as [Hi|Hd]; [|by apply Hp].
      rewrite Hr in Hi. injection Hi as <-.
      change (Login_mounted (drop_pending i w)) with (Login_mounted w) in Hlive.
      rewrite Hmw in Hlive. simpl in Hlive. by apply Nat.eqb_neq in Hlive.
    + exfalso. apply handleLoginSuccess_session in H1 as [_ H1].
      unfold Login_mounted, Dashboard_mounted in *. rewrite Hu, H1 in Hm. done.
  - inversion Hstep; subst. destruct (Dashboard_mounted w) eqn:Hd; [done|].
    simpl. apply IH; [unfold Login_mounted, Dashboard_mounted in *; by rewrite Hd|exact Hp].
  - inversion Hstep; subst. unfold boot. destruct (App_init _ _). done.
Qed.

(** The registration form, once shown, stays: no event but a reload
    takes a mounted [Login] back from the form to the widget; the form
    is only left by an authentication. *)
Lemma registering_is_kept (w w' : World) (e : Event) :
  step JSON_parse w e = Some w' ->
  e <> Reload ->
  Login_mounted w = true ->
  isRegistering (login w) = true ->
  (Login_mounted w' = true /\ isRegistering (login w') = true) \/
  Dashboard_mounted w' = true.
Proof.
  intros Hstep Hne Hm Hr.
  assert (Hu : truthy (user w) = false) by (unfold Login_mounted in Hm; by apply negb_true_iff).
  destruct e; simpl in Hstep; try done.
  - unfold google_widget_rendered in Hstep. rewrite Hr, andb_false_r in Hstep. done.
  - unfold google_widget_rendered in Hstep. rewrite Hr, andb_false_r in Hstep. done.
  - rewrite Hm, Hr in Hstep. inversion Hstep; subst. left.
    destruct (onChange_frame value w) as (_ & Hu' & _ & _ & _ & Hr' & _).
    unfold Login_mounted. rewrite Hu', Hu, Hr', Hr. done.
  - destruct (_ && _); [|done]. inversion Hstep; subst. left.
    destruct (handleRegisterSubmit_cases w) as [[_ Heq]|[_ Heq]]; rewrite Heq; simpl;
      unfold Login_mounted; simpl; rewrite Hu; done.
  - destruct (pending w !! i) as [r|] eqn:Hp; [|done]. inversion Hstep; subst.
    destruct (truthy (user (settle r o (drop_pending i w)))) eqn:Hu'; [by right|left].
    split; [unfold Login_mounted; by rewrite Hu'|].
    assert (Hk : forall k, let w1 := match k with
                     | AfterGoogleSuccess credential =>
                         handleGoogleSuccess_settled credential o (drop_pending i w)
                     | AfterRegisterSubmit => handleRegisterSubmit_settled o (drop_pending i w)
                     end in
                   truthy (user w1) = false -> isRegistering (login w1) = true).
    { intros [c|]; unfold handleGoogleSuccess_settled, handleRegisterSubmit_settled,
        handleGoogleSuccess_catch, handleRegisterSubmit_catch.
      - destruct o as [st data|[st|]]; simpl.
        + destruct (_ && _); [done|]. destruct (_ && _); [|done].
          destruct (handleLoginSuccess data _) as [w1|] eqn:E; [|done].
          apply handleLoginSuccess_done in E as (? & ? & _ & _ & ->). done.
        + destruct (st =? 202)%Z; done.
        + done.
      - destruct o as [st data|rs]; simpl; [|done].
        destruct (_ && _); [|done].
        destruct (handleLoginSuccess data _) as [w1|] eqn:E; [|done].
        apply handleLoginSuccess_done in E as (? & ? & _ & _ & ->). done. }
    specialize (Hk (continuation r)). unfold settle in *.
    destruct (_ && _); simpl in *; [by apply Hk | done].
  - inversion Hstep; subst. left. unfold Dashboard_mounted. rewrite Hu. simpl.
    unfold Login_mounted. simpl. done.
Qed.

(** X7.  Once the registration form is shown there is no way back to the
    provider widget short of loading the page again: after any events
    without a reload, either [Login] still shows the form (and a widget
    success cannot be raised), or an authentication has happened on the
    way. *)
Theorem registration_form_is_not_left (es : list Event) (w w' : World) :
  Login_mounted w = true ->
  isRegistering (login w) = true ->
  Forall (fun e => e <> Reload) es ->
  run JSON_parse w es = Some w' ->
  (Login_mounted w' = true /\ isRegistering (login w') = true /\
   forall credential, step JSON_parse w' (GoogleSuccess credential) = None)
  \/
  (exists es1 es2 wa,
      es = es1 ++ es2 /\ run JSON_parse w es1 = Some wa /\ Dashboard_mounted wa = true).
Proof.
  revert w. induction es as [|e es IH]; intros w Hm Hr Hes Hrun; simpl in Hrun.
  - inversion Hrun; subst. left. repeat split; try done.
    intros c. simpl. unfold google_widget_rendered. by rewrite Hr, andb_false_r.
  - inversion Hes as [|? ? He Hes']; subst.
    destruct (step JSON_parse w e) as [w1|] eqn:Hstep; [|done].
    destruct (registering_is_kept w w1 e Hstep He Hm Hr) as [[Hm1 Hr1]|Hd].
    + destruct (IH w1 Hm1 Hr1 Hes' Hrun) as [H|(es1 & es2 & wa & -> & Hr1' & Hd)]; [by left|].
      right. exists (e :: es1), es2, wa. repeat split; try done.
      simpl. by rewrite Hstep.
    + right. exists [e], es, w1. repeat split; try done. simpl. by rewrite Hstep.
Qed.

End LoginFlags.

(** * Properties of [Dashboard] *)

(** ** What the handlers leave alone *)

Lemma with_dashboard_frame (o : nat) (f : DashboardState -> DashboardState) (p : Page) :
  host (with_dashboard o f p) = host p /\
  crashed (with_dashboard o f p) = crashed p /\
  instance (with_dashboard o f p) = instance p /\
  requests (with_dashboard o f p) = requests p /\
  alerts (with_dashboard o f p) = alerts p /\
  timers (with_dashboard o f p) = timers p.
Proof. unfold with_dashboard. destruct (_ && _); done. Qed.

Lemma alive_with_dashboard (o : nat) (f : DashboardState -> DashboardState) (p : Page) :
  alive (with_dashboard o f p) = alive p.
Proof. unfold with_dashboard. destruct (_ && _); done. Qed.

(** A setter called by the mount on screen. *)
Lemma with_dashboard_current (f : DashboardState -> DashboardState) (p : Page) :
  alive p = true ->
  with_dashboard (instance p) f p =
    mkPage (host p) (crashed p) (instance p) (f (dashboard p))
           (requests p) (alerts p) (timers p).
Proof. intros H. unfold with_dashboard. by rewrite H, Nat.eqb_refl. Qed.

(** A setter called by an earlier mount, or on a page without
    [Dashboard]. *)
Lemma with_dashboard_stale (o : nat) (f : DashboardState -> DashboardState) (p : Page) :
  alive p = false \/ o <> instance p ->
  with_dashboard o f p = p.
Proof.
  intros H. unfold with_dashboard.
  destruct H as [->|H]; [done|].
  apply Nat.eqb_neq in H. rewrite H. by rewrite andb_false_r.
Qed.

Lemma with_dashboard_mk (f : DashboardState -> DashboardState)
  (a : World) (o : nat) (d : DashboardState) (rs : list DRequest)
  (al : list jsstring) (tm : list nat) :
  Dashboard_mounted a = true ->
  with_dashboard o f (mkPage a false o d rs al tm) = mkPage a false o (f d) rs al tm.
Proof.
  intros H. unfold with_dashboard, alive. cbn [host crashed instance negb andb].
  by rewrite H, Nat.eqb_refl.
Qed.

Lemma rendered_frame (p : Page) :
  host (rendered p) = host p /\ instance (rendered p) = instance p /\
  dashboard (rendered p) = dashboard p /\ requests (rendered p) = requests p /\
  alerts (rendered p) = alerts p /\ timers (rendered p) = timers p.
Proof. unfold rendered. destruct (_ && _); done. Qed.

(** A page that renders stays as it is. *)
Lemma rendered_ok (p : Page) :
  Dashboard_renders (dashboard p) = true -> rendered p = p.
Proof. intros H. unfold rendered. by rewrite H, andb_false_r. Qed.

Lemma rendered_off (p : Page) : alive p = false -> rendered p = p.
Proof. intros H. unfold rendered. by rewrite H. Qed.

Lemma fetchItems_frame (u : JValue) (o offset : nat) (p : Page) :
  host (fetchItems u o offset p) = host p /\
  crashed (fetchItems u o offset p) = crashed p /\
  instance (fetchItems u o offset p) = instance p /\
  alerts (fetchItems u o offset p) = alerts p /\
  timers (fetchItems u o offset p) = timers p.
Proof.
  unfold fetchItems, setLoadingItems, send.
  destruct (bearer u); cbn [host crashed instance alerts timers];
    repeat match goal with
           | |- context [with_dashboard ?o ?f ?q] =>
               destruct (with_dashboard_frame o f q) as (-> & -> & -> & _ & -> & ->)
           end; done.
Qed.

(** [fetchItems] of the mount on screen, with a token that converts:
    the flag is raised and one request is sent. *)
Lemma fetchItems_sends (u : JValue) (offset : nat) (p : Page) (authorization : jsstring) :
  alive p = true ->
  bearer u = Some authorization ->
  fetchItems u (instance p) offset p =
    mkPage (host p) (crashed p) (instance p)
      (mkDashboard (query (dashboard p)) (results (dashboard p)) (loadingSearch (dashboard p))
         (question (dashboard p)) (answer (dashboard p)) (adding (dashboard p))
         (addMessage (dashboard p)) (items (dashboard p)) true (hasMore (dashboard p)))
      (requests p ++ [mkDRequest (GetAll ITEMS_PER_PAGE offset authorization) (instance p) u])
      (alerts p) (timers p).
Proof.
  intros Hm Hb. unfold fetchItems, setLoadingItems.
  rewrite with_dashboard_current by done. rewrite Hb. reflexivity.
Qed.

(** An answer to [fetchItems] of the mount on screen. *)
Lemma fetchItems_settled_page (offset : nat) (status : Z) (data : list JValue) (p : Page) :
  alive p = true ->
  fetchItems_settled (instance p) offset (Resolved status (JArr data)) p =
    mkPage (host p) (crashed p) (instance p)
      (mkDashboard (query (dashboard p)) (results (dashboard p)) (loadingSearch (dashboard p))
         (question (dashboard p)) (answer (dashboard p)) (adding (dashboard p))
         (addMessage (dashboard p))
         (if (offset =? 0)%nat then data else items (dashboard p) ++ data)
         false
         (negb (length data <? ITEMS_PER_PAGE)%nat))
      (requests p) (alerts p) (timers p).
Proof.
  intros Hm. unfold fetchItems_settled, array_or_empty, setItems, setHasMore, setLoadingItems.
  destruct p as [a c o d rs al tm]. unfold alive in Hm. cbn [host crashed] in Hm.
  apply andb_true_iff in Hm as [Hc Hm]. apply negb_true_iff in Hc. subst c.
  cbn [instance].
  destruct (offset =? 0)%nat; destruct (length data <? ITEMS_PER_PAGE)%nat;
    rewrite !with_dashboard_mk by done; reflexivity.
Qed.

Lemma logout_frame (p : Page) :
  crashed (logout p) = crashed p /\ instance (logout p) = instance p /\
  dashboard (logout p) = dashboard p /\ requests (logout p) = requests p /\
  alerts (logout p) = alerts p /\ timers (logout p) = timers p.
Proof. unfold logout. destruct (crashed p) eqn:E; cbn; rewrite ?E; done. Qed.

Lemma App_logout_signed_out (a : World) :
  getItem "access_token" (storage (App_logout a)) = None /\
  getItem "user_data" (storage (App_logout a)) = None /\
  user (App_logout a) = JNull /\ Dashboard_mounted (App_logout a) = false.
Proof.
  unfold App_logout. destruct (handleLogout_session a) as (H1 & H2 & H3).
  destruct (Dashboard_mounted a); cbn; repeat split; try done.
Qed.

(** Whoever calls [logout], both keys are gone afterwards and
    [Dashboard] is not on screen. *)
Lemma logout_signed_out (p : Page) :
  getItem "access_token" (storage (host (logout p))) = None /\
  getItem "user_data" (storage (host (logout p))) = None /\
  alive (logout p) = false /\
  (crashed p = false ->
   host (logout p) = App_logout (host p) /\ user (host (logout p)) = JNull).
Proof.
  unfold logout, alive. destruct (crashed p) eqn:E; cbn [set_host host crashed]; rewrite E.
  - cbn. unfold getItem, removeItem.
    rewrite lookup_delete_ne, !lookup_delete_eq by apply keys_distinct. done.
  - destruct (App_logout_signed_out (host p)) as (H1 & H2 & H3 & H4).
    rewrite H4. done.
Qed.

Ltac frame_host :=
  repeat first
    [ rewrite (proj1 (with_dashboard_frame _ _ _))
    | rewrite (proj1 (fetchItems_frame _ _ _ _))
    | progress cbn [host send alert setTimeout drop_request drop_timer] ].

Lemma settled_host (r : DRequest) (outcome : AxiosOutcome) (p : Page) :
  host (settled r outcome p) =
    match outcome with
    | Rejected response => if is_401 response then host (logout p) else host p
    | Resolved _ _ => host p
    end.
Proof.
  unfold settled, handleSearch_settled, fetchItems_settled, handleAdd_settled,
    setResults, setLoadingSearch, setItems, setHasMore, setLoadingItems,
    setAddMessage, setQuestion, setAnswer, setAdding.
  destruct (call r); destruct outcome as [st data|response];
    repeat match goal with |- context [if ?b then _ else _] => destruct b end;
    frame_host; reflexivity.
Qed.

Lemma handleSearch_host (u : JValue) (o : nat) (key : jsstring) (p : Page) :
  host (handleSearch u o key p) = host p.
Proof.
  unfold handleSearch, setLoadingSearch.
  repeat match goal with
         | |- context [if ?b then _ else _] => destruct b
         | |- context [match ?x with Some _ => _ | None => _ end] => destruct x
         end; frame_host; reflexivity.
Qed.

Lemma handleAdd_host (u : JValue) (o : nat) (p : Page) :
  host (handleAdd u o p) = host p.
Proof.
  unfold handleAdd, setAdding, setAddMessage.
  destruct (bearer u); frame_host; reflexivity.
Qed.

Lemma onIntersect_host (u : JValue) (o : nat) (b : bool) (p : Page) :
  host (onIntersect u o b p) = host p.
Proof. unfold onIntersect. destruct (_ && _); frame_host; reflexivity. Qed.

Section DashboardSession.

Variable JSON_parse : jsstring -> option JValue.

(** X9.  Among the events of [Dashboard], the session is ended by a
    click on Logout and by a request answered 401 (a search, a list or
    an add, of the mount on screen or of an earlier one), and by nothing
    else: these remove both storage keys, and the user too, so that
    [Dashboard] leaves the screen; every other event of [Dashboard], any
    other failure included, leaves storage and the user as they are. *)
Theorem only_logout_ends_the_session (p p' : Page) (e : DEvent) :
  dstep JSON_parse p e = Some p' ->
  (forall h, e <> Host h) ->
  ((e = ClickLogout \/ exists i, e = Answer i (Rejected (Some 401%Z))) ->
   getItem "access_token" (storage (host p')) = None /\
   getItem "user_data" (storage (host p')) = None /\
   alive p' = false /\
   (crashed p = false ->
    host p' = App_logout (host p) /\ user (host p') = JNull)) /\
  (e <> ClickLogout -> (forall i, e <> Answer i (Rejected (Some 401%Z))) ->
   host p' = host p).
Proof.
  intros Hstep Hh. unfold dstep in Hstep.
  destruct (handle JSON_parse p e) as [q|] eqn:Hq; [|done]. injection Hstep as <-.
  assert (Hal : alive q = false -> alive (rendered q) = false).
  { intros H. by rewrite rendered_off. }
  rewrite (proj1 (rendered_frame q)).
  destruct e; cbn [handle] in Hq.
  1-6: split; [intros [[=]|[i [=]]]|intros _ _].
  - destruct (alive p); [|done]. injection Hq as <-. unfold setQuery. frame_host. done.
  - destruct (alive p); [|done]. injection Hq as <-. apply handleSearch_host.
  - destruct (alive p); [|done]. injection Hq as <-. unfold setQuestion. frame_host. done.
  - destruct (alive p); [|done]. injection Hq as <-. unfold setAnswer. frame_host. done.
  - destruct (_ && _); [|done]. injection Hq as <-. apply handleAdd_host.
  - destruct (_ && _); [|done]. injection Hq as <-. apply onIntersect_host.
  - destruct (alive p); [|done]. injection Hq as <-.
    split; [intros _|intros H; done].
    destruct (logout_signed_out p) as (H1 & H2 & H3 & H4).
    split; [done|]. split; [done|]. split; [by apply Hal|done].
  - destruct (requests p !! i) as [r|]; [|done]. injection Hq as <-.
    split.
    + intros [[=]|[j [= <- ->]]].
      assert (Hs : settled r (Rejected (Some 401%Z)) (drop_request i p)
                   = let q := logout (drop_request i p) in
                     match call r with
                     | GetSearch _ _ => setLoadingSearch (sender r) false q
                     | GetAll _ _ _ => setLoadingItems (sender r) false q
                     | PostAdd _ _ _ =>
                         setAdding (sender r) false
                           (setAddMessage (sender r) "Failed to add item." q)
                     end).
      { unfold settled, handleSearch_settled, fetchItems_settled, handleAdd_settled.
        destruct (call r); reflexivity. }
      rewrite Hs. cbv zeta.
      destruct (logout_signed_out (drop_request i p)) as (H1 & H2 & H3 & H4).
      assert (Hx : host (match call r with
                         | GetSearch _ _ => setLoadingSearch (sender r) false (logout (drop_request i p))
                         | GetAll _ _ _ => setLoadingItems (sender r) false (logout (drop_request i p))
                         | PostAdd _ _ _ =>
                             setAdding (sender r) false
                               (setAddMessage (sender r) "Failed to add item."
                                  (logout (drop_request i p)))
                         end) = host (logout (drop_request i p))).
      { unfold setLoadingSearch, setLoadingItems, setAdding, setAddMessage.
        destruct (call r); frame_host; reflexivity. }
      rewrite Hx. split; [done|]. split; [done|]. split; [|exact H4].
      apply Hal. rewrite Hs. cbv zeta.
      unfold setLoadingSearch, setLoadingItems, setAdding, setAddMessage.
      destruct (call r); rewrite !alive_with_dashboard; done.
    + intros _ Hn. rewrite settled_host.
      destruct o as [st data|[st|]]; cbn [is_401]; try done.
      destruct (Z.eqb_spec st 401) as [->|]; [|done].
      exfalso. by apply (Hn i).
  - destruct (timers p !! i) as [t|]; [|done]. injection Hq as <-.
    split; [intros [[=]|[j [=]]]|intros _ _].
    unfold setAddMessage. frame_host. done.
  - exfalso. by apply (Hh e).
Qed.

End DashboardSession.

(** ** What a search sends *)

Lemma upper_hex_digit_safe (n : N) : n < 16 -> url_safe (upper_hex_digit n) = true.
Proof.
  intros H. destruct n as [|p]; [reflexivity|].
  do 4 (destruct p as [p|p|]; try reflexivity); exfalso; lia.
Qed.

Lemma percent_octet_safe (b : N) :
  b < 256 -> Forall (fun c => url_safe c = true) (percent_octet b).
Proof.
  intros H. unfold percent_octet. repeat constructor.
  - apply upper_hex_digit_safe. apply N.Div0.div_lt_upper_bound. lia.
  - apply upper_hex_digit_safe. apply N.mod_lt. lia.
Qed.

Lemma percent_encode_safe (cp : N) :
  cp < 1114112 -> Forall (fun c => url_safe c = true) (percent_encode cp).
Proof.
  intros H. unfold percent_encode, utf8_octets.
  assert (Hm : forall x, x mod 64 < 64) by (intros; apply N.mod_lt; lia).
  destruct (N.ltb_spec cp 128); [|destruct (N.ltb_spec cp 2048); [|destruct (N.ltb_spec cp 65536)]];
    cbn [map concat]; rewrite ?app_nil_r; repeat apply Forall_app_2;
    apply percent_octet_safe.
  - lia.
  - assert (cp / 64 < 32) by (apply N.Div0.div_lt_upper_bound; lia). lia.
  - specialize (Hm cp). lia.
  - assert (cp / 4096 < 16) by (apply N.Div0.div_lt_upper_bound; lia). lia.
  - specialize (Hm (cp / 64)). lia.
  - specialize (Hm cp). lia.
  - assert (cp / 262144 < 5) by (apply N.Div0.div_lt_upper_bound; lia). lia.
  - specialize (Hm (cp / 4096)). lia.
  - specialize (Hm (cp / 64)). lia.
  - specialize (Hm cp). lia.
Qed.

(** The text [encodeURIComponent] returns is made of unreserved
    characters and percent escapes only. *)
Lemma encodeURIComponent_safe (s q : jsstring) :
  Forall (fun c => c < 65536) s ->
  encodeURIComponent s = Some q ->
  Forall (fun c => url_safe c = true) q.
Proof.
  remember (length s) as n eqn:Hn. revert s q Hn.
  induction n as [n IH] using lt_wf_ind. intros s q Hn Hs He.
  destruct s as [|c rest]; [by injection He as <-|].
  inversion Hs as [|? ? Hc Hrest]; subst. cbn [encodeURIComponent] in He.
  destruct (uri_unreserved c) eqn:Hu.
  { destruct (encodeURIComponent rest) as [t|] eqn:Et; [|done]. injection He as <-.
    constructor; [unfold url_safe; by rewrite Hu|].
    apply (IH (length rest)) with (s := rest); simpl; (lia || done). }
  destruct (is_trailing_surrogate c) eqn:Ht; [done|].
  destruct (is_leading_surrogate c) eqn:Hl.
  - destruct rest as [|d rest']; [done|].
    destruct (is_trailing_surrogate d) eqn:Htd; [|done].
    destruct (encodeURIComponent rest') as [t|] eqn:Et; [|done]. injection He as <-.
    inversion Hrest; subst.
    apply Forall_app_2.
    + apply percent_encode_safe.
      unfold is_leading_surrogate, is_trailing_surrogate in *.
      apply andb_true_iff in Hl as [Hl1 Hl2]. apply andb_true_iff in Htd as [Hd1 Hd2].
      apply N.leb_le in Hl1, Hl2, Hd1, Hd2. lia.
    + apply (IH (length rest')) with (s := rest'); simpl; (lia || done).
  - destruct (encodeURIComponent rest) as [t|] eqn:Et; [|done]. injection He as <-.
    apply Forall_app_2; [apply percent_encode_safe; lia|].
    apply (IH (length rest)) with (s := rest); simpl; (lia || done).
Qed.

Lemma renders_same (d d' : DashboardState) :
  query d' = query d -> results d' = results d -> items d' = items d ->
  Dashboard_renders d' = Dashboard_renders d.
Proof. unfold Dashboard_renders. by intros -> -> ->. Qed.

(** A page with [Dashboard] on screen, taken apart. *)
Lemma alive_inv (p : Page) :
  alive p = true -> crashed p = false /\ Dashboard_mounted (host p) = true.
Proof.
  unfold alive. intros H. apply andb_true_iff in H as [Hc Hm].
  by apply negb_true_iff in Hc.
Qed.

Section DashboardSearch.

Variable JSON_parse : jsstring -> option JValue.

(** X11.  With [Dashboard] on screen, a key pressed in the search input
    does nothing unless it is Enter and the query is not blank.  Then,
    when the query and the token convert, exactly one request goes out,
    whose [q] is the percent-encoded query (unreserved characters and
    escapes only) with the bearer header, and [loadingSearch] is up;
    when one of the two conversions throws, nothing is sent,
    "Search failed" is shown and [loadingSearch] is down again. *)
Theorem search_is_sent_encoded (p : Page) (key : jsstring) :
  alive p = true ->
  Dashboard_renders (dashboard p) = true ->
  Forall (fun c => c < 65536) (query (dashboard p)) ->
  exists p',
    dstep JSON_parse p (KeyDown key) = Some p' /\
    (key <> js "Enter" \/ blank (query (dashboard p)) = true -> p' = p) /\
    (key = js "Enter" -> blank (query (dashboard p)) = false ->
     (forall q authorization,
         encodeURIComponent (query (dashboard p)) = Some q ->
         bearer (user (host p)) = Some authorization ->
         requests p' = requests p ++
           [mkDRequest (GetSearch q authorization) (instance p) (user (host p))] /\
         loadingSearch (dashboard p') = true /\
         alerts p' = alerts p /\
         Forall (fun c => url_safe c = true) q) /\
     (encodeURIComponent (query (dashboard p)) = None \/ bearer (user (host p)) = None ->
      requests p' = requests p /\
      loadingSearch (dashboard p') = false /\
      alerts p' = alerts p ++ [js "Search failed"])).
Proof.
  intros Hal Hren Hq.
  destruct (alive_inv p Hal) as [Hc Hm].
  destruct p as [a c o d rs al tm]. cbn [host crashed instance dashboard requests alerts] in *.
  subst c.
  unfold dstep. cbn [handle host instance]. rewrite Hal. cbn [option_map].
  eexists. split; [reflexivity|].
  unfold handleSearch. cbn [dashboard].
  destruct (bool_decide (key = js "Enter")) eqn:Hk.
  2:{ apply bool_decide_eq_false in Hk. rewrite rendered_ok by done.
      split; [done|]. split; [done|]. done. }
  apply bool_decide_eq_true in Hk.
  destruct (str_truthy (trim (query d))) eqn:Hb; cbn [negb].
  2:{ apply trim_blank in Hb. rewrite rendered_ok by done.
      split; [done|]. intros _ Hnb. congruence. }
  apply trim_not_blank in Hb.
  unfold setLoadingSearch. rewrite with_dashboard_mk by done.
  split; [intros [H|H]; congruence|].
  intros _ _.
  destruct (encodeURIComponent (query d)) as [q|] eqn:Eq;
    [destruct (bearer (user a)) as [au|] eqn:Eb|].
  - rewrite rendered_ok by (cbn [send dashboard]; by rewrite <- Hren).
    split; [|intros [H|H]; done].
    intros q' au' [= <-] [= <-]. cbn [send requests dashboard loadingSearch alerts].
    repeat split. by apply (encodeURIComponent_safe (query d)).
  - unfold alert. cbn [host crashed instance dashboard requests alerts timers].
    rewrite with_dashboard_mk by done.
    rewrite rendered_ok by (cbn [dashboard]; by rewrite <- Hren).
    split; [intros q' au' _ [=]|]. intros _. done.
  - unfold alert. cbn [host crashed instance dashboard requests alerts timers].
    rewrite with_dashboard_mk by done.
    rewrite rendered_ok by (cbn [dashboard]; by rewrite <- Hren).
    split; [intros q' au' [=]|]. intros _. done.
Qed.

End DashboardSearch.

(** ** Infinite scroll *)

Lemma page_arith (all : list JValue) (m : nat) :
  (length (firstn ITEMS_PER_PAGE (skipn m all)) <? ITEMS_PER_PAGE)%nat
  = negb (m + ITEMS_PER_PAGE <=? length all)%nat.
Proof.
  rewrite length_firstn, length_skipn. unfold ITEMS_PER_PAGE.
  destruct (Nat.ltb_spec (Init.Nat.min 10 (length all - m)) 10);
    destruct (Nat.leb_spec (m + 10) (length all)); simpl; try done; lia.
Qed.

Lemma forallb_firstn {A} (f : A -> bool) (k : nat) (l : list A) :
  forallb f l = true -> forallb f (firstn k l) = true.
Proof.
  revert k. induction l as [|x l IH]; intros [|k]; simpl; try done.
  intros H. apply andb_true_iff in H as [-> H]. simpl. by apply IH.
Qed.

Lemma firstn_next_page {A} (m k : nat) (l : list A) :
  firstn m l ++ firstn k (skipn m l) = firstn (m + k) l.
Proof.
  revert l. induction m as [|m IH]; intros [|x l]; simpl; try done.
  - by rewrite firstn_nil.
  - by rewrite IH.
Qed.

Lemma str_truthy_nil : str_truthy [] = false.
Proof. reflexivity. Qed.

Section DashboardScroll.

Variable JSON_parse : jsstring -> option JValue.

(** The backend answers the request [fetchItems] has just sent from a
    page with [Dashboard] on screen, and every item of the answer can be
    rendered. *)
Lemma fetched_page (all : list JValue) (u : JValue) (authorization : jsstring)
  (offset : nat) (p : Page) :
  alive p = true ->
  bearer u = Some authorization ->
  (if str_truthy (query (dashboard p)) then forallb item_renders (results (dashboard p))
   else forallb item_renders
          (if (offset =? 0)%nat then firstn ITEMS_PER_PAGE (skipn offset all)
           else items (dashboard p) ++ firstn ITEMS_PER_PAGE (skipn offset all))) = true ->
  backend_answers JSON_parse all (fetchItems u (instance p) offset p) =
    Some (mkPage (host p) (crashed p) (instance p)
            (mkDashboard (query (dashboard p)) (results (dashboard p))
               (loadingSearch (dashboard p)) (question (dashboard p))
               (answer (dashboard p)) (adding (dashboard p)) (addMessage (dashboard p))
               (if (offset =? 0)%nat then firstn ITEMS_PER_PAGE (skipn offset all)
                else items (dashboard p) ++ firstn ITEMS_PER_PAGE (skipn offset all))
               false
               (offset + ITEMS_PER_PAGE <=? length all)%nat)
            (requests p) (alerts p) (timers p)).
Proof.
  intros Hal Hb Hren.
  rewrite (fetchItems_sends u offset p authorization Hal Hb).
  destruct (alive_inv p Hal) as [Hc Hm].
  destruct p as [a c o d rs al tm].
  cbn [host crashed instance dashboard requests alerts timers] in *. subst c.
  unfold backend_answers. cbn [requests]. rewrite last_snoc.
  rewrite length_app. cbn [length]. replace (length rs + 1 - 1)%nat with (length rs) by lia.
  unfold dstep. cbn [handle requests]. rewrite list_lookup_middle by done.
  cbn [option_map serve_all call settled sender].
  assert (Hd : drop_request (length rs)
                 (mkPage a false o
                    (mkDashboard (query d) (results d) (loadingSearch d) (question d)
                       (answer d) (adding d) (addMessage d) (items d) true (hasMore d))
                    (rs ++ [mkDRequest (GetAll ITEMS_PER_PAGE offset authorization) o u])
                    al tm)
               = mkPage a false o
                   (mkDashboard (query d) (results d) (loadingSearch d) (question d)
                      (answer d) (adding d) (addMessage d) (items d) true (hasMore d))
                   rs al tm).
  { unfold drop_request. cbn [host crashed instance dashboard requests alerts timers].
    f_equal. rewrite delete_middle. by rewrite app_nil_r. }
  rewrite Hd.
  rewrite (fetchItems_settled_page offset 200 _
             (mkPage a false o
                (mkDashboard (query d) (results d) (loadingSearch d) (question d)
                   (answer d) (adding d) (addMessage d) (items d) true (hasMore d))
                rs al tm))
    by (unfold alive; cbn [host crashed]; by rewrite Hm).
  cbn [host crashed instance dashboard requests alerts timers query results loadingSearch
       question answer adding addMessage items loadingItems hasMore].
  rewrite page_arith, negb_involutive.
  rewrite rendered_ok; [reflexivity|].
  exact Hren.
Qed.

Lemma scrolled_alive (all : list JValue) (p0 : Page) (n : nat) (p : Page) :
  Dashboard_mounted (host p0) = true -> scrolled all p0 n p -> alive p = true.
Proof.
  intros Hm (Hh & Hc & _). unfold alive. by rewrite Hc, Hh, Hm.
Qed.

(** One more scroll to the end of the list. *)
Lemma scrolled_next (all : list JValue) (authorization : jsstring) (p0 : Page)
  (n : nat) (p : Page) :
  Dashboard_mounted (host p0) = true ->
  bearer (user (host p0)) = Some authorization ->
  forallb item_renders all = true ->
  (1 <= n)%nat ->
  scrolled all p0 n p ->
  if (ITEMS_PER_PAGE * n <=? length all)%nat
  then exists p', scroll_once JSON_parse all p = Some p' /\ scrolled all p0 (S n) p'
  else scroll_once JSON_parse all p = None.
Proof.
  intros Hm Hb Hall Hn Hs. pose proof (scrolled_alive all p0 n p Hm Hs) as Hal.
  destruct Hs as (Hh & Hc & Hi & Hr & Hal' & Ht & Hq & Hl & Hit & Hmore).
  unfold scroll_once, dstep. cbn [handle]. rewrite Hal.
  unfold sentinel_rendered. rewrite Hq, Hmore, str_truthy_nil. cbn [andb negb].
  destruct (Nat.leb_spec (ITEMS_PER_PAGE * n) (length all)) as [Hle|Hgt];
    cbn [option_map]; [|done].
  unfold onIntersect. rewrite Hmore, Hl.
  replace (ITEMS_PER_PAGE * n <=? length all)%nat with true
    by (symmetry; by apply Nat.leb_le).
  cbn [andb negb].
  assert (Hlen : length (items (dashboard p)) = (ITEMS_PER_PAGE * n)%nat).
  { rewrite Hit, length_firstn. lia. }
  rewrite Hlen.
  assert (Hoff : ((ITEMS_PER_PAGE * n =? 0) = false)%nat).
  { apply Nat.eqb_neq. unfold ITEMS_PER_PAGE. lia. }
  assert (Hnew : items (dashboard p) ++ firstn ITEMS_PER_PAGE (skipn (ITEMS_PER_PAGE * n) all)
                 = firstn (ITEMS_PER_PAGE * S n) all).
  { rewrite Hit, firstn_next_page. f_equal. unfold ITEMS_PER_PAGE. lia. }
  rewrite Hh.
  assert (Hp1 : rendered (fetchItems (user (host p0)) (instance p) (ITEMS_PER_PAGE * n) p)
                = fetchItems (user (host p0)) (instance p) (ITEMS_PER_PAGE * n) p).
  { apply rendered_ok.
    rewrite (fetchItems_sends _ _ p authorization Hal Hb). cbn [dashboard].
    unfold Dashboard_renders. cbn [query items]. rewrite Hq, str_truthy_nil, Hit.
    by apply forallb_firstn. }
  rewrite Hp1.
  rewrite (fetched_page all _ authorization _ p Hal Hb)
    by (rewrite Hq, str_truthy_nil, Hoff, Hnew; by apply forallb_firstn).
  eexists. split; [reflexivity|].
  rewrite Hoff, Hnew.
  unfold scrolled.
  cbn [host crashed instance dashboard requests alerts timers query loadingItems items hasMore].
  repeat split; try done.
  f_equal. unfold ITEMS_PER_PAGE. lia.
Qed.

Lemma scroll_S (all : list JValue) (k : nat) (p : Page) :
  scroll JSON_parse all (S k) p =
    match scroll_once JSON_parse all p with
    | Some p' => scroll JSON_parse all k p'
    | None => Some p
    end.
Proof. reflexivity. Qed.

Lemma scrolled_past_the_end (all : list JValue) (p0 : Page) (n m : nat) (p : Page) :
  (length all < ITEMS_PER_PAGE * n)%nat -> (n <= m)%nat ->
  scrolled all p0 n p -> scrolled all p0 m p.
Proof.
  intros Hlt Hnm (Hh & Hc & Hi & Hr & Hal & Ht & Hq & Hl & Hit & Hmore).
  unfold scrolled. repeat split; try done.
  - rewrite Hit. rewrite !firstn_all2; [done | unfold ITEMS_PER_PAGE in *; nia | lia].
  - rewrite Hmore. unfold ITEMS_PER_PAGE in *.
    destruct (Nat.leb_spec (10 * n) (length all)); destruct (Nat.leb_spec (10 * m) (length all));
      try done; nia.
Qed.

Lemma scrolled_scroll (all : list JValue) (authorization : jsstring) (p0 : Page)
  (k n : nat) (p : Page) :
  Dashboard_mounted (host p0) = true ->
  bearer (user (host p0)) = Some authorization ->
  forallb item_renders all = true ->
  (1 <= n)%nat ->
  scrolled all p0 n p ->
  exists pk, scroll JSON_parse all k p = Some pk /\ scrolled all p0 (n + k) pk.
Proof.
  intros Hm Hb Hall. revert n p. induction k as [|k IH]; intros n p Hn Hs.
  - exists p. split; [done|]. by replace (n + 0)%nat with n by lia.
  - rewrite scroll_S.
    pose proof (scrolled_next all authorization p0 n p Hm Hb Hall Hn Hs) as Hnext.
    destruct (Nat.leb_spec (ITEMS_PER_PAGE * n) (length all)) as [Hle|Hgt].
    + destruct Hnext as (p' & -> & Hs').
      destruct (IH (S n) p') as (pk & Hk & Hsk); [lia|done|].
      exists pk. split; [done|]. by replace (n + S k)%nat with (S n + k)%nat by lia.
    + rewrite Hnext. exists p. split; [done|].
      apply (scrolled_past_the_end all p0 n); [done|lia|done].
Qed.

(** The first page, right after the mount. *)
Lemma first_page (all : list JValue) (authorization : jsstring) (p0 : Page) :
  crashed p0 = false ->
  Dashboard_mounted (host p0) = true ->
  bearer (user (host p0)) = Some authorization ->
  forallb item_renders all = true ->
  exists p1,
    backend_answers JSON_parse all (Dashboard_mount p0) = Some p1 /\
    scrolled all p0 1 p1.
Proof.
  intros Hc Hm Hb Hall. unfold Dashboard_mount.
  set (q := mkPage (host p0) (crashed p0) (S (instance p0)) Dashboard_initial
                   (requests p0) (alerts p0) (timers p0)).
  assert (Hal : alive q = true) by (unfold alive, q; cbn [host crashed]; by rewrite Hc, Hm).
  change (S (instance p0)) with (instance q).
  rewrite (fetched_page all _ authorization 0 q Hal Hb)
    by (unfold q; cbn [dashboard query Dashboard_initial Nat.eqb skipn];
        rewrite str_truthy_nil; by apply forallb_firstn).
  eexists. split; [reflexivity|].
  unfold scrolled, q.
  cbn [host crashed instance dashboard requests alerts timers query loadingItems items hasMore
       Nat.eqb skipn Dashboard_initial].
  rewrite Hc. repeat split; done.
Qed.

(** X8.  Infinite scroll shows the backend's list in order, page by
    page.  Take a backend that answers [/all] with the slice it is asked
    for, out of a list whose items can all be rendered, a user whose
    token converts, and a [Dashboard] just mounted, whatever requests of
    earlier mounts are still in flight.  After the first load and [k]
    scrolls to the end the items on screen are the first [10 * (k + 1)]
    of the list (all of it once that exceeds its length), the page has
    not crashed, nothing more is in flight than before the mount, and
    once the list is exhausted the sentinel is gone and no scroll asks
    for more. *)
Theorem infinite_scroll_pages
  (all : list JValue) (p0 : Page) (authorization : jsstring) (k : nat) :
  crashed p0 = false ->
  Dashboard_mounted (host p0) = true ->
  bearer (user (host p0)) = Some authorization ->
  forallb item_renders all = true ->
  exists p1 pk,
    backend_answers JSON_parse all (Dashboard_mount p0) = Some p1 /\
    scroll JSON_parse all k p1 = Some pk /\
    items (dashboard pk) = firstn (ITEMS_PER_PAGE * (k + 1)) all /\
    crashed pk = false /\
    requests pk = requests p0 /\
    loadingItems (dashboard pk) = false /\
    hasMore (dashboard pk) = (ITEMS_PER_PAGE * (k + 1) <=? length all)%nat /\
    ((length all < ITEMS_PER_PAGE * (k + 1))%nat ->
     items (dashboard pk) = all /\
     forall isIntersecting, dstep JSON_parse pk (Intersect isIntersecting) = None).
Proof.
  intros Hc Hm Hb Hall.
  destruct (first_page all authorization p0 Hc Hm Hb Hall) as (p1 & H1 & Hp1).
  destruct (scrolled_scroll all authorization p0 k 1 p1 Hm Hb Hall (le_n 1) Hp1)
    as (pk & Hk & Hpk).
  replace (1 + k)%nat with (k + 1)%nat in Hpk by lia.
  destruct Hpk as (Hh & Hck & Hi & Hr & Hal & Ht & Hq & Hl & Hit & Hmore).
  exists p1, pk. repeat split; try done.
  - rewrite Hit. apply firstn_all2. lia.
  - intros b. unfold dstep. cbn [handle]. unfold sentinel_rendered. rewrite Hmore.
    replace (ITEMS_PER_PAGE * (k + 1) <=? length all)%nat with false
      by (symmetry; apply Nat.leb_gt; lia).
    by rewrite !andb_false_r.
Qed.

End DashboardScroll.

(** ** What a settled contribution does *)

Lemma fetchItems_mk (u : JValue) (authorization : jsstring) (offset : nat)
  (a : World) (o : nat) (d : DashboardState) (rs : list DRequest)
  (al : list jsstring) (tm : list nat) :
  Dashboard_mounted a = true ->
  bearer u = Some authorization ->
  fetchItems u o offset (mkPage a false o d rs al tm) =
    mkPage a false o
      (mkDashboard (query d) (results d) (loadingSearch d) (question d) (answer d)
         (adding d) (addMessage d) (items d) true (hasMore d))
      (rs ++ [mkDRequest (GetAll ITEMS_PER_PAGE offset authorization) o u]) al tm.
Proof.
  intros Hm Hb.
  apply (fetchItems_sends u offset (mkPage a false o d rs al tm) authorization); [|done].
  unfold alive. cbn [host crashed]. by rewrite Hm.
Qed.

Section DashboardContribution.

Variable JSON_parse : jsstring -> option JValue.

(** X12.  A contribution of the mount on screen is answered.  When it
    was accepted the form is emptied, the message says so, a timer is
    set and one request for the first page goes out with the token the
    contribution was sent with; once the backend has answered it with
    items that can be rendered, the items are the first page of the
    backend's list, whatever was shown before, the page has not crashed,
    and when the timer fires the message is gone.  A contribution that
    fails for any reason but a 401 keeps what was typed and says
    "Failed to add item.". *)
Theorem contribution_outcomes
  (all : list JValue) (p : Page) (i : nat) (q a authorization : jsstring) (u : JValue) :
  alive p = true ->
  Dashboard_renders (dashboard p) = true ->
  requests p !! i = Some (mkDRequest (PostAdd q a authorization) (instance p) u) ->
  bearer u = Some authorization ->
  (forall status data,
      exists p1,
        dstep JSON_parse p (Answer i (Resolved status data)) = Some p1 /\
        requests p1 = delete i (requests p) ++
          [mkDRequest (GetAll ITEMS_PER_PAGE 0 authorization) (instance p) u] /\
        timers p1 = timers p ++ [instance p] /\
        question (dashboard p1) = [] /\ answer (dashboard p1) = [] /\
        addMessage (dashboard p1) = js "Item added successfully!" /\
        adding (dashboard p1) = false /\
        items (dashboard p1) = items (dashboard p) /\
        (forallb item_renders (firstn ITEMS_PER_PAGE all) = true ->
         exists p2 p3,
           backend_answers JSON_parse all p1 = Some p2 /\
           items (dashboard p2) = firstn ITEMS_PER_PAGE all /\
           hasMore (dashboard p2) = (ITEMS_PER_PAGE <=? length all)%nat /\
           loadingItems (dashboard p2) = false /\
           requests p2 = delete i (requests p) /\
           crashed p2 = false /\
           dstep JSON_parse p2 (TimerFires (length (timers p))) = Some p3 /\
           addMessage (dashboard p3) = [] /\
           items (dashboard p3) = items (dashboard p2))) /\
  (forall response,
      is_401 response = false ->
      exists p1,
        dstep JSON_parse p (Answer i (Rejected response)) = Some p1 /\
        question (dashboard p1) = question (dashboard p) /\
        answer (dashboard p1) = answer (dashboard p) /\
        addMessage (dashboard p1) = js "Failed to add item." /\
        adding (dashboard p1) = false /\
        items (dashboard p1) = items (dashboard p) /\
        requests p1 = delete i (requests p) /\
        host p1 = host p).
Proof.
  intros Hal Hren Hr Hb.
  destruct (alive_inv p Hal) as [Hc Hm].
  destruct p as [h c o d rs al tm].
  cbn [host crashed instance dashboard requests alerts timers] in *. subst c.
  split.
  - intros status data.
    set (p1 := mkPage h false o
                 (mkDashboard (query d) (results d) (loadingSearch d) [] [] false
                    (js "Item added successfully!") (items d) true (hasMore d))
                 (delete i rs ++ [mkDRequest (GetAll ITEMS_PER_PAGE 0 authorization) o u])
                 al (tm ++ [o])).
    assert (H1 : dstep JSON_parse (mkPage h false o d rs al tm)
                   (Answer i (Resolved status data)) = Some p1).
    { unfold dstep. cbn [handle requests]. rewrite Hr.
      cbn [option_map settled call sender seen_user].
      unfold handleAdd_settled. cbv zeta.
      unfold setAddMessage, setQuestion, setAnswer, setAdding, drop_request.
      cbn [host crashed instance dashboard requests alerts timers].
      rewrite !with_dashboard_mk by done.
      cbn [query results loadingSearch question answer adding addMessage items
           loadingItems hasMore].
      rewrite (fetchItems_mk u authorization) by done.
      unfold setTimeout. cbn [host crashed instance dashboard requests alerts timers
        query results loadingSearch question answer adding addMessage items
        loadingItems hasMore].
      rewrite with_dashboard_mk by done.
      cbn [query results loadingSearch question answer adding addMessage items
           loadingItems hasMore].
      rewrite rendered_ok; [reflexivity|].
      cbn [dashboard]. by rewrite <- Hren. }
    exists p1. split; [exact H1|].
    unfold p1. cbn [dashboard requests timers question answer addMessage adding items].
    do 7 (split; [reflexivity|]).
    intros Hfirst.
    set (d2 := mkDashboard (query d) (results d) (loadingSearch d) [] [] false
                 (js "Item added successfully!") (items d) (loadingItems d) (hasMore d)).
    set (q2 := mkPage h false o d2 (delete i rs) al (tm ++ [o])).
    assert (Hal2 : alive q2 = true) by (unfold alive, q2; cbn [host crashed]; by rewrite Hm).
    assert (Hp1 : mkPage h false o
                    (mkDashboard (query d) (results d) (loadingSearch d) [] [] false
                       (js "Item added successfully!") (items d) true (hasMore d))
                    (delete i rs ++ [mkDRequest (GetAll ITEMS_PER_PAGE 0 authorization) o u])
                    al (tm ++ [o])
                  = fetchItems u (instance q2) 0 q2).
    { by rewrite (fetchItems_sends u 0 q2 authorization Hal2 Hb). }
    rewrite Hp1.
    assert (Hren2 : (if str_truthy (query (dashboard q2))
                     then forallb item_renders (results (dashboard q2))
                     else forallb item_renders
                            (if (0 =? 0)%nat then firstn ITEMS_PER_PAGE (skipn 0 all)
                             else items (dashboard q2)
                                  ++ firstn ITEMS_PER_PAGE (skipn 0 all))) = true).
    { unfold q2, d2. cbn [dashboard query results Nat.eqb skipn].
      unfold Dashboard_renders in Hren. destruct (str_truthy (query d)); done. }
    rewrite (fetched_page JSON_parse all u authorization 0 q2 Hal2 Hb Hren2).
    eexists _, _. split; [reflexivity|].
    unfold q2, d2.
    cbn [host crashed instance dashboard requests alerts timers query results loadingSearch
         question answer adding addMessage items loadingItems hasMore Nat.eqb skipn].
    do 5 (split; [reflexivity|]).
    unfold dstep. cbn [handle timers]. rewrite list_lookup_middle by done.
    cbn [option_map]. unfold setAddMessage, drop_timer.
    cbn [host crashed instance dashboard requests alerts timers].
    rewrite with_dashboard_mk by done.
    rewrite rendered_ok.
    + split; [reflexivity|]. split; reflexivity.
    + cbn [dashboard]. unfold Dashboard_renders in *.
      cbn [query results items]. destruct (str_truthy (query d)); done.
  - intros response H401.
    unfold dstep. cbn [handle requests]. rewrite Hr.
    cbn [option_map settled call sender seen_user].
    unfold handleAdd_settled. rewrite H401. cbv zeta.
    unfold setAddMessage, setAdding, drop_request.
    cbn [host crashed instance dashboard requests alerts timers].
    rewrite !with_dashboard_mk by done.
    rewrite rendered_ok by (cbn [dashboard]; by rewrite <- Hren).
    eexists. split; [reflexivity|]. repeat split.
Qed.

End DashboardContribution.

(** ** One contribution at a time *)

(** What a settled exchange does to [App]'s user. *)
Lemma settle_user_same (r : Request) (o : AxiosOutcome) (w : World) :
  reaches_setUser o = false -> user (settle r o w) = user w.
Proof.
  intros H.
  assert (Hk : forall w', user (if Login_mounted w && (owner r =? mount w)%nat then w'
                                else mkWorld (storage w') (user w') (login w) (mount w')
                                       (pending w')) = user w').
  { intros w'. destruct (_ && _); done. }
  unfold settle. rewrite Hk.
  unfold reaches_setUser in H.
  unfold handleGoogleSuccess_settled, handleRegisterSubmit_settled,
    handleGoogleSuccess_catch, handleRegisterSubmit_catch, handleLoginSuccess.
  destruct o as [st data|response].
  - destruct (truthy data && strict_eq_str (get data "status") "login_success") eqn:E.
    + cbn [andb] in H. apply bool_decide_eq_false in H.
      destruct (ToString (get data "access_token")) as [t|] eqn:Et;
        [exfalso; apply H; eauto|].
      destruct (continuation r);
        repeat match goal with |- context [if ?b then _ else _] => destruct b end; done.
    + destruct (continuation r);
        repeat match goal with |- context [if ?b then _ else _] => destruct b end; done.
  - destruct (continuation r); [|done].
    destruct response as [s|]; [destruct (s =? 202)%Z|]; done.
Qed.

Lemma settle_user_new (r : Request) (o : AxiosOutcome) (w : World) :
  reaches_setUser o = true -> Dashboard_mounted (settle r o w) = true.
Proof.
  intros H.
  assert (Hk : forall w', user (if Login_mounted w && (owner r =? mount w)%nat then w'
                                else mkWorld (storage w') (user w') (login w) (mount w')
                                       (pending w')) = user w').
  { intros w'. destruct (_ && _); done. }
  unfold Dashboard_mounted, settle. rewrite Hk.
  unfold reaches_setUser in H. destruct o as [st data|response]; [|done].
  apply andb_true_iff in H as [H Ht]. apply bool_decide_eq_true in Ht as [t Ht].
  apply andb_true_iff in H as [Hd Hs].
  unfold handleGoogleSuccess_settled, handleRegisterSubmit_settled, handleLoginSuccess.
  rewrite Hd, Hs, Ht, (login_success_not_register _ Hs). cbn [andb].
  destruct (continuation r); done.
Qed.

(** The controls of [Login] do not touch the user. *)
Lemma step_login_control_user (parse : jsstring -> option JValue) (w a : World) (e : Event) :
  match e with Settle _ _ | Logout | Reload => False | _ => True end ->
  step parse w e = Some a -> user a = user w.
Proof.
  intros He Hstep. destruct e; try done; simpl in Hstep.
  - destruct (_ && _); [|done]. by injection Hstep as <-.
  - destruct (_ && _); [|done]. by injection Hstep as <-.
  - destruct (_ && _); [|done]. injection Hstep as <-.
    by destruct (onChange_frame value w) as (_ & Hu & _).
  - destruct (_ && _); [|done]. injection Hstep as <-.
    destruct (handleRegisterSubmit_cases w) as [[_ Heq]|[_ Heq]]; by rewrite Heq.
Qed.

(** The [/add] requests of the mount [o] among [rs]. *)
Lemma own_adds_app (p : Page) (rs : list DRequest) (r : DRequest) :
  length (List.filter (fun r => is_add r && (sender r =? instance p)%nat) (rs ++ [r])) =
    (length (List.filter (fun r => is_add r && (sender r =? instance p)%nat) rs)
     + (if is_add r && (sender r =? instance p)%nat then 1 else 0))%nat.
Proof.
  rewrite List.filter_app, length_app. simpl.
  destruct (is_add r && (sender r =? instance p)%nat); simpl; lia.
Qed.

Lemma filter_delete_length {A} (f : A -> bool) (l : list A) (i : nat) (x : A) :
  l !! i = Some x ->
  length (List.filter f l) =
    (length (List.filter f (delete i l)) + (if f x then 1 else 0))%nat.
Proof.
  revert i. induction l as [|a l IH]; intros [|i] H; simpl in *; try done.
  - injection H as ->. destruct (f x); simpl; lia.
  - destruct (f a); simpl; rewrite (IH i H); lia.
Qed.

Lemma Forall_delete_sender (o : nat) (rs : list DRequest) (i : nat) :
  Forall (fun r => (sender r <= o)%nat) rs ->
  Forall (fun r => (sender r <= o)%nat) (delete i rs).
Proof. apply Forall_delete. Qed.

Lemma keeps_with_dashboard (o : nat) (f : DashboardState -> DashboardState) (p : Page) :
  keeps_adding f -> one_add_at_a_time p -> one_add_at_a_time (with_dashboard o f p).
Proof.
  intros Hf (HF & Hle & Ha). unfold one_add_at_a_time, own_adds, with_dashboard, alive in *.
  destruct (negb (crashed p) && Dashboard_mounted (host p) && (o =? instance p)%nat) eqn:E;
    cbn [host crashed instance dashboard requests]; [|done].
  split; [done|]. split; [done|]. intros H. rewrite Hf. by apply Ha.
Qed.

Lemma keeps_send (r : DRequest) (p : Page) :
  is_add r = false -> (sender r <= instance p)%nat ->
  one_add_at_a_time p -> one_add_at_a_time (send r p).
Proof.
  intros Hr Hs (HF & Hle & Ha). unfold one_add_at_a_time, own_adds, send, alive in *.
  cbn [host crashed instance dashboard requests].
  rewrite own_adds_app, Hr. cbn [andb]. rewrite Nat.add_0_r.
  split; [|done]. apply Forall_app. split; [done|]. by constructor.
Qed.

Lemma keeps_alert (message : string) (p : Page) :
  one_add_at_a_time p -> one_add_at_a_time (alert message p).
Proof. done. Qed.

Lemma keeps_setTimeout (o : nat) (p : Page) :
  one_add_at_a_time p -> one_add_at_a_time (setTimeout o p).
Proof. done. Qed.

Lemma keeps_drop_timer (i : nat) (p : Page) :
  one_add_at_a_time p -> one_add_at_a_time (drop_timer i p).
Proof. done. Qed.

Lemma keeps_logout (p : Page) :
  one_add_at_a_time p -> one_add_at_a_time (logout p).
Proof.
  intros (HF & Hle & Ha).
  destruct (logout_frame p) as (_ & Hi & _ & Hr & _).
  destruct (logout_signed_out p) as (_ & _ & Hoff & _).
  unfold one_add_at_a_time, own_adds. rewrite Hi, Hr, Hoff. done.
Qed.

Lemma keeps_rendered (p : Page) :
  one_add_at_a_time p -> one_add_at_a_time (rendered p).
Proof.
  intros (HF & Hle & Ha). unfold rendered.
  destruct (alive p && negb (Dashboard_renders (dashboard p))); [|done].
  unfold one_add_at_a_time, own_adds, alive. cbn [host crashed instance dashboard requests negb andb].
  done.
Qed.

Lemma keeps_fetchItems (u : JValue) (o offset : nat) (p : Page) :
  (o <= instance p)%nat ->
  one_add_at_a_time p -> one_add_at_a_time (fetchItems u o offset p).
Proof.
  intros Ho H. unfold fetchItems, setLoadingItems.
  destruct (bearer u).
  - apply keeps_send; [done| |by apply keeps_with_dashboard].
    cbn [sender]. by rewrite (proj1 (proj2 (proj2 (with_dashboard_frame _ _ _)))).
  - by repeat apply keeps_with_dashboard.
Qed.

(** A host that does not bring [Dashboard] to the screen. *)
Lemma keeps_set_host (a : World) (p : Page) :
  (Dashboard_mounted a = true -> Dashboard_mounted (host p) = true) ->
  one_add_at_a_time p -> one_add_at_a_time (set_host a p).
Proof.
  intros Hm (HF & Hle & Ha). unfold one_add_at_a_time, own_adds, set_host, alive in *.
  cbn [host crashed instance dashboard requests].
  split; [done|]. split; [done|]. intros H. apply Ha.
  apply andb_true_iff in H as [-> H]. by rewrite Hm.
Qed.

Lemma keeps_drop_request (i : nat) (r : DRequest) (p : Page) :
  requests p !! i = Some r ->
  is_add r && (sender r =? instance p)%nat = false ->
  one_add_at_a_time p -> one_add_at_a_time (drop_request i p).
Proof.
  intros Hr Hn (HF & Hle & Ha). unfold one_add_at_a_time, own_adds, drop_request, alive in *.
  cbn [host crashed instance dashboard requests].
  rewrite (filter_delete_length _ _ i r Hr), Hn, Nat.add_0_r in Hle, Ha.
  split; [by apply Forall_delete_sender|done].
Qed.

(** Once the [/add] request of the mount on screen is answered none is
    left, and the handler ends by lowering [adding]. *)
Lemma own_add_dropped (i : nat) (r : DRequest) (p : Page) :
  requests p !! i = Some r ->
  is_add r && (sender r =? instance p)%nat = true ->
  one_add_at_a_time p ->
  Forall (fun r => (sender r <= instance p)%nat) (requests (drop_request i p)) /\
  own_adds (drop_request i p) = 0%nat.
Proof.
  intros Hr Hn (HF & Hle & Ha). unfold own_adds, drop_request in *.
  cbn [host crashed instance dashboard requests].
  rewrite (filter_delete_length _ _ i r Hr), Hn in Hle.
  split; [by apply Forall_delete_sender|lia].
Qed.

Lemma no_own_add_with_dashboard (o : nat) (f : DashboardState -> DashboardState) (p : Page) :
  no_own_add p -> no_own_add (with_dashboard o f p).
Proof.
  unfold no_own_add, own_adds, with_dashboard. destruct (_ && _); done.
Qed.

Lemma no_own_add_logout (p : Page) : no_own_add p -> no_own_add (logout p).
Proof.
  destruct (logout_frame p) as (_ & Hi & _ & Hr & _).
  unfold no_own_add, own_adds. by rewrite Hi, Hr.
Qed.

Lemma no_own_add_fetchItems (u : JValue) (o offset : nat) (p : Page) :
  (o <= instance p)%nat -> no_own_add p -> no_own_add (fetchItems u o offset p).
Proof.
  intros Ho H. unfold fetchItems, setLoadingItems.
  destruct (bearer u); [|by repeat apply no_own_add_with_dashboard].
  apply (no_own_add_with_dashboard o
           (fun d => mkDashboard (query d) (results d) (loadingSearch d) (question d)
                       (answer d) (adding d) (addMessage d) (items d) true (hasMore d))) in H.
  destruct H as [HF H0].
  unfold no_own_add, own_adds, send in *. cbn [instance requests].
  rewrite own_adds_app. cbn [is_add call andb]. rewrite Nat.add_0_r.
  split; [|done]. apply Forall_app. split; [done|]. constructor; [|done].
  cbn [sender]. by rewrite (proj1 (proj2 (proj2 (with_dashboard_frame _ _ _)))).
Qed.

Lemma lowered_adding (p : Page) :
  no_own_add p -> one_add_at_a_time (setAdding (instance p) false p).
Proof.
  intros [HF H0]. unfold one_add_at_a_time, own_adds, setAdding, with_dashboard in *.
  rewrite Nat.eqb_refl, andb_true_r.
  destruct (alive p) eqn:E; cbn [host crashed instance dashboard requests adding].
  - rewrite H0. split; [done|]. split; [lia|done].
  - rewrite H0. split; [done|]. split; [lia|]. unfold alive in *. congruence.
Qed.

Ltac keeps_setter :=
  first [ apply keeps_with_dashboard; [intros ?; reflexivity|] ].

Lemma keeps_handleSearch (u : JValue) (key : jsstring) (p : Page) :
  one_add_at_a_time p -> one_add_at_a_time (handleSearch u (instance p) key p).
Proof.
  intros H. unfold handleSearch, setLoadingSearch.
  destruct (bool_decide _); [|done]. destruct (negb _); [done|].
  destruct (encodeURIComponent _); [destruct (bearer u)|].
  - apply keeps_send; [done| |by keeps_setter].
    cbn [sender]. by rewrite (proj1 (proj2 (proj2 (with_dashboard_frame _ _ _)))).
  - keeps_setter. apply keeps_alert. by keeps_setter.
  - keeps_setter. apply keeps_alert. by keeps_setter.
Qed.

Lemma keeps_handleAdd (u : JValue) (p : Page) :
  alive p = true -> adding (dashboard p) = false ->
  one_add_at_a_time p -> one_add_at_a_time (handleAdd u (instance p) p).
Proof.
  intros Hal Had (HF & Hle & Ha). specialize (Ha Hal). rewrite Had in Ha.
  destruct (alive_inv p Hal) as [Hc Hm].
  destruct p as [h c o d rs al tm].
  cbn [host crashed instance dashboard requests alerts timers] in *. subst c.
  unfold handleAdd, setAdding, setAddMessage. cbv zeta. cbn [dashboard instance].
  rewrite !with_dashboard_mk by done.
  destruct (bearer u).
  - unfold one_add_at_a_time, own_adds, send, alive in *.
    cbn [host crashed instance dashboard requests adding] in *.
    rewrite (own_adds_app (mkPage h false o d rs al tm)). cbn [instance is_add call sender andb].
    rewrite Nat.eqb_refl, Ha. cbn.
    split; [|split; [lia|done]].
    apply Forall_app. split; [done|]. constructor; [cbn; lia|done].
  - unfold one_add_at_a_time, own_adds, alive in *.
    cbn [host crashed instance dashboard requests adding] in *.
    rewrite Ha. split; [done|]. split; [lia|done].
Qed.

Lemma keeps_onIntersect (u : JValue) (b : bool) (p : Page) :
  one_add_at_a_time p -> one_add_at_a_time (onIntersect u (instance p) b p).
Proof.
  intros H. unfold onIntersect. destruct (_ && _); [|done].
  by apply keeps_fetchItems.
Qed.

(** The continuation of a request that is not an [/add] of the mount on
    screen. *)
Lemma keeps_settled_other (r : DRequest) (outcome : AxiosOutcome) (p : Page) :
  (sender r <= instance p)%nat ->
  is_add r && (sender r =? instance p)%nat = false ->
  one_add_at_a_time p -> one_add_at_a_time (settled r outcome p).
Proof.
  intros Hs Hn H. unfold settled, is_add in *.
  destruct (call r) as [sq au|limit offset au|aq aa au] eqn:Hc.
  - unfold handleSearch_settled, setResults, setLoadingSearch.
    destruct outcome as [st data|response]; cbv zeta.
    + keeps_setter. by keeps_setter.
    + keeps_setter. destruct (is_401 response); [by apply keeps_logout|by apply keeps_alert].
  - unfold fetchItems_settled, setItems, setHasMore, setLoadingItems.
    destruct outcome as [st data|response]; cbv zeta.
    + keeps_setter.
      destruct (_ <? _)%nat; keeps_setter; destruct (offset =? 0)%nat; by keeps_setter.
    + keeps_setter. destruct (is_401 response); [by apply keeps_logout|done].
  - cbn [andb] in Hn. apply Nat.eqb_neq in Hn.
    assert (Hst : forall f q, instance q = instance p ->
                    with_dashboard (sender r) f q = q).
    { intros f q Hq. apply with_dashboard_stale. right. congruence. }
    unfold handleAdd_settled, setAddMessage, setQuestion, setAnswer, setAdding.
    destruct outcome as [st data|response]; cbv zeta.
    + rewrite !(Hst _ p) by done.
      rewrite Hst.
      * apply keeps_setTimeout. by apply keeps_fetchItems.
      * unfold setTimeout. cbn [instance].
        by destruct (fetchItems_frame (seen_user r) (sender r) 0 p) as (_ & _ & -> & _).
    + assert (Hi : instance (if is_401 response then logout p else p) = instance p).
      { destruct (is_401 response); [|done]. by destruct (logout_frame p) as (_ & -> & _). }
      rewrite (Hst _ (if is_401 response then logout p else p) Hi).
      rewrite (Hst _ _ Hi).
      destruct (is_401 response); [by apply keeps_logout|done].
Qed.

(** The continuation of the [/add] of the mount on screen. *)
Lemma keeps_settled_own (r : DRequest) (outcome : AxiosOutcome) (p : Page) :
  is_add r && (sender r =? instance p)%nat = true ->
  no_own_add p -> one_add_at_a_time (settled r outcome p).
Proof.
  intros Hn H. unfold settled, is_add in *.
  destruct (call r) as [sq au|limit offset au|aq aa au] eqn:Hc; try done.
  cbn [andb] in Hn. apply Nat.eqb_eq in Hn. rewrite Hn.
  unfold handleAdd_settled. cbv zeta.
  destruct outcome as [st data|response].
  - set (q0 := setAnswer (instance p) []
                 (setQuestion (instance p) []
                    (setAddMessage (instance p) "Item added successfully!" p))).
    assert (H0 : no_own_add q0).
    { unfold q0, setAddMessage, setQuestion, setAnswer.
      by repeat apply no_own_add_with_dashboard. }
    assert (Hi0 : instance q0 = instance p).
    { unfold q0, setAddMessage, setQuestion, setAnswer.
      by rewrite !(proj1 (proj2 (proj2 (with_dashboard_frame _ _ _)))). }
    set (q1 := setTimeout (instance p) (fetchItems (seen_user r) (instance p) 0 q0)).
    assert (H1 : no_own_add q1).
    { unfold q1. apply (no_own_add_fetchItems (seen_user r) (instance p) 0 q0); [lia|done]. }
    assert (Hi1 : instance q1 = instance p).
    { unfold q1, setTimeout. cbn [instance].
      by destruct (fetchItems_frame (seen_user r) (instance p) 0 q0) as (_ & _ & -> & _). }
    rewrite <- Hi1. by apply lowered_adding.
  - set (q1 := setAddMessage (instance p) "Failed to add item."
                 (if is_401 response then logout p else p)).
    assert (H1 : no_own_add q1).
    { unfold q1, setAddMessage. apply no_own_add_with_dashboard.
      destruct (is_401 response); [by apply no_own_add_logout|done]. }
    assert (Hi1 : instance q1 = instance p).
    { unfold q1, setAddMessage.
      rewrite (proj1 (proj2 (proj2 (with_dashboard_frame _ _ _)))).
      destruct (is_401 response); [|done]. by destruct (logout_frame p) as (_ & -> & _). }
    rewrite <- Hi1. by apply lowered_adding.
Qed.

Lemma no_request_of_a_later_mount (n : nat) (rs : list DRequest) :
  Forall (fun r => (sender r <= n)%nat) rs ->
  length (List.filter (fun r => is_add r && (sender r =? S n)%nat) rs) = 0%nat.
Proof.
  induction 1 as [|r rs Hr _ IH]; [done|]. simpl.
  replace (sender r =? S n)%nat with false by (symmetry; apply Nat.eqb_neq; lia).
  by rewrite andb_false_r.
Qed.

(** A new mount starts with no [/add] of its own. *)
Lemma keeps_mount (p : Page) :
  Forall (fun r => (sender r <= instance p)%nat) (requests p) ->
  one_add_at_a_time (Dashboard_mount p).
Proof.
  intros HF. unfold Dashboard_mount.
  apply keeps_fetchItems; [done|].
  unfold one_add_at_a_time, own_adds.
  cbn [host crashed instance dashboard requests adding Dashboard_initial].
  rewrite (no_request_of_a_later_mount _ _ HF).
  split; [|split; [lia|done]].
  eapply Forall_impl; [exact HF|]. intros r Hr. cbn in *. lia.
Qed.

Section DashboardAdds.

Variable JSON_parse : jsstring -> option JValue.

Lemma keeps_boot (st : Storage) : one_add_at_a_time (Page_boot JSON_parse st).
Proof.
  unfold Page_boot. cbn [host].
  destruct (Dashboard_mounted (boot JSON_parse st)).
  - apply keeps_mount. cbn [requests]. constructor.
  - unfold one_add_at_a_time, own_adds. cbn. split; [constructor|]. split; [lia|done].
Qed.

Lemma keeps_host_step (p p' : Page) (e : Event) :
  one_add_at_a_time p -> host_step JSON_parse p e = Some p' -> one_add_at_a_time p'.
Proof.
  intros H Hstep. unfold host_step in Hstep.
  assert (Hui : match e with Settle _ _ | Logout | Reload => False | _ => True end ->
                (if crashed p then None
                 else option_map (fun a => set_host a p) (step JSON_parse (host p) e)) = Some p' ->
                one_add_at_a_time p').
  { intros He Hs. destruct (crashed p); [done|].
    destruct (step JSON_parse (host p) e) as [a|] eqn:Ha; [|done]. injection Hs as <-.
    apply keeps_set_host; [|done].
    unfold Dashboard_mounted. by rewrite (step_login_control_user _ _ _ _ He Ha). }
  destruct e; try (by apply Hui).
  - destruct (step JSON_parse (host p) (Settle i o)) as [a|] eqn:Ha; [|done].
    simpl in Ha. destruct (pending (host p) !! i) as [r|]; [|done]. injection Ha as <-.
    destruct (crashed p) eqn:Hc.
    { injection Hstep as <-. apply keeps_set_host; [|done]. done. }
    destruct (reaches_setUser o) eqn:Hr.
    + destruct (Dashboard_mounted (host p)) eqn:Hm; injection Hstep as <-.
      * unfold Dashboard_rerender. apply keeps_fetchItems; [done|].
        apply keeps_set_host; [by rewrite Hm|done].
      * apply keeps_mount. by destruct H.
    + injection Hstep as <-. apply keeps_set_host; [|done].
      unfold Dashboard_mounted. by rewrite (settle_user_same _ _ _ Hr).
  - injection Hstep as <-. apply keeps_boot.
Qed.

Lemma one_add_at_a_time_step (p p' : Page) (e : DEvent) :
  one_add_at_a_time p -> dstep JSON_parse p e = Some p' -> one_add_at_a_time p'.
Proof.
  intros H Hstep. unfold dstep in Hstep.
  destruct (handle JSON_parse p e) as [q|] eqn:Hq; [|done]. injection Hstep as <-.
  apply keeps_rendered.
  destruct e; cbn [handle] in Hq.
  - destruct (alive p); [|done]. injection Hq as <-. unfold setQuery. by keeps_setter.
  - destruct (alive p); [|done]. injection Hq as <-. by apply keeps_handleSearch.
  - destruct (alive p); [|done]. injection Hq as <-. unfold setQuestion. by keeps_setter.
  - destruct (alive p); [|done]. injection Hq as <-. unfold setAnswer. by keeps_setter.
  - destruct (alive p) eqn:Hal; [|done]. cbn [andb] in Hq.
    destruct (add_can_be_submitted (dashboard p)) eqn:Hs; [|done]. injection Hq as <-.
    apply keeps_handleAdd; [done| |done].
    unfold add_can_be_submitted in Hs. by destruct (adding (dashboard p)).
  - destruct (_ && _); [|done]. injection Hq as <-. by apply keeps_onIntersect.
  - destruct (alive p); [|done]. injection Hq as <-. by apply keeps_logout.
  - destruct (requests p !! i) as [r|] eqn:Hr; [|done]. injection Hq as <-.
    assert (Hsender : (sender r <= instance p)%nat).
    { destruct H as [HF _]. exact (Forall_lookup_1 _ _ _ _ HF Hr). }
    destruct (is_add r && (sender r =? instance p)%nat) eqn:Hn.
    + apply keeps_settled_own; [done|].
      by apply (own_add_dropped i r p).
    + apply keeps_settled_other; [done|done|].
      by apply (keeps_drop_request i r p).
  - destruct (timers p !! i) as [t|]; [|done]. injection Hq as <-.
    unfold setAddMessage. keeps_setter. by apply keeps_drop_timer.
  - by apply (keeps_host_step p q e).
Qed.

(** X10.  Contributions of one mount go out one at a time: in every
    state the page can reach, at most one [/add] request of the current
    mount of [Dashboard] is in flight; while [Dashboard] is on screen
    its [adding] flag (which disables the button) is up exactly while
    that request is in flight, and the form cannot be submitted then.
    Requests of earlier mounts are not counted: nothing cancels them. *)
Theorem one_add_in_flight (p : Page) :
  dreachable JSON_parse p ->
  (own_adds p <= 1)%nat /\
  (alive p = true ->
   own_adds p = if adding (dashboard p) then 1%nat else 0%nat) /\
  (alive p = true -> own_adds p = 1%nat ->
   dstep JSON_parse p SubmitAdd = None).
Proof.
  intros Hreach.
  assert (Hinv : one_add_at_a_time p).
  { induction Hreach as [st|p e p' _ IH Hstep];
      [apply keeps_boot | by eapply one_add_at_a_time_step]. }
  destruct Hinv as (_ & Hle & Ha). split; [done|]. split; [done|].
  intros Hal H1. specialize (Ha Hal). rewrite H1 in Ha.
  unfold dstep. cbn [handle]. unfold add_can_be_submitted.
  destruct (adding (dashboard p)); [|done]. by rewrite Hal.
Qed.

End DashboardAdds.

(** ** When a render throws *)

Lemma crashed_with_dashboard (o : nat) (f : DashboardState -> DashboardState) (p : Page) :
  crashed p = true -> with_dashboard o f p = p.
Proof.
  intros H. apply with_dashboard_stale. left. unfold alive. by rewrite H.
Qed.

Lemma same_fallback_refl (p : Page) : crashed p = true -> same_fallback p p.
Proof. done. Qed.

Lemma same_fallback_trans (p q r : Page) :
  same_fallback p q -> same_fallback q r -> same_fallback p r.
Proof. intros (?&?&?&?) (?&?&?&?). unfold same_fallback. repeat split; congruence. Qed.

Lemma fallback_setter (o : nat) (f : DashboardState -> DashboardState) (p : Page) :
  crashed p = true -> same_fallback p (with_dashboard o f p).
Proof. intros H. by rewrite crashed_with_dashboard. Qed.

Lemma fallback_logout (p : Page) : crashed p = true -> same_fallback p (logout p).
Proof. intros H. unfold logout, same_fallback. rewrite H. cbn. done. Qed.

Lemma fallback_fetchItems (u : JValue) (o offset : nat) (p : Page) :
  crashed p = true -> same_fallback p (fetchItems u o offset p).
Proof.
  intros H. unfold fetchItems, setLoadingItems. rewrite !crashed_with_dashboard by done.
  destruct (bearer u); done.
Qed.

Lemma fallback_settled (r : DRequest) (outcome : AxiosOutcome) (p : Page) :
  crashed p = true -> same_fallback p (settled r outcome p).
Proof.
  intros H. unfold settled.
  assert (Hl : crashed (logout p) = true) by (by destruct (logout_frame p) as (-> & _)).
  pose proof (fallback_logout p H) as Hlo.
  destruct (call r) as [sq au|limit offset au|aq aa au].
  - unfold handleSearch_settled, setResults, setLoadingSearch.
    destruct outcome as [st data|response]; cbv zeta.
    + by rewrite !(crashed_with_dashboard _ _ p).
    + destruct (is_401 response).
      * by rewrite !(crashed_with_dashboard _ _ (logout p)).
      * unfold alert. by rewrite crashed_with_dashboard.
  - unfold fetchItems_settled, setItems, setHasMore, setLoadingItems.
    destruct outcome as [st data|response]; cbv zeta.
    + destruct (offset =? 0)%nat; destruct (_ <? _)%nat;
        by rewrite !(crashed_with_dashboard _ _ p).
    + destruct (is_401 response).
      * by rewrite !(crashed_with_dashboard _ _ (logout p)).
      * by rewrite !(crashed_with_dashboard _ _ p).
  - unfold handleAdd_settled, setAddMessage, setQuestion, setAnswer, setAdding.
    destruct outcome as [st data|response]; cbv zeta.
    + rewrite !(crashed_with_dashboard _ _ p) by done.
      pose proof (fallback_fetchItems (seen_user r) (sender r) 0 p H) as Hf.
      rewrite crashed_with_dashboard; [exact Hf|].
      unfold setTimeout. cbn [crashed]. by destruct Hf.
    + destruct (is_401 response).
      * by rewrite !(crashed_with_dashboard _ _ (logout p)).
      * by rewrite !(crashed_with_dashboard _ _ p).
Qed.

Section DashboardCrash.

Variable JSON_parse : jsstring -> option JValue.

(** Behind the fallback no control is left: the only events are
    requests and timers that settle, and they change neither the user
    nor what [Dashboard] held. *)
Lemma fallback_step (p p' : Page) (e : DEvent) :
  crashed p = true ->
  e <> Host Reload ->
  dstep JSON_parse p e = Some p' ->
  user_event e = false /\ same_fallback p p'.
Proof.
  intros Hc He Hstep. unfold dstep in Hstep.
  destruct (handle JSON_parse p e) as [q|] eqn:Hq; [|done]. injection Hstep as <-.
  assert (Hal : alive p = false) by (unfold alive; by rewrite Hc).
  assert (Hr : forall q, same_fallback p q -> same_fallback p (rendered q)).
  { intros q0 Hs. rewrite rendered_off; [done|]. unfold alive. by destruct Hs as (-> & _). }
  destruct e; cbn [handle] in Hq; rewrite ?Hal in Hq; try done.
  - destruct (requests p !! i) as [r|]; [|done]. injection Hq as <-.
    split; [done|]. apply Hr.
    apply (same_fallback_trans p (drop_request i p)); [done|].
    by apply fallback_settled.
  - destruct (timers p !! i) as [t|]; [|done]. injection Hq as <-.
    split; [done|]. apply Hr. unfold setAddMessage.
    by rewrite crashed_with_dashboard.
  - unfold host_step in Hq. rewrite Hc in Hq.
    destruct e; try done.
    destruct (step JSON_parse (host p) (Settle i o)); [|done]. injection Hq as <-.
    split; [done|]. apply Hr. done.
Qed.

Lemma fallback_run (es : list DEvent) (p p' : Page) :
  crashed p = true ->
  Forall (fun e => e <> Host Reload) es ->
  drun JSON_parse p es = Some p' ->
  Forall (fun e => user_event e = false) es /\ same_fallback p p'.
Proof.
  revert p. induction es as [|e es IH]; intros p Hc Hes Hrun; simpl in Hrun.
  - injection Hrun as <-. done.
  - inversion Hes as [|? ? He Hes']; subst.
    destruct (dstep JSON_parse p e) as [p1|] eqn:Hstep; [|done].
    destruct (fallback_step p p1 e Hc He Hstep) as [Hu Hs].
    destruct (IH p1) as [Hus Hs']; [by destruct Hs|done|done|].
    split; [by constructor|]. by apply (same_fallback_trans p p1).
Qed.

(** X14.  An answer to [fetchItems] of the mount on screen that holds an
    entry the list cannot render ([null], for one), arriving while the
    list of all items is shown, makes the render throw: [ErrorBoundary]
    replaces the application, storage and the user being left as they
    were.  From then on, until the page is loaded again, no control of
    the page can be used, and the requests and timers that still settle
    change neither the user nor the state [Dashboard] had. *)
Theorem unrenderable_item_replaces_the_app
  (p : Page) (i : nat) (limit offset : nat) (authorization : jsstring) (u : JValue)
  (status : Z) (data : list JValue) :
  alive p = true ->
  query (dashboard p) = [] ->
  requests p !! i = Some (mkDRequest (GetAll limit offset authorization) (instance p) u) ->
  forallb item_renders data = false ->
  exists p',
    dstep JSON_parse p (Answer i (Resolved status (JArr data))) = Some p' /\
    crashed p' = true /\
    host p' = host p /\
    forall es p'',
      Forall (fun e => e <> Host Reload) es ->
      drun JSON_parse p' es = Some p'' ->
      Forall (fun e => user_event e = false) es /\
      crashed p'' = true /\
      user (host p'') = user (host p) /\
      dashboard p'' = dashboard p'.
Proof.
  intros Hal Hq Hr Hbad.
  destruct (alive_inv p Hal) as [Hc Hm].
  destruct p as [h c o d rs al tm].
  cbn [host crashed instance dashboard requests alerts timers] in *. subst c.
  unfold dstep. cbn [handle requests]. rewrite Hr.
  cbn [option_map settled call sender].
  unfold drop_request. cbn [host crashed instance dashboard requests alerts timers].
  rewrite (fetchItems_settled_page offset status data (mkPage h false o d (delete i rs) al tm))
    by (unfold alive; cbn [host crashed]; by rewrite Hm).
  cbn [host crashed instance dashboard requests alerts timers].
  unfold rendered, alive, Dashboard_renders.
  cbn [host crashed instance dashboard requests alerts timers query items negb andb].
  rewrite Hm, Hq, str_truthy_nil.
  assert (Hnew : forallb item_renders
                   (if (offset =? 0)%nat then data else items d ++ data) = false).
  { destruct (offset =? 0)%nat; [done|]. rewrite forallb_app, Hbad. apply andb_false_r. }
  rewrite Hnew. cbn [negb andb].
  eexists. split; [reflexivity|].
  split; [reflexivity|]. split; [reflexivity|].
  intros es p'' Hes Hrun.
  eapply fallback_run in Hrun as [Hu (Hc' & Hd & Hus & _)]; [|reflexivity|exact Hes].
  done.
Qed.

End DashboardCrash.

(** ** The pages that can be reached *)

Section DashboardReach.

Variable JSON_parse : jsstring -> option JValue.

Lemma drun_dreachable (es : list DEvent) (p p' : Page) :
  dreachable JSON_parse p -> drun JSON_parse p es = Some p' -> dreachable JSON_parse p'.
Proof.
  revert p. induction es as [|e es IH]; intros p Hp Hrun; simpl in Hrun.
  - by injection Hrun as <-.
  - destruct (dstep JSON_parse p e) as [p1|] eqn:Hstep; [|done].
    apply (IH p1); [by eapply dreach_step|done].
Qed.

(** Whatever is on screen has been rendered without an error. *)
Lemma reachable_renders (p : Page) :
  dreachable JSON_parse p -> alive p = true -> Dashboard_renders (dashboard p) = true.
Proof.
  intros Hreach. destruct Hreach as [st|p e p' _ Hstep].
  - unfold Page_boot. cbn [host]. destruct (Dashboard_mounted (boot JSON_parse st)) eqn:Hm.
    + intros _. unfold Dashboard_mount, fetchItems, setLoadingItems.
      cbn [host crashed instance dashboard requests alerts timers].
      rewrite with_dashboard_mk by done.
      destruct (bearer _); [reflexivity|].
      rewrite with_dashboard_mk by done. reflexivity.
    + unfold alive. cbn [host crashed]. by rewrite Hm.
  - unfold dstep in Hstep. destruct (handle JSON_parse p e) as [q|]; [|done].
    injection Hstep as <-. unfold rendered.
    destruct (alive q) eqn:Hq; cbn [andb].
    + destruct (Dashboard_renders (dashboard q)) eqn:Hr; cbn [negb]; [done|].
      unfold alive. cbn [crashed]. done.
    + by rewrite Hq.
Qed.

End DashboardReach.

(** Nothing cancels a request: after a contribution, a logout before
    its answer, a new login and a second contribution, two [/add]
    requests are in flight, one of each mount. *)
Example two_adds_across_mounts :
  exists p,
    drun json_parse Ada_loading contribute_twice = Some p /\
    instance p = 2%nat /\
    is_add <$> requests p = [true; true] /\
    sender <$> requests p = [1%nat; 2%nat] /\
    own_adds p = 1%nat.
Proof. eexists. split; [vm_compute; reflexivity|]. vm_compute. done. Qed.

(** ** These theorems at concrete inputs *)

Lemma session_only_changes_on_success_logout_reload_witness :
  exists w',
    step json_parse exchanging_B (Settle 0 (Resolved 200 ada_success)) = Some w' /\
    user w' <> user exchanging_B /\
    ((exists i status data,
         Settle 0 (Resolved 200 ada_success) = Settle i (Resolved status data) /\
         strict_eq_str (get data "status") "login_success" = true)
     \/ Settle 0 (Resolved 200 ada_success) = Logout
     \/ Settle 0 (Resolved 200 ada_success) = Reload).
Proof.
  eexists. split; [vm_compute; reflexivity|]. split; [vm_compute; discriminate|].
  eapply (session_only_changes_on_success_logout_reload json_parse exchanging_B _
            (Settle 0 (Resolved 200 ada_success)));
    [vm_compute; reflexivity | right; vm_compute; discriminate].
Defined.

Lemma relogin_overwrites_witness :
  exists w1 w2,
    handleLoginSuccess ada_success fresh = Some w1 /\
    handleLoginSuccess bob_success w1 = Some w2 /\
    exists w2',
      handleLoginSuccess bob_success fresh = Some w2' /\
      storage w2 = storage w2' /\ user w2 = user w2' /\
      (forall k, k <> js "access_token" -> k <> js "user_data" ->
                 storage w2 !! k = storage fresh !! k).
Proof.
  eexists _, _. split; [vm_compute; reflexivity|]. split; [vm_compute; reflexivity|].
  eapply (relogin_overwrites ada_success bob_success fresh _ _); vm_compute; reflexivity.
Defined.

Lemma logout_then_reload_is_signed_out_witness :
  exists w1 w2,
    step json_parse authenticated_Ada Logout = Some w1 /\
    step json_parse w1 Reload = Some w2 /\
    getItem "access_token" (storage w2) = None /\
    getItem "user_data" (storage w2) = None /\
    (forall k, k <> js "access_token" -> k <> js "user_data" ->
               storage w2 !! k = storage authenticated_Ada !! k) /\
    user w2 = JNull /\ phase w2 = Idle /\ pending w2 = [] /\
    google_widget_rendered (login w2) = true.
Proof.
  eexists _, _. split; [vm_compute; reflexivity|]. split; [vm_compute; reflexivity|].
  eapply (logout_then_reload_is_signed_out json_parse authenticated_Ada _ _);
    vm_compute; reflexivity.
Defined.

Lemma session_survives_reload_witness :
  pending exchanging_B !! 0%nat =
    Some (mkRequest (JObj [(js "token", tok_B)]) (AfterGoogleSuccess tok_B) 0) /\
  json_parse (JSON_stringify (JObj [(js "name", JStr (js "Ada")); (js "token", JStr (js "abc"))]))
    = Some (JObj [(js "name", JStr (js "Ada")); (js "token", JStr (js "abc"))]) /\
  exists w1 w2,
    step json_parse exchanging_B (Settle 0 (Resolved 200 ada_success)) = Some w1 /\
    step json_parse w1 Reload = Some w2 /\
    phase w2 = Authenticated /\
    user w2 = user w1 /\
    storage w2 = storage w1 /\
    user w2 = JObj [(js "name", if typeof_string (get ada_success "username")
                                then get ada_success "username" else JStr (js "User"));
                    (js "token", JStr (js "abc"))].
Proof.
  split; [vm_compute; reflexivity|]. split; [vm_compute; reflexivity|].
  apply (session_survives_reload json_parse exchanging_B 0
           (mkRequest (JObj [(js "token", tok_B)]) (AfterGoogleSuccess tok_B) 0)
           200 ada_success (js "abc"));
    [vm_compute; reflexivity | vm_compute; reflexivity | vm_compute; reflexivity
    | vm_compute; discriminate | vm_compute; reflexivity].
Defined.

Lemma login_success_without_token_witness :
  get tokenless_success "access_token" = JUndefined /\
  exists w',
    step json_parse exchanging_B (Settle 0 (Resolved 200 tokenless_success)) = Some w' /\
    phase w' = Authenticated /\
    get (user w') "name" = JStr (js "Ada") /\
    get (user w') "token" = JUndefined /\
    getItem "access_token" (storage w') = Some (js "undefined") /\
    getItem "user_data" (storage w') =
      Some (js "{" ++ dq "name" ++ js ":" ++ QuoteJSONString (js "Ada") ++ js "}").
Proof.
  split; [vm_compute; reflexivity|].
  apply (login_success_without_token json_parse exchanging_B 0
           (mkRequest (JObj [(js "token", tok_B)]) (AfterGoogleSuccess tok_B) 0)
           200 tokenless_success (js "Ada"));
    vm_compute; reflexivity.
Defined.

Lemma isLoggingIn_needs_a_request_in_flight_witness :
  reachable json_parse awaiting_B /\
  Login_mounted awaiting_B = true /\
  pending awaiting_B = [] /\
  isLoggingIn (login awaiting_B) = false /\
  submit_button_disabled (login awaiting_B) = false.
Proof.
  assert (Hreach : reachable json_parse awaiting_B).
  { apply (run_reachable json_parse
             [GoogleSuccess tok_B; Settle 0 (Resolved 200 register_required_body)]
             fresh); [apply reach_boot | vm_compute; reflexivity]. }
  split; [exact Hreach|]. split; [vm_compute; reflexivity|]. split; [reflexivity|].
  apply (isLoggingIn_needs_a_request_in_flight json_parse awaiting_B Hreach);
    [vm_compute; reflexivity|].
  intros r Hr. apply elem_of_nil in Hr. destruct Hr.
Defined.

Lemma registration_form_is_not_left_witness :
  Login_mounted awaiting_B = true /\
  isRegistering (login awaiting_B) = true /\
  run json_parse awaiting_B [ChangeName (js "Grace"); ClickSubmit] = Some submitting_Grace /\
  ((Login_mounted submitting_Grace = true /\ isRegistering (login submitting_Grace) = true /\
    forall credential, step json_parse submitting_Grace (GoogleSuccess credential) = None)
   \/
   (exists es1 es2 wa,
       [ChangeName (js "Grace"); ClickSubmit] = es1 ++ es2 /\
       run json_parse awaiting_B es1 = Some wa /\ Dashboard_mounted wa = true)).
Proof.
  split; [vm_compute; reflexivity|]. split; [vm_compute; reflexivity|].
  split; [vm_compute; reflexivity|].
  apply (registration_form_is_not_left json_parse [ChangeName (js "Grace"); ClickSubmit]
           awaiting_B submitting_Grace);
    [vm_compute; reflexivity | vm_compute; reflexivity
    | repeat constructor; discriminate | vm_compute; reflexivity].
Defined.

Lemma infinite_scroll_pages_witness :
  crashed Ada_signed_in = false /\
  Dashboard_mounted (host Ada_signed_in) = true /\
  bearer (user (host Ada_signed_in)) = Some (js "Bearer abc") /\
  forallb item_renders twelve_items = true /\
  exists p1 pk,
    backend_answers json_parse twelve_items (Dashboard_mount Ada_signed_in) = Some p1 /\
    scroll json_parse twelve_items 1 p1 = Some pk /\
    items (dashboard pk) = firstn (ITEMS_PER_PAGE * (1 + 1)) twelve_items /\
    crashed pk = false /\
    requests pk = requests Ada_signed_in /\
    loadingItems (dashboard pk) = false /\
    hasMore (dashboard pk) = (ITEMS_PER_PAGE * (1 + 1) <=? length twelve_items)%nat /\
    ((length twelve_items < ITEMS_PER_PAGE * (1 + 1))%nat ->
     items (dashboard pk) = twelve_items /\
     forall isIntersecting, dstep json_parse pk (Intersect isIntersecting) = None).
Proof.
  split; [vm_compute; reflexivity|]. split; [vm_compute; reflexivity|].
  split; [vm_compute; reflexivity|]. split; [vm_compute; reflexivity|].
  apply (infinite_scroll_pages json_parse twelve_items Ada_signed_in (js "Bearer abc") 1);
    vm_compute; reflexivity.
Defined.

Lemma only_logout_ends_the_session_witness :
  exists p',
    dstep json_parse Ada_contributing (Answer 0 (Rejected (Some 401%Z))) = Some p' /\
    ((Answer 0 (Rejected (Some 401%Z)) = ClickLogout \/
      exists i, Answer 0 (Rejected (Some 401%Z)) = Answer i (Rejected (Some 401%Z))) ->
     getItem "access_token" (storage (host p')) = None /\
     getItem "user_data" (storage (host p')) = None /\
     alive p' = false /\
     (crashed Ada_contributing = false ->
      host p' = App_logout (host Ada_contributing) /\ user (host p') = JNull)) /\
    (Answer 0 (Rejected (Some 401%Z)) <> ClickLogout ->
     (forall i, Answer 0 (Rejected (Some 401%Z)) <> Answer i (Rejected (Some 401%Z))) ->
     host p' = host Ada_contributing).
Proof.
  eexists. split; [vm_compute; reflexivity|].
  eapply (only_logout_ends_the_session json_parse Ada_contributing _
            (Answer 0 (Rejected (Some 401%Z))));
    [vm_compute; reflexivity | intros h; discriminate].
Defined.

Lemma one_add_in_flight_witness :
  exists p,
    drun json_parse Ada_loading
      [ChangeQuestion (js "Why?"); ChangeAnswer (js "Because."); SubmitAdd] = Some p /\
    dreachable json_parse p /\
    (own_adds p <= 1)%nat /\
    (alive p = true ->
     own_adds p = if adding (dashboard p) then 1%nat else 0%nat) /\
    (alive p = true -> own_adds p = 1%nat ->
     dstep json_parse p SubmitAdd = None).
Proof.
  eexists. split; [vm_compute; reflexivity|].
  match goal with
  | |- dreachable _ ?p /\ _ =>
      assert (Hreach : dreachable json_parse p)
        by (apply (drun_dreachable json_parse
                     [ChangeQuestion (js "Why?"); ChangeAnswer (js "Because."); SubmitAdd]
                     Ada_loading);
            [apply dreach_boot | vm_compute; reflexivity]);
      split; [exact Hreach|];
      exact (one_add_in_flight json_parse p Hreach)
  end.
Defined.

Lemma search_is_sent_encoded_witness :
  alive Ada_searching = true /\
  Dashboard_renders (dashboard Ada_searching) = true /\
  Forall (fun c => c < 65536) (query (dashboard Ada_searching)) /\
  exists p',
    dstep json_parse Ada_searching (KeyDown (js "Enter")) = Some p' /\
    (js "Enter" <> js "Enter" \/ blank (query (dashboard Ada_searching)) = true ->
     p' = Ada_searching) /\
    (js "Enter" = js "Enter" -> blank (query (dashboard Ada_searching)) = false ->
     (forall q authorization,
         encodeURIComponent (query (dashboard Ada_searching)) = Some q ->
         bearer (user (host Ada_searching)) = Some authorization ->
         requests p' = requests Ada_searching ++
           [mkDRequest (GetSearch q authorization) (instance Ada_searching)
                       (user (host Ada_searching))] /\
         loadingSearch (dashboard p') = true /\
         alerts p' = alerts Ada_searching /\
         Forall (fun c => url_safe c = true) q) /\
     (encodeURIComponent (query (dashboard Ada_searching)) = None \/
      bearer (user (host Ada_searching)) = None ->
      requests p' = requests Ada_searching /\
      loadingSearch (dashboard p') = false /\
      alerts p' = alerts Ada_searching ++ [js "Search failed"])).
Proof.
  assert (Hq : Forall (fun c => c < 65536) (query (dashboard Ada_searching)))
    by (vm_compute; repeat constructor).
  split; [vm_compute; reflexivity|]. split; [vm_compute; reflexivity|].
  split; [exact Hq|].
  apply (search_is_sent_encoded json_parse Ada_searching (js "Enter"));
    [vm_compute; reflexivity | vm_compute; reflexivity | exact Hq].
Defined.

Lemma contribution_outcomes_witness :
  alive Ada_contributing = true /\
  Dashboard_renders (dashboard Ada_contributing) = true /\
  bearer (user authenticated_Ada) = Some (js "Bearer abc") /\
  (forall status data,
      exists p1,
        dstep json_parse Ada_contributing (Answer 0 (Resolved status data)) = Some p1 /\
        requests p1 = delete 0%nat (requests Ada_contributing) ++
          [mkDRequest (GetAll ITEMS_PER_PAGE 0 (js "Bearer abc"))
                      (instance Ada_contributing) (user authenticated_Ada)] /\
        timers p1 = timers Ada_contributing ++ [instance Ada_contributing] /\
        question (dashboard p1) = [] /\ answer (dashboard p1) = [] /\
        addMessage (dashboard p1) = js "Item added successfully!" /\
        adding (dashboard p1) = false /\
        items (dashboard p1) = items (dashboard Ada_contributing) /\
        (forallb item_renders (firstn ITEMS_PER_PAGE twelve_items) = true ->
         exists p2 p3,
           backend_answers json_parse twelve_items p1 = Some p2 /\
           items (dashboard p2) = firstn ITEMS_PER_PAGE twelve_items /\
           hasMore (dashboard p2) = (ITEMS_PER_PAGE <=? length twelve_items)%nat /\
           loadingItems (dashboard p2) = false /\
           requests p2 = delete 0%nat (requests Ada_contributing) /\
           crashed p2 = false /\
           dstep json_parse p2 (TimerFires (length (timers Ada_contributing))) = Some p3 /\
           addMessage (dashboard p3) = [] /\
           items (dashboard p3) = items (dashboard p2))) /\
  (forall response,
      is_401 response = false ->
      exists p1,
        dstep json_parse Ada_contributing (Answer 0 (Rejected response)) = Some p1 /\
        question (dashboard p1) = question (dashboard Ada_contributing) /\
        answer (dashboard p1) = answer (dashboard Ada_contributing) /\
        addMessage (dashboard p1) = js "Failed to add item." /\
        adding (dashboard p1) = false /\
        items (dashboard p1) = items (dashboard Ada_contributing) /\
        requests p1 = delete 0%nat (requests Ada_contributing) /\
        host p1 = host Ada_contributing).
Proof.
  split; [vm_compute; reflexivity|]. split; [vm_compute; reflexivity|].
  split; [vm_compute; reflexivity|].
  apply (contribution_outcomes json_parse twelve_items Ada_contributing 0
           (js "Why?") (js "Because.") (js "Bearer abc") (user authenticated_Ada));
    vm_compute; reflexivity.
Defined.

Lemma unrenderable_item_replaces_the_app_witness :
  alive Ada_loading = true /\
  requests Ada_loading !! 0%nat =
    Some (mkDRequest (GetAll 10 0 (js "Bearer abc")) (instance Ada_loading)
                     (user authenticated_Ada)) /\
  forallb item_renders [JNull] = false /\
  exists p',
    dstep json_parse Ada_loading (Answer 0 (Resolved 200 (JArr [JNull]))) = Some p' /\
    crashed p' = true /\
    host p' = host Ada_loading /\
    forall es p'',
      Forall (fun e => e <> Host Reload) es ->
      drun json_parse p' es = Some p'' ->
      Forall (fun e => user_event e = false) es /\
      crashed p'' = true /\
      user (host p'') = user (host Ada_loading) /\
      dashboard p'' = dashboard p'.
Proof.
  split; [vm_compute; reflexivity|]. split; [vm_compute; reflexivity|].
  split; [vm_compute; reflexivity|].
  apply (unrenderable_item_replaces_the_app json_parse Ada_loading 0 10 0
           (js "Bearer abc") (user authenticated_Ada) 200 [JNull]);
    vm_compute; reflexivity.
Defined.
